(** * AI commit message generator: git state detection, staged diff
      synthesis, prompt construction and the retrying generation client.

    The development embeds the Go packages [git] (state detection, staged
    diff) and [ai] (prompt builder, Ollama client) as Rocq functions and
    states the properties of the design document over them.

    Conventions.  A Go [string] is a sequence of bytes: it is modelled by
    [string], whose [ascii] elements are the bytes, so [String.length] is
    Go's [len].  A Go result pair [(v, err)] is modelled by a pair whose
    second component is an [error], [None] standing for [nil]. *)

From Stdlib Require Import String Ascii List ZArith Lia Bool DecimalString.
Import ListNotations.

Local Open Scope string_scope.

(** ** Go values shared by the packages *)

(** An [error] value, represented by the text [err.Error()] returns;
    [None] is [nil]. *)
Definition error : Type := option string.

(** The line feed and the double quote, which string literals cannot
    spell directly. *)
Definition LF : ascii := ascii_of_nat 10.
Definition nl : string := String LF EmptyString.
Definition dq : string := String (ascii_of_nat 34) EmptyString.

Definition backslash : ascii := ascii_of_nat 92.

(** [lit s] reads [s] as a Go interpreted string literal: the two bytes
    backslash, [n] stand for a line feed (the only escape the literals of
    the program use besides the escaped quote, written [dq] here). *)
Fixpoint lit (s : string) : string :=
  match s with
  | EmptyString => EmptyString
  | String c rest =>
      match rest with
      | EmptyString => String c EmptyString
      | String d rest' =>
          if Ascii.eqb c backslash && Ascii.eqb d "n"
          then String LF (lit rest')
          else String c (lit rest)
      end
  end.

(** [len(s)] as a Go [int]. *)
Definition len (s : string) : Z := Z.of_nat (String.length s).

(** [strings.Builder]: the text written so far; [WriteString] appends. *)
Definition WriteString (sb s : string) : string := sb ++ s.

Notation "sb <<< s" := (WriteString sb s) (at level 61, left associativity).

(** ** Package [unicode/utf8] and [unicode] *)

Module utf8.

(** [EncodeRune] for the code points of the Basic Multilingual Plane. *)
Definition EncodeRune (r : Z) : list ascii :=
  let byte (z : Z) := ascii_of_N (Z.to_N z) in
  if (r <? 128)%Z then [byte r]
  else if (r <? 2048)%Z then
    [byte (Z.lor 192 (Z.shiftr r 6)); byte (Z.lor 128 (Z.land r 63))]
  else
    [byte (Z.lor 224 (Z.shiftr r 12));
     byte (Z.lor 128 (Z.land (Z.shiftr r 6) 63));
     byte (Z.lor 128 (Z.land r 63))].

End utf8.

Module unicode.

(** The code points for which [unicode.IsSpace] holds: the Latin-1 spaces
    and the other members of the White_Space property. *)
Definition White_Space : list Z :=
  [ 9; 10; 11; 12; 13; 32; 133; 160;
    5760;
    8192; 8193; 8194; 8195; 8196; 8197; 8198; 8199; 8200; 8201; 8202;
    8232; 8233; 8239; 8287; 12288 ]%Z.

End unicode.

(** ** Package [strings] *)

Module strings.

(** [strings.Split(s, sep)] for a separator of one byte, the only kind the
    program uses ([sep] is always the line feed).  The result is never
    empty: a string without separator is returned whole. *)
Fixpoint Split (s : string) (sep : ascii) : list string :=
  match s with
  | EmptyString => [EmptyString]
  | String c rest =>
      if Ascii.eqb c sep then EmptyString :: Split rest sep
      else match Split rest sep with
           | [] => [String c EmptyString]
           | h :: t => String c h :: t
           end
  end.

(** [strings.Join(elems, sep)]. *)
Fixpoint Join (elems : list string) (sep : string) : string :=
  match elems with
  | [] => EmptyString
  | e :: rest =>
      match rest with
      | [] => e
      | _ :: _ => e ++ sep ++ Join rest sep
      end
  end.

(** [strings.HasPrefix(s, prefix)]. *)
Definition HasPrefix (s prefix : string) : bool := String.prefix prefix s.

(** [stripToken t l] removes the bytes [t] from the front of [l]. *)
Fixpoint stripToken (t l : list ascii) : option (list ascii) :=
  match t with
  | [] => Some l
  | a :: t' =>
      match l with
      | [] => None
      | b :: l' => if Ascii.eqb a b then stripToken t' l' else None
      end
  end.

(** [leadingSpace tokens l]: the rest of [l] after its first rune when
    that rune is a space, given the byte sequences that spell spaces. *)
Fixpoint leadingSpace (tokens : list (list ascii)) (l : list ascii)
  : option (list ascii) :=
  match tokens with
  | [] => None
  | t :: ts =>
      match stripToken t l with
      | Some rest => Some rest
      | None => leadingSpace ts l
      end
  end.

(** Drop space runes from the front, at most [fuel] of them. *)
Fixpoint dropSpaces (tokens : list (list ascii)) (fuel : nat)
  (l : list ascii) : list ascii :=
  match fuel with
  | O => l
  | S f =>
      match leadingSpace tokens l with
      | Some rest => dropSpaces tokens f rest
      | None => l
      end
  end.

(** The UTF-8 spellings of the white space runes.  Go decodes a rune as a
    space exactly when the bytes are the (unique, shortest) encoding of a
    white space code point; malformed input decodes to [RuneError], which
    is no space. *)
Definition spaceTokens : list (list ascii) :=
  Eval cbv in map utf8.EncodeRune unicode.White_Space.

(** [strings.TrimSpace(s)]: [s] without its leading and trailing white
    space runes ([TrimLeftFunc] then [TrimRightFunc] with
    [unicode.IsSpace]; the ASCII fast path computes the same slice). *)
Definition TrimSpace (s : string) : string :=
  let l := list_ascii_of_string s in
  let l1 := dropSpaces spaceTokens (length l) l in
  let r1 := dropSpaces (map (@rev ascii) spaceTokens) (length l1) (rev l1) in
  string_of_list_ascii (rev r1).

End strings.

(** ** Package [os] and [path/filepath] *)

Module os.

(** The error of a failed file-system call; [os.IsNotExist] recognises
    the first kind. *)
Inductive PathError : Type :=
| ErrNotExist
| ErrOther (msg : string).

Record FileInfo : Type := { IsDir : bool }.

(** The operating system as the program sees it: [os.Stat], [os.ReadFile]
    and [os.Getwd], and [filepath.Join] on two elements. *)
Record System : Type := {
  Stat : string -> FileInfo + PathError;
  ReadFile : string -> string + PathError;
  Getwd : string * error;
  Join : string -> string -> string
}.

(** [os.IsNotExist(err)] on the error of a [Stat] result. *)
Definition IsNotExist (r : FileInfo + PathError) : bool :=
  match r with
  | inr ErrNotExist => true
  | _ => false
  end.

End os.

(** ** The go-git library, as far as the program uses it *)

Module gogit.

(** [StatusCode]: the status of a file in the index or the worktree. *)
Inductive StatusCode : Type :=
| Unmodified | Untracked | Modified | Added | Deleted | Renamed | Copied
| UpdatedButUnmerged.

Definition StatusCode_eqb (a b : StatusCode) : bool :=
  match a, b with
  | Unmodified, Unmodified | Untracked, Untracked | Modified, Modified
  | Added, Added | Deleted, Deleted | Renamed, Renamed | Copied, Copied
  | UpdatedButUnmerged, UpdatedButUnmerged => true
  | _, _ => false
  end.

Record FileStatus : Type := {
  Staging : StatusCode;
  Worktree : StatusCode;
  Extra : string
}.

(** A [Status] is a Go map from paths to file statuses; the program only
    ranges over it, so it is given as the entries in the order the range
    statement visits them (an order Go leaves unspecified). *)
Definition Status : Type := list (string * FileStatus).

Definition Hash : Type := string.

Record TreeEntry : Type := { EntryHash : Hash }.

(** A blob: its size and the outcome of [blob.Reader()], which on success
    is the [Size]-byte buffer as the single [reader.Read] call leaves it. *)
Record Blob : Type := {
  Size : Z;
  Reader : string + string
}.

Record Tree : Type := { FindEntry : string -> TreeEntry + string }.

Record Commit : Type := { CommitTree : Tree + string }.

(** The outcome of [repo.Head()]: a reference, the error
    [plumbing.ErrReferenceNotFound], or another error. *)
Inductive HeadResult : Type :=
| HeadRef (h : Hash)
| ErrReferenceNotFound
| HeadErr (msg : string).

(** The handle [repo.Worktree()] returns, with its [Status()]. *)
Record WorktreeHandle : Type := { GetStatus : Status + string }.

Record Repository : Type := {
  GetWorktree : WorktreeHandle + string;
  Head : HeadResult;
  CommitObject : Hash -> Commit + string;
  BlobObject : Hash -> Blob + string
}.

End gogit.

(** ** Package [git]: repository state *)

Module git.

(** [GitStateType] is an [int] with four named values. *)
Definition GitStateType : Type := Z.

Definition StateNormal : GitStateType := 0%Z.
Definition StateMerge : GitStateType := 1%Z.
Definition StateRebase : GitStateType := 2%Z.
Definition StateCherryPick : GitStateType := 3%Z.

(** The [String] method of [GitStateType]. *)
Definition GitStateType_String (s : GitStateType) : string :=
  if (s =? StateNormal)%Z then "normal"
  else if (s =? StateMerge)%Z then "merge"
  else if (s =? StateRebase)%Z then "rebase"
  else if (s =? StateCherryPick)%Z then "cherry-pick"
  else "unknown".

Record GitState : Type := {
  Type_ : GitStateType;
  OriginalMessage : string;
  ConflictMode : bool
}.

(** Assignments to the fields of the state under construction. *)
Definition setType (st : GitState) (t : GitStateType) : GitState :=
  {| Type_ := t; OriginalMessage := OriginalMessage st;
     ConflictMode := ConflictMode st |}.

Definition setConflictMode (st : GitState) (b : bool) : GitState :=
  {| Type_ := Type_ st; OriginalMessage := OriginalMessage st;
     ConflictMode := b |}.

Definition setOriginalMessage (st : GitState) (m : string) : GitState :=
  {| Type_ := Type_ st; OriginalMessage := m;
     ConflictMode := ConflictMode st |}.

(** [filterCommentLines] removes git comment lines from a message. *)
Definition filterCommentLines (message : string) : string :=
  let lines := strings.Split message LF in
  let filtered :=
    fold_left
      (fun (filtered : list string) (line : string) =>
         let trimmed := strings.TrimSpace line in
         if negb (strings.HasPrefix trimmed "#")
            && negb (String.eqb trimmed EmptyString)
         then (filtered ++ [line])%list
         else filtered)
      lines [] in
  strings.Join filtered nl.

(** [err == nil] on a [Stat] result. *)
Definition statOK (r : os.FileInfo + os.PathError) : bool :=
  match r with inl _ => true | inr _ => false end.

(** [err == nil && info.IsDir()] on a [Stat] result. *)
Definition statDir (r : os.FileInfo + os.PathError) : bool :=
  match r with inl info => os.IsDir info | inr _ => false end.

(** [DetectGitState] detects the current git state by inspecting the
    [.git] directory. *)
Definition DetectGitState (sys : os.System) (repoRoot : string)
  : option GitState * error :=
  let gitDir := os.Join sys repoRoot ".git" in
  if os.IsNotExist (os.Stat sys gitDir) then
    (None, Some ("not a git repository: " ++ repoRoot))
  else
    let state :=
      {| Type_ := StateNormal; OriginalMessage := EmptyString;
         ConflictMode := false |} in
    let mergeHeadPath := os.Join sys gitDir "MERGE_HEAD" in
    if statOK (os.Stat sys mergeHeadPath) then
      let state := setType state StateMerge in
      let state := setConflictMode state true in
      let mergeMsgPath := os.Join sys gitDir "MERGE_MSG" in
      let state :=
        match os.ReadFile sys mergeMsgPath with
        | inl content =>
            setOriginalMessage state
              (filterCommentLines (strings.TrimSpace content))
        | inr _ => state
        end in
      (Some state, None)
    else
    let cherryPickHeadPath := os.Join sys gitDir "CHERRY_PICK_HEAD" in
    if statOK (os.Stat sys cherryPickHeadPath) then
      let state := setType state StateCherryPick in
      let state := setConflictMode state true in
      let commitEditMsgPath := os.Join sys gitDir "COMMIT_EDITMSG" in
      let state :=
        match os.ReadFile sys commitEditMsgPath with
        | inl content =>
            setOriginalMessage state
              (filterCommentLines (strings.TrimSpace content))
        | inr _ => state
        end in
      (Some state, None)
    else
    let rebaseMergePath := os.Join sys gitDir "rebase-merge" in
    let rebaseApplyPath := os.Join sys gitDir "rebase-apply" in
    if statDir (os.Stat sys rebaseMergePath) then
      let state := setType state StateRebase in
      let state := setConflictMode state true in
      let headNamePath := os.Join sys rebaseMergePath "head-name" in
      let state :=
        match os.ReadFile sys headNamePath with
        | inl content =>
            setOriginalMessage state
              ("Rebase branch: " ++ strings.TrimSpace content)
        | inr _ => state
        end in
      (Some state, None)
    else
    if statDir (os.Stat sys rebaseApplyPath) then
      let state := setType state StateRebase in
      let state := setConflictMode state true in
      let headNamePath := os.Join sys rebaseApplyPath "head-name" in
      let state :=
        match os.ReadFile sys headNamePath with
        | inl content =>
            setOriginalMessage state
              ("Rebase branch: " ++ strings.TrimSpace content)
        | inr _ => state
        end in
      (Some state, None)
    else
      (Some state, None).

(** *** The go-git client *)

Section Client.

Variable sys : os.System.

(** [git.PlainOpenWithOptions(wd, {DetectDotGit: true})]. *)
Variable PlainOpenWithOptions : string -> gogit.Repository + string.

(** [openRepo] opens a git repository from the current working
    directory. *)
Definition openRepo : gogit.Repository + string :=
  match os.Getwd sys with
  | (_, Some err) => inr ("failed to get working directory: " ++ err)
  | (wd, None) =>
      match PlainOpenWithOptions wd with
      | inr err => inr err
      | inl repo => inl repo
      end
  end.

(** The staged statuses are all but [Unmodified] and [Untracked]. *)
Definition staged (fileStatus : gogit.FileStatus) : bool :=
  negb (gogit.StatusCode_eqb (gogit.Staging fileStatus) gogit.Unmodified)
  && negb (gogit.StatusCode_eqb (gogit.Staging fileStatus) gogit.Untracked).

(** The content of [filePath] in the HEAD tree, when every step of the
    lookup succeeds: [FindEntry], [BlobObject], [Reader] and [Read]. *)
Definition headContent (repo : gogit.Repository)
  (headTree : option gogit.Tree) (filePath : string) : option string :=
  match headTree with
  | None => None
  | Some tree =>
      match gogit.FindEntry tree filePath with
      | inr _ => None
      | inl entry =>
          match gogit.BlobObject repo (gogit.EntryHash entry) with
          | inr _ => None
          | inl blob =>
              match gogit.Reader blob with
              | inr _ => None
              | inl content => Some content
              end
          end
      end
  end.

(** [for _, line := range lines { WriteString(prefix + line + "\n") }]. *)
Definition writeLines (sb : string) (prefix : string) (lines : list string)
  : string :=
  fold_left (fun sb line => sb <<< (prefix ++ line ++ nl)) lines sb.

(** The body of the loop over the status entries of [GetStagedDiff]. *)
Definition writeFileDiff (repo : gogit.Repository)
  (headTree : option gogit.Tree) (sb : string)
  (entry : string * gogit.FileStatus) : string :=
  let (filePath, fileStatus) := entry in
  if gogit.StatusCode_eqb (gogit.Staging fileStatus) gogit.Unmodified
     || gogit.StatusCode_eqb (gogit.Staging fileStatus) gogit.Untracked
  then sb
  else
    match gogit.Staging fileStatus with
    | gogit.Added =>
        let sb := sb <<< ("diff --git a/" ++ filePath ++ " b/" ++ filePath ++ nl) in
        let sb := sb <<< lit "new file mode 100644\n" in
        let sb := sb <<< ("index 0000000.." ++ gogit.Extra fileStatus ++ nl) in
        let sb := sb <<< lit "--- /dev/null\n" in
        let sb := sb <<< ("+++ b/" ++ filePath ++ nl) in
        let (wd, _) := os.Getwd sys in
        let fullPath := os.Join sys wd filePath in
        match os.ReadFile sys fullPath with
        | inl content => writeLines sb "+" (strings.Split content LF)
        | inr _ => sb
        end
    | gogit.Deleted =>
        let sb := sb <<< ("diff --git a/" ++ filePath ++ " b/" ++ filePath ++ nl) in
        let sb := sb <<< lit "deleted file mode 100644\n" in
        let sb := sb <<< ("index " ++ gogit.Extra fileStatus ++ "..0000000" ++ nl) in
        let sb := sb <<< ("--- a/" ++ filePath ++ nl) in
        let sb := sb <<< lit "+++ /dev/null\n" in
        match headContent repo headTree filePath with
        | Some content => writeLines sb "-" (strings.Split content LF)
        | None => sb
        end
    | gogit.Modified =>
        let sb := sb <<< ("diff --git a/" ++ filePath ++ " b/" ++ filePath ++ nl) in
        let sb := sb <<< ("index " ++ gogit.Extra fileStatus ++ ".."
                          ++ gogit.Extra fileStatus ++ " 100644" ++ nl) in
        let sb := sb <<< ("--- a/" ++ filePath ++ nl) in
        let sb := sb <<< ("+++ b/" ++ filePath ++ nl) in
        let oldContent :=
          match headContent repo headTree filePath with
          | Some content => content
          | None => EmptyString
          end in
        let (wd, _) := os.Getwd sys in
        let fullPath := os.Join sys wd filePath in
        let newContent :=
          match os.ReadFile sys fullPath with
          | inl content => content
          | inr _ => EmptyString
          end in
        let oldLines := strings.Split oldContent LF in
        let newLines := strings.Split newContent LF in
        let sb := writeLines sb "-" oldLines in
        writeLines sb "+" newLines
    | gogit.Renamed =>
        let sb := sb <<< ("diff --git a/" ++ gogit.Extra fileStatus
                          ++ " b/" ++ filePath ++ nl) in
        let sb := sb <<< ("rename from " ++ gogit.Extra fileStatus ++ nl) in
        sb <<< ("rename to " ++ filePath ++ nl)
    | _ => sb
    end.

(** The tree of the HEAD commit: absent when there is no HEAD reference
    or its commit cannot be read; an error when HEAD or the commit's tree
    cannot be obtained. *)
Definition headTreeOf (repo : gogit.Repository)
  : option gogit.Tree + string :=
  match gogit.Head repo with
  | gogit.HeadErr msg => inr ("failed to get HEAD: " ++ msg)
  | gogit.ErrReferenceNotFound => inl None
  | gogit.HeadRef hash =>
      match gogit.CommitObject repo hash with
      | inr _ => inl None
      | inl headCommit =>
          match gogit.CommitTree headCommit with
          | inr err => inr ("failed to get HEAD tree: " ++ err)
          | inl tree => inl (Some tree)
          end
      end
  end.

(** The cut applied to the text of the builder. *)
Definition truncateDiff (diff : string) : string * error :=
  if (10000 <? len diff)%Z then
    (substring 0 (Z.to_nat 10000) diff ++ lit "\n...[TRUNCATED]", None)
  else (diff, None).

(** [GetStagedDiff] returns the diff of staged changes. *)
Definition GetStagedDiff : string * error :=
  match openRepo with
  | inr err => (EmptyString, Some ("failed to open repository: " ++ err))
  | inl repo =>
      match gogit.GetWorktree repo with
      | inr err => (EmptyString, Some ("failed to get worktree: " ++ err))
      | inl worktree =>
          match gogit.GetStatus worktree with
          | inr err => (EmptyString, Some ("failed to get status: " ++ err))
          | inl status =>
              match headTreeOf repo with
              | inr err => (EmptyString, Some err)
              | inl headTree =>
                  let diff :=
                    fold_left (writeFileDiff repo headTree) status
                      EmptyString in
                  truncateDiff diff
              end
          end
      end
  end.

(** [HasStagedChanges] checks if there are staged changes. *)
Definition HasStagedChanges : bool * error :=
  match openRepo with
  | inr err => (false, Some ("failed to open repository: " ++ err))
  | inl repo =>
      match gogit.GetWorktree repo with
      | inr err => (false, Some ("failed to get worktree: " ++ err))
      | inl worktree =>
          match gogit.GetStatus worktree with
          | inr err => (false, Some ("failed to get status: " ++ err))
          | inl status =>
              (existsb
                 (fun e : string * gogit.FileStatus => staged (snd e))
                 status,
               None)
          end
      end
  end.

End Client.

End git.

(** ** Package [time] and [net/http], as far as the client uses them *)

Module time.

(** A [Duration] is an [int64] count of nanoseconds. *)
Definition Duration : Type := Z.

Definition Second : Duration := 1000000000%Z.

(** Reduction of an integer to the [int64] range, as Go arithmetic wraps. *)
Definition wrap64 (z : Z) : Z :=
  ((z + 2 ^ 63) mod 2 ^ 64 - 2 ^ 63)%Z.

Definition mul (a b : Duration) : Duration := wrap64 (a * b).

End time.

Module http.

Record Request : Type := {
  Method : string;
  URL : string;
  Body : string;
  Header : list (string * string)
}.

(** [req.Header.Set(key, value)]. *)
Definition HeaderSet (req : Request) (key value : string) : Request :=
  {| Method := Method req; URL := URL req; Body := Body req;
     Header :=
       (filter (fun kv => negb (String.eqb (fst kv) key)) (Header req)
        ++ [(key, value)])%list |}.

(** A response: [Status] is the status line text such as
    [400 Bad Request], [RespBody] what [io.ReadAll] or the JSON decoder
    reads from [resp.Body]. *)
Record Response : Type := {
  Status : string;
  StatusCode : Z;
  RespBody : string
}.

Definition StatusOK : Z := 200%Z.

End http.

(** ** Package [ai] *)

Module ai.

Record OllamaClient : Type := {
  apiKey : string;
  baseURL : string;
  model : string;
  timeout : time.Duration
}.

(** [NewClient] creates a new Ollama AI client from config. *)
Definition NewClient (apiKey baseURL model : string)
  (timeout : time.Duration) : OllamaClient :=
  let baseURL :=
    if String.eqb baseURL EmptyString
    then "http://localhost:11434/api/generate" else baseURL in
  let model :=
    if String.eqb model EmptyString then "gpt-oss:120b" else model in
  let timeout :=
    if (timeout =? 0)%Z then time.mul 60%Z time.Second else timeout in
  {| apiKey := apiKey; baseURL := baseURL; model := model;
     timeout := timeout |}.

Record ollamaRequest : Type := {
  Model : string;
  Prompt : string;
  Stream : bool
}.

Record ollamaResponse : Type := {
  Response : string;
  Done : bool
}.


(** The part of [buildPrompt] guarded by
    [gitState != nil && gitState.Type != git.StateNormal]: the context of
    a special git state, written to the builder [sb]. *)
Definition writeStateContext (sb : string) (gitState : option git.GitState)
  : string :=
  match gitState with
  | None => sb
  | Some gitState =>
    if negb (git.Type_ gitState =? git.StateNormal)%Z then
      let sb := sb <<< lit "=== SPECIAL GIT STATE CONTEXT ===\n\n" in
      let sb :=
        if (git.Type_ gitState =? git.StateMerge)%Z then
          let sb := sb <<< lit "CONTEXT: You are completing a MERGE CONFLICT resolution.\n" in
          let sb :=
            if negb (String.eqb (git.OriginalMessage gitState) EmptyString)
            then sb <<< ("Original merge intent: " ++ dq
                         ++ git.OriginalMessage gitState ++ dq ++ nl)
            else sb in
          let sb := sb <<< lit "\nIMPORTANT INSTRUCTIONS:\n" in
          let sb := sb <<< lit "1. You MUST use the following EXACT format for the first line:\n" in
          let sb := sb <<< lit "   <type>(merge): Merged <Source_Branch> into <Target_Branch>\n" in
          let sb := sb <<< lit "2. Analyze the diff and choose the appropriate <type> based on the changes:\n" in
          let sb := sb <<< lit "   - feat: if adding new features or capabilities\n" in
          let sb := sb <<< lit "   - fix: if fixing bugs or issues\n" in
          let sb := sb <<< lit "   - refactor: if restructuring code without changing functionality\n" in
          let sb := sb <<< lit "   - chore: if updating dependencies, configs, or maintenance tasks\n" in
          let sb := sb <<< lit "   - docs: if primarily documentation changes\n" in
          let sb := sb <<< lit "3. Extract <Source_Branch> from the Original merge intent (e.g. 'Merge branch feature-x' -> feature-x).\n" in
          let sb := sb <<< lit "4. If <Target_Branch> is unknown, use 'main' or infer from the diff/context.\n" in
          let sb := sb <<< lit "5. After the first line, leave a blank line and then provide a detailed description of what code changes were merged.\n" in
          let sb := sb <<< lit "6. Explain HOW conflicts were resolved if applicable.\n" in
          let sb := sb <<< lit "7. Example First Line: feat(merge): Merged feature-auth into main\n\n" in
          sb
        else if (git.Type_ gitState =? git.StateRebase)%Z then
          let sb := sb <<< lit "CONTEXT: You are completing a REBASE conflict resolution.\n" in
          let sb :=
            if negb (String.eqb (git.OriginalMessage gitState) EmptyString)
            then sb <<< ("Rebase context: "
                         ++ git.OriginalMessage gitState ++ nl)
            else sb in
          let sb := sb <<< lit "\nIMPORTANT INSTRUCTIONS:\n" in
          let sb := sb <<< lit "1. You MUST use the following EXACT format for the first line:\n" in
          let sb := sb <<< lit "   <type>(rebase): Rebased <Branch_Name> onto <Target_Branch>\n" in
          let sb := sb <<< lit "2. Analyze the diff and choose the appropriate <type> based on the changes:\n" in
          let sb := sb <<< lit "   - feat: if adding new features or capabilities\n" in
          let sb := sb <<< lit "   - fix: if fixing bugs or issues\n" in
          let sb := sb <<< lit "   - refactor: if restructuring code without changing functionality\n" in
          let sb := sb <<< lit "   - chore: if updating dependencies, configs, or maintenance tasks\n" in
          let sb := sb <<< lit "   - docs: if primarily documentation changes\n" in
          let sb := sb <<< lit "3. Extract <Branch_Name> from the Rebase context if available, otherwise infer from diff.\n" in
          let sb := sb <<< lit "4. If <Target_Branch> is unknown, use 'main' or infer from context.\n" in
          let sb := sb <<< lit "5. After the first line, leave a blank line and then provide a detailed description of what code changes were rebased.\n" in
          let sb := sb <<< lit "6. Explain HOW conflicts were resolved if applicable.\n" in
          let sb := sb <<< lit "7. Example First Line: feat(rebase): Rebased feature-auth onto main\n\n" in
          sb
        else if (git.Type_ gitState =? git.StateCherryPick)%Z then
          let sb := sb <<< lit "CONTEXT: You are completing a CHERRY-PICK operation.\n" in
          let sb :=
            if negb (String.eqb (git.OriginalMessage gitState) EmptyString)
            then sb <<< ("Original commit: " ++ dq
                         ++ git.OriginalMessage gitState ++ dq ++ nl)
            else sb in
          let sb := sb <<< lit "\nIMPORTANT INSTRUCTIONS:\n" in
          let sb := sb <<< lit "1. You MUST use the following EXACT format for the first line:\n" in
          let sb := sb <<< lit "   <type>(cherry-pick): Cherry-picked <Commit_Description> into <Target_Branch>\n" in
          let sb := sb <<< lit "   ⚠️  CRITICAL: The scope MUST be 'cherry-pick', NOT the original scope from the commit!\n" in
          let sb := sb <<< lit "2. Analyze the diff and choose the appropriate <type> based on the changes:\n" in
          let sb := sb <<< lit "   - feat: if adding new features or capabilities\n" in
          let sb := sb <<< lit "   - fix: if fixing bugs or issues\n" in
          let sb := sb <<< lit "   - refactor: if restructuring code without changing functionality\n" in
          let sb := sb <<< lit "   - chore: if updating dependencies, configs, or maintenance tasks\n" in
          let sb := sb <<< lit "   - docs: if primarily documentation changes\n" in
          let sb := sb <<< lit "3. Extract <Commit_Description> from the Original commit message if available.\n" in
          let sb := sb <<< lit "4. If <Target_Branch> is unknown, use 'main' or infer from context.\n" in
          let sb := sb <<< lit "5. After the first line, leave a blank line and then provide a detailed description of what was cherry-picked.\n" in
          let sb := sb <<< lit "6. Explain HOW conflicts were resolved and what adaptations were made if applicable.\n" in
          let sb := sb <<< lit "7. CORRECT Example: docs(cherry-pick): Cherry-picked feature entries update into main\n" in
          let sb := sb <<< lit "8. WRONG Example: docs(file): updated feature entries (missing cherry-pick scope!)\n\n" in
          sb
        else sb in
      let sb := sb <<< lit "=================================\n\n" in
      sb
    else sb
  end.

(** [buildPrompt] composes the prompt from the diff, the team rules and
    the git state ([None] is the [nil] pointer). *)
Definition buildPrompt (c : OllamaClient) (diff rules : string)
  (gitState : option git.GitState) : string :=
  let sb := EmptyString in
  let sb := sb <<< lit "You are an expert DevOps engineer specialized in writing git commit messages.\n\n" in
  let sb := writeStateContext sb gitState in
  let sb := sb <<< lit "Analyze the following code diff.\n\n" in
  let sb := sb <<< lit "First, determine whether the diff represents a single logical change or multiple independent changes that should be split into smaller commits to follow clean code and best practices.\n\n" in
  let sb := sb <<< lit "If the diff should be split, briefly state that it can be broken down and list the suggested commit scopes or purposes (do not generate the commits yet).\n\n" in
  let sb := sb <<< lit "If the diff represents a single logical change, generate a single-line git commit message following the Conventional Commits specification.\n\n" in
  let sb := sb <<< lit "Format for commit message:\n<type>(<scope>): <description>\n\n" in
  let sb := sb <<< lit "Allowed types: feat, fix, docs, style, refactor, test, chore.\n\n" in
  let sb := sb <<< lit "IMPORTANT: Use past tense for the description (e.g., 'added feature' not 'add feature', 'fixed bug' not 'fix bug').\n\n" in
  let sb := sb <<< lit "Do not output anything other than the message or the split suggestion.\n\n" in
  let sb :=
    if negb (String.eqb rules EmptyString) then
      let sb := sb <<< lit "Team Rules:\n" in
      let sb := sb <<< rules in
      let sb := sb <<< lit "\n\n" in
      sb
    else sb in
  let sb := sb <<< lit "Diff:\n" in
  let sb := sb <<< diff in
  sb.

(** *** The effects of a generation call

    A call sleeps, writes a notice to standard error and performs HTTP
    exchanges.  The effects are recorded, in order, in a trace threaded
    through the computation. *)

Inductive event : Type :=
| Sleep (d : time.Duration)
| RetryNotice (delay : time.Duration)
| Do (req : http.Request).

Definition IO (A : Type) : Type := list event -> A * list event.

Definition ret {A : Type} (a : A) : IO A := fun tr => (a, tr).

Definition bind {A B : Type} (m : IO A) (k : A -> IO B) : IO B :=
  fun tr => let (a, tr') := m tr in k a tr'.

Notation "x <- m ;; k" := (bind m (fun x => k))
  (at level 100, m at next level, right associativity).
Notation "m ;;; k" := (bind m (fun _ => k))
  (at level 100, right associativity).

Definition emit (e : event) : IO unit := fun tr => (tt, (tr ++ [e])%list).

(** The HTTP exchanges made so far. *)
Definition isDo (e : event) : bool :=
  match e with Do _ => true | _ => false end.

Definition calls (tr : list event) : nat := length (filter isDo tr).

(** What lies outside the program: the JSON codec, the construction of a
    request, and the server, which answers the [n]-th exchange of a call
    (counted from 0) with a response or a transport error. *)
Record Net : Type := {
  json_Marshal : ollamaRequest -> string + string;
  json_Decode : string -> ollamaResponse + string;
  http_NewRequest : string -> string -> string -> http.Request + string;
  server : nat -> http.Request -> http.Response + string
}.

Section Generate.

Variable net : Net.

(** [c.client.Do(req)]. *)
Definition client_Do (req : http.Request) : IO (http.Response + string) :=
  fun tr => (server net (calls tr) req, (tr ++ [Do req])%list).

Definition maxRetries : Z := 3%Z.
Definition baseDelay : time.Duration := time.mul 2%Z time.Second.

(** The values [attempt] takes in
    [for attempt := 0; attempt <= maxRetries; attempt++]. *)
Definition attemptRange : list Z :=
  map Z.of_nat (seq 0 (Z.to_nat (maxRetries + 1))).

(** [%d] of an [int]. *)
Definition itoa (z : Z) : string := NilZero.string_of_int (Z.to_int z).

(** The two [req.Header.Set] calls of an attempt. *)
Definition setHeaders (c : OllamaClient) (req : http.Request)
  : http.Request :=
  let req := http.HeaderSet req "Content-Type" "application/json" in
  http.HeaderSet req "Authorization" ("Bearer " ++ apiKey c).

(** The retry loop over the remaining values of [attempt]; [continue] is
    the recursive call, and the loop falling through reaches the final
    [return] of the function. *)
Fixpoint retryLoop (c : OllamaClient) (jsonBody : string)
  (attempts : list Z) : IO (string * error) :=
  match attempts with
  | [] => ret (EmptyString, Some "unreachable")
  | attempt :: rest =>
      (if (0 <? attempt)%Z then
         let delay :=
           time.mul baseDelay (time.wrap64 (Z.shiftl 1 (attempt - 1))) in
         emit (RetryNotice delay) ;;;
         emit (Sleep delay)
       else ret tt) ;;;
      match http_NewRequest net "POST" (baseURL c) jsonBody with
      | inr err => ret (EmptyString, Some ("failed to create request: " ++ err))
      | inl req =>
          let req := setHeaders c req in
          r <- client_Do req ;;
          match r with
          | inr err => ret (EmptyString, Some ("API call failed: " ++ err))
          | inl resp =>
              if (http.StatusCode resp =? 429)%Z then
                if (attempt =? maxRetries)%Z then
                  let body := http.RespBody resp in
                  ret (EmptyString,
                       Some ("API rate limit exceeded after "
                             ++ itoa maxRetries ++ " retries: " ++ body))
                else retryLoop c jsonBody rest
              else if negb (http.StatusCode resp =? http.StatusOK)%Z then
                let body := http.RespBody resp in
                ret (EmptyString,
                     Some ("API returned error: " ++ http.Status resp
                           ++ " (body: " ++ body ++ ")"))
              else
                match json_Decode net (http.RespBody resp) with
                | inr err =>
                    ret (EmptyString,
                         Some ("failed to decode response: " ++ err))
                | inl ollamaResp =>
                    if String.eqb (Response ollamaResp) EmptyString then
                      ret (EmptyString, Some "empty response from model")
                    else
                      ret (strings.TrimSpace (Response ollamaResp), None)
                end
          end
      end
  end.

(** [GenerateCommitMessage] sends the diff and rules to Ollama and returns
    the generated message. *)
Definition GenerateCommitMessage (c : OllamaClient) (diff rules : string)
  (gitState : option git.GitState) : IO (string * error) :=
  let prompt := buildPrompt c diff rules gitState in
  let reqBody :=
    {| Model := model c; Prompt := prompt; Stream := false |} in
  match json_Marshal net reqBody with
  | inr err => ret (EmptyString, Some ("failed to marshal request: " ++ err))
  | inl jsonBody => retryLoop c jsonBody attemptRange
  end.

End Generate.

End ai.


(** ** Package [git]: helpers of the state tests *)

Module gittest.

(** [str[i:i+n]] for [0 <= i] and [i + n <= len(str)]. *)
Definition slice (str : string) (i n : nat) : string := substring i n str.

(** [findSubstring]: the loop
    [for i := 0; i <= len(str)-len(substr); i++] returns [true] at the
    first [i] whose slice equals [substr], and [false] when it ends.  The
    bound is negative, and the loop empty, when [substr] is longer. *)
Definition findSubstring (str substr : string) : bool :=
  let bound := (len str - len substr)%Z in
  existsb
    (fun i => String.eqb (slice str i (String.length substr)) substr)
    (seq 0 (Z.to_nat (bound + 1))).

(** [containsSubstring] checks if a string contains a substring. *)
Definition containsSubstring (str substr : string) : bool :=
  (len substr <=? len str)%Z
  && (String.eqb str substr
      || ((len substr <? len str)%Z && findSubstring str substr)).

End gittest.

(** ** Package [git]: the client built on [os/exec] *)

Module gitexec.

(** The error of a finished or failed command: [*exec.ExitError] with the
    exit code of the process, or any other error.  [Error_] is its text. *)
Inductive cmdError : Type :=
| ExitError (code : Z) (text : string)
| OtherError (text : string).

Definition Error_ (e : cmdError) : string :=
  match e with
  | ExitError _ text => text
  | OtherError text => text
  end.

(** The commands the client runs: [cmd.Run()] gives an error or [nil],
    [cmd.Output()] the standard output and an error or [nil]. *)
Record Shell : Type := {
  Run : list string -> option cmdError;
  Output : list string -> string * option cmdError
}.

Section Client.

Variable sh : Shell.

(** [IsInsideRepo] checks if the current directory is inside a git
    repository. *)
Definition IsInsideRepo : bool * error :=
  match Run sh ["git"; "rev-parse"; "--is-inside-work-tree"] with
  | Some _ => (false, None)
  | None => (true, None)
  end.

(** [HasStagedChanges] checks if there are staged changes. *)
Definition HasStagedChanges : bool * error :=
  match Run sh ["git"; "diff"; "--staged"; "--quiet"] with
  | Some err =>
      match err with
      | ExitError code _ =>
          if (code =? 1)%Z then (true, None)
          else (false, Some (Error_ err))
      | OtherError _ => (false, Some (Error_ err))
      end
  | None => (false, None)
  end.

(** [GetStagedDiff] returns the diff of staged changes. *)
Definition GetStagedDiff : string * error :=
  match Output sh ["git"; "diff"; "--staged"] with
  | (_, Some err) =>
      (EmptyString, Some ("failed to get diff: " ++ Error_ err))
  | (out, None) =>
      let diff := out in
      if (10000 <? len diff)%Z then
        (substring 0 (Z.to_nat 10000) diff ++ lit "\n...[TRUNCATED]", None)
      else (diff, None)
  end.

(** [CommitWithMessage] executes git commit with the given message. *)
Definition CommitWithMessage (message : string) : error :=
  match Run sh ["git"; "commit"; "-m"; message] with
  | Some err => Some ("failed to commit: " ++ Error_ err)
  | None => None
  end.

(** [GetRepoRoot] returns the root directory of the git repository. *)
Definition GetRepoRoot : string * error :=
  match Output sh ["git"; "rev-parse"; "--show-toplevel"] with
  | (_, Some err) =>
      (EmptyString, Some ("failed to get repo root: " ++ Error_ err))
  | (out, None) => (strings.TrimSpace out, None)
  end.

End Client.

End gitexec.

(** ** Package [net/http]: reading a header *)

(** [req.Header.Get(key)]: the value set for [key], or the empty string. *)
Fixpoint lookupHeader (h : list (string * string)) (key : string) : string :=
  match h with
  | [] => EmptyString
  | (k, v) :: rest => if String.eqb k key then v else lookupHeader rest key
  end.

Definition HeaderGet (req : http.Request) (key : string) : string :=
  lookupHeader (http.Header req) key.

(** [strings.Contains(s, substr)]. *)
Fixpoint Contains (s substr : string) : bool :=
  String.prefix substr s
  || match s with
     | EmptyString => false
     | String _ rest => Contains rest substr
     end.

(** The escape byte of the terminal colour codes. *)
Definition ESC : string := String (ascii_of_nat 27) EmptyString.

(** ** Package [config]: the rules file *)

Module config.

(** [err.Error()] of a file-system error; [os.ErrNotExist] reads
    [file does not exist]. *)
Definition errorText (e : os.PathError) : string :=
  match e with
  | os.ErrNotExist => "file does not exist"
  | os.ErrOther msg => msg
  end.

Section Loader.

Variable sys : os.System.

(** [filepath.Dir]. *)
Variable Dir : string -> string.

(** The loop of [findRepoRoot] from the directory [dir]; [None] when the
    [fuel] turns of the loop do not reach a [return]. *)
Fixpoint findRepoRootFrom (fuel : nat) (dir : string)
  : option (string * error) :=
  match fuel with
  | O => None
  | S fuel' =>
      if git.statOK (os.Stat sys (os.Join sys dir ".git")) then
        Some (dir, None)
      else
        let parent := Dir dir in
        if String.eqb parent dir then
          Some (EmptyString, Some (errorText os.ErrNotExist))
        else findRepoRootFrom fuel' parent
  end.

Definition findRepoRoot (fuel : nat) : option (string * error) :=
  match os.Getwd sys with
  | (_, Some err) => Some (EmptyString, Some err)
  | (dir, None) => findRepoRootFrom fuel dir
  end.

(** [LoadRules] reads the [.git-commit-rules-for-ai] file from the repo
    root. *)
Definition LoadRules (fuel : nat) : option (string * error) :=
  match findRepoRoot fuel with
  | None => None
  | Some (_, Some _) => Some (EmptyString, None)
  | Some (repoRoot, None) =>
      let rulesPath := os.Join sys repoRoot ".git-commit-rules-for-ai" in
      match os.ReadFile sys rulesPath with
      | inr err =>
          match err with
          | os.ErrNotExist => Some (EmptyString, None)
          | os.ErrOther _ => Some (EmptyString, Some (errorText err))
          end
      | inl content => Some (content, None)
      end
  end.

End Loader.

End config.

(** ** Package [app]: the run of the tool *)

Module app.

(** The git client as [Run] uses it: the outcome of each method. *)
Record GitClient : Type := {
  IsInsideRepo : bool * error;
  HasStagedChanges : bool * error;
  DetectState : option git.GitState * error;
  GetStagedDiff : string * error
}.

(** The collaborators of the application: the git client, the outcome of
    [RulesLoader.LoadRules()], and the [GenerateCommitMessage] method of
    the AI client. *)
Record App : Type := {
  Git : GitClient;
  LoadRules : string * error;
  AI : string -> string -> option git.GitState -> string * error
}.

(** What is written to the two streams. *)
Inductive output : Type :=
| Stdout (text : string)
| Stderr (text : string).

(** How a call ends: it returns an error or [nil], or it panics on a
    [nil] pointer. *)
Inductive outcome : Type :=
| Return (err : error)
| Panic.

Section Run.

(** [strings.ToLower]. *)
Variable ToLower : string -> string.

(** The last step of [Run]: the message is printed, as a split
    suggestion when it speaks of splitting. *)
Definition printMessage (message : string) : list output :=
  let lowerMessage := ToLower message in
  let isSplitSuggestion :=
    Contains lowerMessage "split"
    || Contains lowerMessage "separate commit"
    || Contains lowerMessage "multiple commit"
    || Contains lowerMessage "should be committed separately" in
  if isSplitSuggestion then
    [ Stdout (nl ++ ESC ++ "[33mAI Suggestion (Split Changes):" ++ ESC
              ++ "[0m" ++ nl);
      Stdout (message ++ nl) ]
  else
    [ Stdout (nl ++ ESC ++ "[36m" ++ message ++ ESC ++ "[0m" ++ nl) ].

(** [Run] executes the main logic. *)
Definition Run (a : App) : outcome * list output :=
  match IsInsideRepo (Git a) with
  | (_, Some err) =>
      (Return (Some ("failed to check repository status: " ++ err)), [])
  | (false, None) => (Return (Some "not a git repository"), [])
  | (true, None) =>
  match HasStagedChanges (Git a) with
  | (_, Some err) =>
      (Return (Some ("failed to check for staged changes: " ++ err)), [])
  | (false, None) =>
      (Return
         (Some "no staged changes found. Please stage your changes using 'git add'"),
       [])
  | (true, None) =>
  let (rules, err) := LoadRules a in
  let out :=
    match err with
    | Some err =>
        [Stdout ("Warning: failed to load rules: " ++ err
                 ++ ". Proceeding without rules." ++ nl)]
    | None => []
    end in
  let (gitState, err) := DetectState (Git a) in
  let (gitState, out) :=
    match err with
    | Some err =>
        (Some {| git.Type_ := git.StateNormal;
                 git.OriginalMessage := EmptyString;
                 git.ConflictMode := false |},
         (out ++ [Stdout ("Warning: failed to detect git state: " ++ err
                          ++ ". Proceeding with normal state." ++ nl)])%list)
    | None => (gitState, out)
    end in
  match gitState with
  | None => (Panic, out)
  | Some state =>
  let out :=
    if negb (git.Type_ state =? git.StateNormal)%Z then
      let out :=
        (out ++ [Stderr (nl ++ ESC ++ "[33m⚠ Git State Detected: "
                         ++ git.GitStateType_String (git.Type_ state)
                         ++ ESC ++ "[0m" ++ nl)])%list in
      let out :=
        if negb (String.eqb (git.OriginalMessage state) EmptyString) then
          (out ++ [Stderr (ESC ++ "[33mOriginal message: "
                           ++ git.OriginalMessage state
                           ++ ESC ++ "[0m" ++ nl)])%list
        else out in
      (out ++ [Stderr nl])%list
    else out in
  match GetStagedDiff (Git a) with
  | (_, Some err) => (Return (Some ("failed to get diff: " ++ err)), out)
  | (diff, None) =>
  let out := (out ++ [Stdout ("Generating commit message..." ++ nl)])%list in
  match AI a diff rules gitState with
  | (_, Some err) =>
      (Return (Some ("failed to generate commit message: " ++ err)), out)
  | (message, None) =>
      (Return None, (out ++ printMessage message)%list)
  end
  end
  end
  end
  end.

End Run.

End app.

(** ** Package [fmt]: formatting with string operands *)

(** [fmt.Sprintf(format, args...)] for string operands and formats whose
    verbs are [%s] and [%%], the only ones the hook generators use.  A
    [%s] without operand left prints [%!s(MISSING)], a [%] at the end
    [%!(NOVERB)], and operands left over are listed after [%!(EXTRA]. *)
Fixpoint Sprintf_go (format : string) (args : list string) : string :=
  match format with
  | EmptyString =>
      match args with
      | [] => EmptyString
      | _ :: _ =>
          "%!(EXTRA "
          ++ strings.Join (map (fun a => "string=" ++ a) args) ", " ++ ")"
      end
  | String c rest =>
      if Ascii.eqb c "%" then
        match rest with
        | EmptyString =>
            "%!(NOVERB)"
            ++ match args with
               | [] => EmptyString
               | _ :: _ =>
                   "%!(EXTRA "
                   ++ strings.Join (map (fun a => "string=" ++ a) args) ", "
                   ++ ")"
               end
        | String d rest' =>
            if Ascii.eqb d "s" then
              match args with
              | a :: args' => a ++ Sprintf_go rest' args'
              | [] => "%!s(MISSING)" ++ Sprintf_go rest' []
              end
            else if Ascii.eqb d "%" then String "%" (Sprintf_go rest' args)
            else String c (Sprintf_go rest args)
        end
      else String c (Sprintf_go rest args)
  end.

(** ** Package [app]: initialization and the pre-commit hooks *)

Module appinit.

(** The rules file [Init] creates. *)
Definition rulesContent : string :=
  "# Git Commit Rules for AI Generator" ++ nl
  ++ "# Customize these rules to match your team's conventions" ++ nl
  ++ nl
  ++ "# Example rules:" ++ nl
  ++ "# - Always start with a verb (Add, Fix, Update)" ++ nl
  ++ "# - If the change affects the UI, mention it" ++ nl
  ++ "# - Max 50 characters for the subject line" ++ nl
  ++ "# - Include Jira ticket ID if applicable" ++ nl.

(** The format string of [generateUnixHook]. *)
Definition unixHookFormat : string :=
  "#!/bin/bash" ++ nl
  ++ "# Pre-commit hook for AI commit message generator" ++ nl
  ++ nl
  ++ "# Skip if commit message was provided via -m flag" ++ nl
  ++ "# Git doesn't set any env var for this, but we can detect it by checking" ++ nl
  ++ "# if we're being called with a message file argument" ++ nl
  ++ "# For pre-commit hooks, if a message is provided, git will call prepare-commit-msg instead" ++ nl
  ++ "# So we only run if no message was provided (i.e., bare 'git commit')" ++ nl
  ++ nl
  ++ "# Check if there are staged changes" ++ nl
  ++ "if ! git diff --staged --quiet; then" ++ nl
  ++ "    # Generate commit message" ++ nl
  ++ "    COMMIT_MSG=$(" ++ dq ++ "%s" ++ dq ++ ")" ++ nl
  ++ "    EXIT_CODE=$?" ++ nl
  ++ "    " ++ nl
  ++ "    if [ $EXIT_CODE -ne 0 ]; then" ++ nl
  ++ "        echo " ++ dq ++ "Error generating commit message: $COMMIT_MSG" ++ dq ++ nl
  ++ "        exit 1" ++ nl
  ++ "    fi" ++ nl
  ++ "    " ++ nl
  ++ "    # Extract just the message (skip " ++ dq ++ "Generating commit message..." ++ dq ++ " line)" ++ nl
  ++ "    COMMIT_MSG=$(echo " ++ dq ++ "$COMMIT_MSG" ++ dq ++ " | grep -v " ++ dq ++ "Generating commit message" ++ dq ++ " | perl -pe 's/\e\[[0-9;]*m//g' | sed 's/^[[:space:]]*//' | sed '/^$/d')" ++ nl
  ++ "    " ++ nl
  ++ "    if [ -z " ++ dq ++ "$COMMIT_MSG" ++ dq ++ " ]; then" ++ nl
  ++ "        echo " ++ dq ++ "No commit message generated" ++ dq ++ nl
  ++ "        exit 1" ++ nl
  ++ "    fi" ++ nl
  ++ "    " ++ nl
  ++ "    # Display the generated message (with colors intact)" ++ nl
  ++ "    echo " ++ dq ++ dq ++ nl
  ++ "    echo " ++ dq ++ "Generated commit message:" ++ dq ++ nl
  ++ "    echo " ++ dq ++ "==========================" ++ dq ++ nl
  ++ "    echo " ++ dq ++ "$COMMIT_MSG" ++ dq ++ nl
  ++ "    echo " ++ dq ++ "==========================" ++ dq ++ nl
  ++ "    echo " ++ dq ++ dq ++ nl
  ++ "    echo " ++ dq ++ "Options:" ++ dq ++ nl
  ++ "    echo " ++ dq ++ "  [A]ccept and commit" ++ dq ++ nl
  ++ "    echo " ++ dq ++ "  [R]eject (abort commit)" ++ dq ++ nl
  ++ "    echo " ++ dq ++ "  [E]dit message" ++ dq ++ nl
  ++ "    echo " ++ dq ++ dq ++ nl
  ++ "    " ++ nl
  ++ "    # Read from terminal explicitly to handle git hook context" ++ nl
  ++ "    exec < /dev/tty" ++ nl
  ++ "    read -p " ++ dq ++ "Your choice (A/R/E): " ++ dq ++ " choice" ++ nl
  ++ "    " ++ nl
  ++ "    # Strip ANSI color codes for the actual commit" ++ nl
  ++ "    CLEAN_MSG=$(echo " ++ dq ++ "$COMMIT_MSG" ++ dq ++ " | sed 's/\x1b\[[0-9;]*m//g')" ++ nl
  ++ "    " ++ nl
  ++ "    case " ++ dq ++ "$choice" ++ dq ++ " in" ++ nl
  ++ "        [Aa]*" ++ ")" ++ nl
  ++ "            # Accept: commit with the generated message (colors stripped)" ++ nl
  ++ "            git commit -m " ++ dq ++ "$CLEAN_MSG" ++ dq ++ " --no-verify" ++ nl
  ++ "            # Exit with error to prevent original commit from proceeding" ++ nl
  ++ "            # (since we already committed)" ++ nl
  ++ "            exit 1" ++ nl
  ++ "            ;;" ++ nl
  ++ "        [Rr]*" ++ ")" ++ nl
  ++ "            # Reject: abort the commit" ++ nl
  ++ "            echo " ++ dq ++ "Commit aborted by user" ++ dq ++ nl
  ++ "            exit 1" ++ nl
  ++ "            ;;" ++ nl
  ++ "        [Ee]*" ++ ")" ++ nl
  ++ "            # Edit: allow user to modify (colors stripped)" ++ nl
  ++ "            echo " ++ dq ++ "$CLEAN_MSG" ++ dq ++ " > /tmp/commit_msg.txt" ++ nl
  ++ "            ${EDITOR:-nano} /tmp/commit_msg.txt" ++ nl
  ++ "            EDITED_MSG=$(cat /tmp/commit_msg.txt)" ++ nl
  ++ "            git commit -m " ++ dq ++ "$EDITED_MSG" ++ dq ++ " --no-verify" ++ nl
  ++ "            rm -f /tmp/commit_msg.txt" ++ nl
  ++ "            # Exit with error to prevent original commit from proceeding" ++ nl
  ++ "            exit 1" ++ nl
  ++ "            ;;" ++ nl
  ++ "        *" ++ ")" ++ nl
  ++ "            echo " ++ dq ++ "Invalid choice. Aborting commit." ++ dq ++ nl
  ++ "            exit 1" ++ nl
  ++ "            ;;" ++ nl
  ++ "    esac" ++ nl
  ++ "fi" ++ nl.

(** The format string of [generateWindowsHook]. *)
Definition windowsHookFormat : string :=
  "@echo off" ++ nl
  ++ "REM Pre-commit hook for AI commit message generator (Windows)" ++ nl
  ++ nl
  ++ "REM Check if there are staged changes" ++ nl
  ++ "git diff --staged --quiet >nul 2>&1" ++ nl
  ++ "if %%errorlevel%% equ 0 exit /b 0" ++ nl
  ++ nl
  ++ "REM Generate commit message" ++ nl
  ++ "for /f " ++ dq ++ "delims=" ++ dq ++ " %%%%i in ('" ++ dq ++ "%s" ++ dq ++ " 2^>^&1') do set OUTPUT=%%%%i" ++ nl
  ++ "if errorlevel 1 (" ++ nl
  ++ "    echo Error generating commit message" ++ nl
  ++ "    exit /b 1" ++ nl
  ++ ")" ++ nl
  ++ nl
  ++ "REM Extract commit message (basic extraction - may need refinement)" ++ nl
  ++ "set COMMIT_MSG=%%OUTPUT%%" ++ nl
  ++ "REM Remove " ++ dq ++ "Generating commit message..." ++ dq ++ " line if present" ++ nl
  ++ "set COMMIT_MSG=%%COMMIT_MSG:Generating commit message...=%%" ++ nl
  ++ nl
  ++ "if " ++ dq ++ "%%COMMIT_MSG%%" ++ dq ++ "==" ++ dq ++ dq ++ " (" ++ nl
  ++ "    echo No commit message generated" ++ nl
  ++ "    exit /b 1" ++ nl
  ++ ")" ++ nl
  ++ nl
  ++ "REM Display the generated message" ++ nl
  ++ "echo." ++ nl
  ++ "echo Generated commit message:" ++ nl
  ++ "echo ==========================" ++ nl
  ++ "echo %%COMMIT_MSG%%" ++ nl
  ++ "echo ==========================" ++ nl
  ++ "echo." ++ nl
  ++ "echo Options:" ++ nl
  ++ "echo   [A]ccept and commit" ++ nl
  ++ "echo   [R]eject (abort commit)" ++ nl
  ++ "echo   [E]dit message" ++ nl
  ++ "echo." ++ nl
  ++ "set /p CHOICE=Your choice (A/R/E): " ++ nl
  ++ nl
  ++ "if /i " ++ dq ++ "%%CHOICE%%" ++ dq ++ "==" ++ dq ++ "A" ++ dq ++ " goto accept" ++ nl
  ++ "if /i " ++ dq ++ "%%CHOICE:~0,1%%" ++ dq ++ "==" ++ dq ++ "A" ++ dq ++ " goto accept" ++ nl
  ++ "if /i " ++ dq ++ "%%CHOICE%%" ++ dq ++ "==" ++ dq ++ "R" ++ dq ++ " goto reject" ++ nl
  ++ "if /i " ++ dq ++ "%%CHOICE:~0,1%%" ++ dq ++ "==" ++ dq ++ "R" ++ dq ++ " goto reject" ++ nl
  ++ "if /i " ++ dq ++ "%%CHOICE%%" ++ dq ++ "==" ++ dq ++ "E" ++ dq ++ " goto edit" ++ nl
  ++ "if /i " ++ dq ++ "%%CHOICE:~0,1%%" ++ dq ++ "==" ++ dq ++ "E" ++ dq ++ " goto edit" ++ nl
  ++ "echo Invalid choice. Aborting commit." ++ nl
  ++ "exit /b 1" ++ nl
  ++ nl
  ++ ":accept" ++ nl
  ++ "git commit -m " ++ dq ++ "%%COMMIT_MSG%%" ++ dq ++ " --no-verify" ++ nl
  ++ "exit /b 1" ++ nl
  ++ nl
  ++ ":reject" ++ nl
  ++ "echo Commit aborted by user" ++ nl
  ++ "exit /b 1" ++ nl
  ++ nl
  ++ ":edit" ++ nl
  ++ "echo %%COMMIT_MSG%% > %%TEMP%%\commit_msg.txt" ++ nl
  ++ "notepad %%TEMP%%\commit_msg.txt" ++ nl
  ++ "set /p EDITED_MSG=<%%TEMP%%\commit_msg.txt" ++ nl
  ++ "git commit -m " ++ dq ++ "%%EDITED_MSG%%" ++ dq ++ " --no-verify" ++ nl
  ++ "del %%TEMP%%\commit_msg.txt" ++ nl
  ++ "exit /b 1" ++ nl.

(** What [Init] and the hook generators ask of their surroundings: the
    git client, the config loader, [filepath.Join] and [filepath.Abs],
    [os.Stat], [os.WriteFile] and [os.Executable], and [runtime.GOOS]. *)
Record Platform : Type := {
  IsInsideRepo : bool * error;
  GetRepoRoot : string * error;
  ConfigExists : bool * error;
  SaveDefaultConfig : string -> error;
  JoinAll : list string -> string;
  Abs : string -> string * error;
  Stat : string -> os.FileInfo + os.PathError;
  WriteFile : string -> string -> Z -> error;
  Executable : string * error;
  GOOS : string
}.

(** What a call of [Init] does, in order: lines printed, the default
    config saved, files written (path, content, permission bits). *)
Inductive effect : Type :=
| Print (text : string)
| SaveConfig (repoRoot : string)
| Write (path content : string) (perm : Z).

Section Init.

Variable p : Platform.

(** The executable path the hooks call: [os.Executable()] made absolute
    when [filepath.Abs] succeeds, and [generate-commit] when the
    executable is not known. *)
Definition hookExePath : string :=
  match Executable p with
  | (_, Some _) => "generate-commit"
  | (exePath, None) =>
      match Abs p exePath with
      | (absPath, None) => absPath
      | (_, Some _) => exePath
      end
  end.

(** [generateUnixHook] generates a bash pre-commit hook for Unix
    systems. *)
Definition generateUnixHook : string :=
  let exePath := hookExePath in
  Sprintf_go unixHookFormat [exePath].

(** [generateWindowsHook] generates a batch pre-commit hook for
    Windows. *)
Definition generateWindowsHook : string :=
  let exePath := hookExePath in
  Sprintf_go windowsHookFormat [exePath].

(** [generatePreCommitHook] generates the pre-commit hook script for the
    current platform. *)
Definition generatePreCommitHook : string * error :=
  if String.eqb (GOOS p) "windows" then (generateWindowsHook, None)
  else (generateUnixHook, None).

(** The permission bits [0644] and [0755]. *)
Definition perm0644 : Z := 420%Z.
Definition perm0755 : Z := 493%Z.

(** [Init] initializes the repository with config, rules file, and
    pre-commit hook. *)
Definition Init (force : bool) : error * list effect :=
  match IsInsideRepo p with
  | (_, Some err) =>
      (Some ("failed to check repository status: " ++ err), [])
  | (false, None) =>
      (Some "not a git repository. Please run this command from within a git repository",
       [])
  | (true, None) =>
  match GetRepoRoot p with
  | (_, Some err) => (Some ("failed to get repository root: " ++ err), [])
  | (repoRoot, None) =>
  let checked : (option (error * list effect)) * list effect :=
    if negb force then
      match ConfigExists p with
      | (_, Some err) =>
          (Some (Some ("failed to check config existence: " ++ err), []), [])
      | (true, None) =>
          (Some (None,
                 [Print ("Repository already initialized. Use --force to reinitialize."
                         ++ nl)]),
           [])
      | (false, None) => (None, [])
      end
    else (None, [Print ("Forcing reinitialization..." ++ nl)]) in
  match checked with
  | (Some result, _) => result
  | (None, out) =>
  let out := (out ++ [Print ("Initializing commit generator..." ++ nl)])%list in
  let out := (out ++ [SaveConfig repoRoot])%list in
  match SaveDefaultConfig p repoRoot with
  | Some err => (Some ("failed to create config file: " ++ err), out)
  | None =>
  let out := (out ++ [Print (lit "✓ Created .commit-generator-config\n")])%list in
  let rulesPath := JoinAll p [repoRoot; ".git-commit-rules-for-ai"] in
  let rulesStep : error * list effect :=
    if os.IsNotExist (Stat p rulesPath) then
      let out := (out ++ [Write rulesPath rulesContent perm0644])%list in
      match WriteFile p rulesPath rulesContent perm0644 with
      | Some err => (Some ("failed to create rules file: " ++ err), out)
      | None =>
          (None,
           (out ++ [Print (lit "✓ Created .git-commit-rules-for-ai\n")])%list)
      end
    else (None, (out ++ [Print (lit "✓ Rules file already exists\n")])%list) in
  match rulesStep with
  | (Some err, out) => (Some err, out)
  | (None, out) =>
  let hookPath := JoinAll p [repoRoot; ".git"; "hooks"; "pre-commit"] in
  match generatePreCommitHook with
  | (_, Some err) =>
      (Some ("failed to generate pre-commit hook: " ++ err), out)
  | (hookContent, None) =>
  let hookPath :=
    if String.eqb (GOOS p) "windows" then hookPath ++ ".bat"
    else hookPath in
  let out := (out ++ [Write hookPath hookContent perm0755])%list in
  match WriteFile p hookPath hookContent perm0755 with
  | Some err => (Some ("failed to create pre-commit hook: " ++ err), out)
  | None =>
      (None,
       (out
        ++ [ Print (lit "✓ Created pre-commit hook\n");
             Print (lit "\nInitialization complete!\n");
             Print (lit "Next steps:\n");
             Print (lit "1. Update .commit-generator-config with your API key if needed\n");
             Print (lit "2. Customize .git-commit-rules-for-ai with your team's rules\n");
             Print (lit "3. Stage your changes and commit - the hook will generate your commit message!\n") ])%list)
  end
  end
  end
  end
  end
  end
  end.

End Init.

End appinit.
(** ** Fixtures: small concrete worlds the theorems are exercised on *)

Module Fixtures.

(** *** A file system given by its entries *)

Inductive node : Type :=
| File (content : string)
| Dir.

Definition layout : Type := list (string * node).

Fixpoint find (l : layout) (path : string) : option node :=
  match l with
  | [] => None
  | (p, n) :: rest => if String.eqb p path then Some n else find rest path
  end.

(** A path that runs through a regular file of the layout: the system
    refuses it with [not a directory], which is not a not-exist error. *)
Fixpoint belowFile (l : layout) (path : string) : bool :=
  match l with
  | [] => false
  | (p, File _) :: rest =>
      String.prefix (p ++ "/") path || belowFile rest path
  | (_, Dir) :: rest => belowFile rest path
  end.

(** The system over a layout: the working directory is [/repo] and
    [filepath.Join] puts a slash between its two elements. *)
Definition system (l : layout) : os.System :=
  {| os.Stat := fun p =>
       if belowFile l p then inr (os.ErrOther "not a directory")
       else
         match find l p with
         | Some (File _) => inl {| os.IsDir := false |}
         | Some Dir => inl {| os.IsDir := true |}
         | None => inr os.ErrNotExist
         end;
     os.ReadFile := fun p =>
       if belowFile l p then inr (os.ErrOther "not a directory")
       else
         match find l p with
         | Some (File content) => inl content
         | Some Dir => inr (os.ErrOther "is a directory")
         | None => inr os.ErrNotExist
         end;
     os.Getwd := ("/repo", None);
     os.Join := fun a b => a ++ "/" ++ b |}.

(** A repository without commits whose status scan gives [status]. *)
Definition repository (status : gogit.Status) : gogit.Repository :=
  {| gogit.GetWorktree := inl {| gogit.GetStatus := inl status |};
     gogit.Head := gogit.ErrReferenceNotFound;
     gogit.CommitObject := fun _ => inr "object not found";
     gogit.BlobObject := fun _ => inr "object not found" |}.

Definition plainOpen (status : gogit.Status)
  : string -> gogit.Repository + string :=
  fun _ => inl (repository status).

Definition added (extra : string) : gogit.FileStatus :=
  {| gogit.Staging := gogit.Added; gogit.Worktree := gogit.Unmodified;
     gogit.Extra := extra |}.

(** [n] copies of the byte [c]. *)
Fixpoint bytes (n : nat) (c : ascii) : string :=
  match n with
  | O => EmptyString
  | S k => String c (bytes k c)
  end.

(** A merge begun in the middle of a rebase. *)
Definition mergeDuringRebase : layout :=
  [ ("/repo/.git", Dir);
    ("/repo/.git/MERGE_HEAD", File (lit "abc123\n"));
    ("/repo/.git/MERGE_MSG",
     File (lit "Merge branch 'feature-x' into main\n# Conflicts:\n"));
    ("/repo/.git/rebase-merge", Dir);
    ("/repo/.git/rebase-merge/head-name",
     File (lit "refs/heads/feature-branch\n")) ].

(** A directory that holds one regular file and no repository. *)
Definition fileRoot : layout :=
  [ ("/repo", Dir);
    ("/repo/notes.txt", File (lit "to do\n")) ].

(** A work tree with a one-line file, a file of 10,001 bytes and a file
    that cannot be read (a directory took its place). *)
Definition workTree : layout :=
  [ ("/repo/.git", Dir);
    ("/repo/one.txt", File (lit "a\n"));
    ("/repo/big.txt", File (bytes (Z.to_nat 10001) "a"));
    ("/repo/gone.txt", Dir) ].

(** *** A scripted generation endpoint *)

(** A JSON document of the shape the endpoint answers with. *)
Definition jsonResponse (text : string) : string :=
  "{" ++ dq ++ "response" ++ dq ++ ":" ++ dq ++ text ++ dq ++ ","
  ++ dq ++ "done" ++ dq ++ ":true}".

(** Removal of a prefix. *)
Fixpoint cutPrefix (p s : string) : option string :=
  match p with
  | EmptyString => Some s
  | String a p' =>
      match s with
      | EmptyString => None
      | String b s' => if Ascii.eqb a b then cutPrefix p' s' else None
      end
  end.

(** A decoder for the documents [jsonResponse] builds (texts without
    quotes); anything else is a syntax error. *)
Definition decode (body : string) : ai.ollamaResponse + string :=
  match cutPrefix ("{" ++ dq ++ "response" ++ dq ++ ":" ++ dq) body with
  | None => inr "invalid character"
  | Some rest =>
      match strings.Split rest (ascii_of_nat 34) with
      | text :: _ :: _ => inl {| ai.Response := text; ai.Done := true |}
      | _ => inr "unexpected end of JSON input"
      end
  end.

Definition marshal (r : ai.ollamaRequest) : string + string :=
  inl ("{" ++ dq ++ "model" ++ dq ++ ":" ++ dq ++ ai.Model r ++ dq ++ "}").

Definition newRequest (method url body : string) : http.Request + string :=
  inl {| http.Method := method; http.URL := url; http.Body := body;
         http.Header := [] |}.

(** A server that answers the exchanges of a call with the given
    responses, in order, and then refuses connections. *)
Definition scripted (script : list http.Response) : ai.Net :=
  {| ai.json_Marshal := marshal;
     ai.json_Decode := decode;
     ai.http_NewRequest := newRequest;
     ai.server := fun n _ =>
       match nth_error script n with
       | Some r => inl r
       | None => inr "connection refused"
       end |}.

Definition tooMany (body : string) : http.Response :=
  {| http.Status := "429 Too Many Requests"; http.StatusCode := 429%Z;
     http.RespBody := body |}.

Definition ok (text : string) : http.Response :=
  {| http.Status := "200 OK"; http.StatusCode := 200%Z;
     http.RespBody := jsonResponse text |}.

Definition created (text : string) : http.Response :=
  {| http.Status := "201 Created"; http.StatusCode := 201%Z;
     http.RespBody := jsonResponse text |}.

Definition badRequest : http.Response :=
  {| http.Status := "400 Bad Request"; http.StatusCode := 400%Z;
     http.RespBody := "bad request" |}.

Definition client : ai.OllamaClient :=
  ai.NewClient "test-api-key" EmptyString EmptyString 0%Z.

(** A generation call against a script, from the empty trace. *)
Definition run (script : list http.Response)
  : (string * error) * list ai.event :=
  ai.GenerateCommitMessage (scripted script) client "diff" EmptyString
    None [].

(** *** Further fixtures *)

(** A file status with a staging code and no extra text. *)
Definition withStaging (code : gogit.StatusCode) : gogit.FileStatus :=
  {| gogit.Staging := code; gogit.Worktree := gogit.Unmodified;
     gogit.Extra := EmptyString |}.

(** A repository whose HEAD commit holds the given files (path and
    content), and whose status scan gives [status]. *)
Definition committed (files : list (string * string))
  (status : gogit.Status) : gogit.Repository :=
  {| gogit.GetWorktree := inl {| gogit.GetStatus := inl status |};
     gogit.Head := gogit.HeadRef "c0ffee";
     gogit.CommitObject := fun _ =>
       inl {| gogit.CommitTree :=
                inl {| gogit.FindEntry := fun path =>
                         match find (map (fun f => (fst f, File (snd f)))
                                       files) path with
                         | Some _ => inl {| gogit.EntryHash := path |}
                         | None => inr "entry not found"
                         end |} |};
     gogit.BlobObject := fun hash =>
       match find (map (fun f => (fst f, File (snd f))) files) hash with
       | Some (File content) =>
           inl {| gogit.Size := len content; gogit.Reader := inl content |}
       | _ => inr "object not found"
       end |}.

(** The HEAD tree of [committed files status]. *)
Definition committedTree (files : list (string * string))
  : option gogit.Tree :=
  match git.headTreeOf (committed files []) with
  | inl tree => tree
  | inr _ => None
  end.

(** A shell whose every command gives the same outcome. *)
Definition shell (out : string) (err : option gitexec.cmdError)
  : gitexec.Shell :=
  {| gitexec.Run := fun _ => err;
     gitexec.Output := fun _ => (out, err) |}.

(** The parent of a slash-separated path: the path up to its last
    slash, the root [/] being its own parent. *)
Fixpoint cutLast (s : string) : string :=
  match s with
  | EmptyString => EmptyString
  | String c rest =>
      if Contains rest "/" then String c (cutLast rest) else EmptyString
  end.

Definition parentDir (path : string) : string :=
  match cutLast path with
  | EmptyString => "/"
  | dir => dir
  end.

(** A repository with a rules file, seen from a directory below its
    root. *)
Definition nested : layout :=
  [ ("/repo/.git", Dir);
    ("/repo/.git-commit-rules-for-ai", File (lit "Use Jira ids\n")) ].

Definition nestedSystem : os.System :=
  {| os.Stat := os.Stat (system nested);
     os.ReadFile := os.ReadFile (system nested);
     os.Getwd := ("/repo/src/pkg", None);
     os.Join := os.Join (system nested) |}.

(** An application whose collaborators all succeed, with the given
    outcome of the state detection; the AI answers with the diff it was
    given and the name of the state. *)
Definition application (detect : option git.GitState * error) : app.App :=
  {| app.Git :=
       {| app.IsInsideRepo := (true, None);
          app.HasStagedChanges := (true, None);
          app.DetectState := detect;
          app.GetStagedDiff := ("diff", None) |};
     app.LoadRules := (EmptyString, None);
     app.AI := fun diff _ gitState =>
       match gitState with
       | Some st =>
           (diff ++ ":" ++ git.GitStateType_String (git.Type_ st), None)
       | None => (EmptyString, Some "no state")
       end |}.

(** An application started outside a repository. *)
Definition outsideRepo : app.App :=
  {| app.Git :=
       {| app.IsInsideRepo := (false, None);
          app.HasStagedChanges := (true, None);
          app.DetectState := (None, None);
          app.GetStagedDiff := ("diff", None) |};
     app.LoadRules := (EmptyString, None);
     app.AI := fun _ _ _ => ("feat: x", None) |}.

(** Lower-casing of the ASCII letters. *)
Definition lowerByte (c : ascii) : ascii :=
  let n := nat_of_ascii c in
  if (Nat.leb 65 n && Nat.leb n 90)%bool then ascii_of_nat (n + 32) else c.

Fixpoint toLower (s : string) : string :=
  match s with
  | EmptyString => EmptyString
  | String c rest => String (lowerByte c) (toLower rest)
  end.

(** A Unix machine inside a repository at [/repo], with the given
    answer of [ConfigExists] and the given entries on disk; every write
    succeeds. *)
Definition platform (configExists : bool) (l : layout) : appinit.Platform :=
  {| appinit.IsInsideRepo := (true, None);
     appinit.GetRepoRoot := ("/repo", None);
     appinit.ConfigExists := (configExists, None);
     appinit.SaveDefaultConfig := fun _ => None;
     appinit.JoinAll := fun elems => strings.Join elems "/";
     appinit.Abs := fun path => ("/usr/local/bin/" ++ path, None);
     appinit.Stat := os.Stat (system l);
     appinit.WriteFile := fun _ _ _ => None;
     appinit.Executable := ("generate-commit", None);
     appinit.GOOS := "linux" |}.

End Fixtures.

(** ** Vocabulary of the statements *)

(** *** Comment stripping *)

Definition hash : ascii := "#"%char.

(** The lines [filterCommentLines] drops: those that are empty or start
    with [#] once their surrounding white space is trimmed. *)
Definition blankOrComment (line : string) : bool :=
  let trimmed := strings.TrimSpace line in
  String.eqb trimmed EmptyString || strings.HasPrefix trimmed "#".

(** The stripping in the words of the design document: a line is dropped
    when it is empty or starts with [#], the others are joined with line
    feeds. *)
Definition documentedDrop (line : string) : bool :=
  String.eqb line EmptyString || strings.HasPrefix line "#".

Definition filterCommentLines_documented (message : string) : string :=
  strings.Join
    (filter (fun line => negb (documentedDrop line))
       (strings.Split message LF))
    nl.

(** *** State detection *)

Section DetectionVocabulary.

Variable sys : os.System.
Variable repoRoot : string.

(** The metadata directory of the repository. *)
Definition gitDirOf : string := os.Join sys repoRoot ".git".

(** A control file exists when [os.Stat] on it succeeds; a control
    directory, when it moreover reports a directory. *)
Definition exists_ (name : string) : bool :=
  git.statOK (os.Stat sys (os.Join sys gitDirOf name)).

Definition existsDir (name : string) : bool :=
  git.statDir (os.Stat sys (os.Join sys gitDirOf name)).

(** The original message taken from a file: [f] of its content, or the
    empty string when it cannot be read. *)
Definition messageFrom (path : string) (f : string -> string) : string :=
  match os.ReadFile sys path with
  | inl content => f content
  | inr _ => EmptyString
  end.

End DetectionVocabulary.

Definition commitMessage (content : string) : string :=
  git.filterCommentLines (strings.TrimSpace content).

Definition rebaseMessage (content : string) : string :=
  "Rebase branch: " ++ strings.TrimSpace content.

Definition conflictState (t : git.GitStateType) (message : string)
  : git.GitState :=
  {| git.Type_ := t; git.OriginalMessage := message;
     git.ConflictMode := true |}.

Definition normalState : git.GitState :=
  {| git.Type_ := git.StateNormal; git.OriginalMessage := EmptyString;
     git.ConflictMode := false |}.

(** The state the detection order of the design prescribes. *)
Definition detected (sys : os.System) (repoRoot : string) : git.GitState :=
  let gitDir := gitDirOf sys repoRoot in
  if exists_ sys repoRoot "MERGE_HEAD" then
    conflictState git.StateMerge
      (messageFrom sys (os.Join sys gitDir "MERGE_MSG") commitMessage)
  else if exists_ sys repoRoot "CHERRY_PICK_HEAD" then
    conflictState git.StateCherryPick
      (messageFrom sys (os.Join sys gitDir "COMMIT_EDITMSG") commitMessage)
  else if existsDir sys repoRoot "rebase-merge" then
    conflictState git.StateRebase
      (messageFrom sys
         (os.Join sys (os.Join sys gitDir "rebase-merge") "head-name")
         rebaseMessage)
  else if existsDir sys repoRoot "rebase-apply" then
    conflictState git.StateRebase
      (messageFrom sys
         (os.Join sys (os.Join sys gitDir "rebase-apply") "head-name")
         rebaseMessage)
  else normalState.

(** *** Staged diff *)

(** The marker appended to a diff that was cut. *)
Definition TRUNCATED : string := lit "\n...[TRUNCATED]".

(** The header lines of the block of an added file. *)
Definition addedHeader (filePath extra : string) : string :=
  ("diff --git a/" ++ filePath ++ " b/" ++ filePath ++ nl)
  ++ lit "new file mode 100644\n"
  ++ ("index 0000000.." ++ extra ++ nl)
  ++ lit "--- /dev/null\n"
  ++ ("+++ b/" ++ filePath ++ nl).

(** The body lines written for a content: one per piece between line
    feeds, each with the prefix and a closing line feed. *)
Definition bodyLines (prefix content : string) : list string :=
  map (fun line => prefix ++ line ++ nl) (strings.Split content LF).

Definition concatLines (lines : list string) : string :=
  fold_right append EmptyString lines.

(** The number of lines of a text, as the design document counts the N
    lines of a file: every line feed ends a line, and bytes after the last
    line feed form one more line. *)
Fixpoint lineCount (s : string) : nat :=
  match s with
  | EmptyString => 0
  | String c rest =>
      if Ascii.eqb c LF then S (lineCount rest)
      else match rest with
           | EmptyString => 1
           | String _ _ => lineCount rest
           end
  end.

(** A text whose last line lacks its line feed. *)
Fixpoint unterminated (s : string) : bool :=
  match s with
  | EmptyString => false
  | String c rest =>
      match rest with
      | EmptyString => negb (Ascii.eqb c LF)
      | String _ _ => unterminated rest
      end
  end.

(** *** Prompt *)

(** The fixed opening of every prompt. *)
Definition preamble : string :=
  lit "You are an expert DevOps engineer specialized in writing git commit messages.\n\n".

(** The fixed general instructions that follow the state context. *)
Definition generalInstructions : string :=
  lit "Analyze the following code diff.\n\n"
  ++ lit "First, determine whether the diff represents a single logical change or multiple independent changes that should be split into smaller commits to follow clean code and best practices.\n\n"
  ++ lit "If the diff should be split, briefly state that it can be broken down and list the suggested commit scopes or purposes (do not generate the commits yet).\n\n"
  ++ lit "If the diff represents a single logical change, generate a single-line git commit message following the Conventional Commits specification.\n\n"
  ++ lit "Format for commit message:\n<type>(<scope>): <description>\n\n"
  ++ lit "Allowed types: feat, fix, docs, style, refactor, test, chore.\n\n"
  ++ lit "IMPORTANT: Use past tense for the description (e.g., 'added feature' not 'add feature', 'fixed bug' not 'fix bug').\n\n"
  ++ lit "Do not output anything other than the message or the split suggestion.\n\n".

(** The states that get a context block: present and not normal. *)
Definition special (gitState : option git.GitState) : bool :=
  match gitState with
  | Some g => negb (git.Type_ g =? git.StateNormal)%Z
  | None => false
  end.

(** A builder [sb'] extends [sb] when it is [sb] with more text written. *)
Definition Extends (sb sb' : string) : Prop := exists d, sb' = sb ++ d.

(** *** Generation client *)

(** The texts of the errors of the design document. *)
Definition RateLimitExceeded (body : string) : string :=
  "API rate limit exceeded after 3 retries: " ++ body.

Definition RemoteError (status body : string) : string :=
  "API returned error: " ++ status ++ " (body: " ++ body ++ ")".

Definition EmptyResponse : string := "empty response from model".

(** The request every attempt of a call sends, when the request body
    marshals and the request can be built. *)
Definition requestOf (net : ai.Net) (c : ai.OllamaClient)
  (diff rules : string) (gitState : option git.GitState)
  : option http.Request :=
  match ai.json_Marshal net
          {| ai.Model := ai.model c;
             ai.Prompt := ai.buildPrompt c diff rules gitState;
             ai.Stream := false |} with
  | inr _ => None
  | inl jsonBody =>
      match ai.http_NewRequest net "POST" (ai.baseURL c) jsonBody with
      | inr _ => None
      | inl req => Some (ai.setHeaders c req)
      end
  end.

(** The server answers exchange [k] with status 429. *)
Definition rateLimited (net : ai.Net) (req : http.Request) (k : nat)
  : bool :=
  match ai.server net k req with
  | inl resp => (http.StatusCode resp =? 429)%Z
  | inr _ => false
  end.

(** The waits of the design document: 2, 4 and 8 seconds. *)
Definition backoff : list time.Duration :=
  [2 * time.Second; 4 * time.Second; 8 * time.Second]%Z.

(** The effects of a call that makes [n] attempts: an exchange, then for
    each further attempt the notice, the wait and the exchange. *)
Definition schedule (req : http.Request) (n : nat) : list ai.event :=
  match n with
  | O => []
  | S m =>
      ai.Do req
      :: flat_map (fun d => [ai.RetryNotice d; ai.Sleep d; ai.Do req])
           (firstn m backoff)
  end.

(** What a call returns on the response that ends it. *)
Definition conclude (net : ai.Net) (r : http.Response + string)
  : string * error :=
  match r with
  | inr err => (EmptyString, Some ("API call failed: " ++ err))
  | inl resp =>
      if (http.StatusCode resp =? 429)%Z then
        (EmptyString, Some (RateLimitExceeded (http.RespBody resp)))
      else if negb (http.StatusCode resp =? 200)%Z then
        (EmptyString,
         Some (RemoteError (http.Status resp) (http.RespBody resp)))
      else
        match ai.json_Decode net (http.RespBody resp) with
        | inr err => (EmptyString, Some ("failed to decode response: " ++ err))
        | inl o =>
            if String.eqb (ai.Response o) EmptyString
            then (EmptyString, Some EmptyResponse)
            else (strings.TrimSpace (ai.Response o), None)
        end
  end.

(** The notice and the wait that precede attempt [a]. *)
Definition announce (a : Z) : list ai.event :=
  if (0 <? a)%Z then
    let delay :=
      time.mul ai.baseDelay (time.wrap64 (Z.shiftl 1 (a - 1))) in
    [ai.RetryNotice delay; ai.Sleep delay]
  else [].

(** The trace after attempt [a] was made. *)
Definition after (req : http.Request) (tr : list ai.event) (a : Z)
  : list ai.event :=
  (tr ++ announce a ++ [ai.Do req])%list.

(** *** Further vocabulary *)

(** A text without line feed. *)
Fixpoint noLF (s : string) : bool :=
  match s with
  | EmptyString => true
  | String c rest => negb (Ascii.eqb c LF) && noLF rest
  end.

(** The lines of a text: its pieces between line feeds. *)
Definition linesOf (s : string) : list string := strings.Split s LF.

(** A message is clean when it is empty or none of its lines is empty,
    blank or a comment. *)
Definition cleanMessage (message : string) : Prop :=
  message = EmptyString
  \/ Forall (fun line => blankOrComment line = false) (linesOf message).

(** The four named values of [GitStateType]. *)
Definition namedState (t : git.GitStateType) : bool :=
  (t =? git.StateNormal)%Z || (t =? git.StateMerge)%Z
  || (t =? git.StateRebase)%Z || (t =? git.StateCherryPick)%Z.

(** The block of one status entry: what [GetStagedDiff] writes for it to
    an empty builder. *)
Definition block (sys : os.System) (repo : gogit.Repository)
  (headTree : option gogit.Tree) (entry : string * gogit.FileStatus)
  : string :=
  git.writeFileDiff sys repo headTree EmptyString entry.

(** The header lines of the blocks of a deleted, a modified and a renamed
    file. *)
Definition deletedHeader (filePath extra : string) : string :=
  ("diff --git a/" ++ filePath ++ " b/" ++ filePath ++ nl)
  ++ lit "deleted file mode 100644\n"
  ++ ("index " ++ extra ++ "..0000000" ++ nl)
  ++ ("--- a/" ++ filePath ++ nl)
  ++ lit "+++ /dev/null\n".

Definition modifiedHeader (filePath extra : string) : string :=
  ("diff --git a/" ++ filePath ++ " b/" ++ filePath ++ nl)
  ++ ("index " ++ extra ++ ".." ++ extra ++ " 100644" ++ nl)
  ++ ("--- a/" ++ filePath ++ nl)
  ++ ("+++ b/" ++ filePath ++ nl).

Definition renamedHeader (filePath extra : string) : string :=
  ("diff --git a/" ++ extra ++ " b/" ++ filePath ++ nl)
  ++ ("rename from " ++ extra ++ nl)
  ++ ("rename to " ++ filePath ++ nl).

(** The content of the working-directory file of a path, when it can be
    read. *)
Definition workContent (sys : os.System) (filePath : string)
  : option string :=
  match os.ReadFile sys (os.Join sys (fst (os.Getwd sys)) filePath) with
  | inl content => Some content
  | inr _ => None
  end.

(** The text of the option, or the empty text. *)
Definition orEmpty (o : option string) : string :=
  match o with
  | Some s => s
  | None => EmptyString
  end.

(** The staging codes for which [GetStagedDiff] writes a block. *)
Definition writesBlock (code : gogit.StatusCode) : bool :=
  match code with
  | gogit.Added | gogit.Deleted | gogit.Modified | gogit.Renamed => true
  | _ => false
  end.

(** A text begins, or ends, with a white space rune. *)
Definition startsWithSpace (s : string) : bool :=
  match strings.leadingSpace strings.spaceTokens
          (list_ascii_of_string s) with
  | Some _ => true
  | None => false
  end.

Definition endsWithSpace (s : string) : bool :=
  match strings.leadingSpace (map (@rev ascii) strings.spaceTokens)
          (rev (list_ascii_of_string s)) with
  | Some _ => true
  | None => false
  end.

(** The time a call spent sleeping. *)
Fixpoint sleptTotal (tr : list ai.event) : Z :=
  match tr with
  | [] => 0
  | ai.Sleep d :: rest => d + sleptTotal rest
  | _ :: rest => sleptTotal rest
  end%Z.

(** The banner and the rule that enclose the context of a special state. *)
Definition contextBanner : string :=
  lit "=== SPECIAL GIT STATE CONTEXT ===\n\n".

Definition contextRule : string :=
  lit "=================================\n\n".

(** A state of the given type with an original message. *)
Definition stateOf (t : git.GitStateType) (message : string)
  (conflict : bool) : option git.GitState :=
  Some {| git.Type_ := t; git.OriginalMessage := message;
          git.ConflictMode := conflict |}.

(** The [k]-th ancestor of a directory under a parent function. *)
Fixpoint ancestor (Dir : string -> string) (k : nat) (dir : string)
  : string :=
  match k with
  | O => dir
  | S k' => ancestor Dir k' (Dir dir)
  end.


(** The pre-flight checks of [Run] pass: the directory is inside a
    repository and there are staged changes. *)
Definition preflight (a : app.App) : bool :=
  match app.IsInsideRepo (app.Git a), app.HasStagedChanges (app.Git a) with
  | (true, None), (true, None) => true
  | _, _ => false
  end.

(** The application with another outcome of the state detection. *)
Definition withDetectState (a : app.App)
  (detect : option git.GitState * error) : app.App :=
  {| app.Git :=
       {| app.IsInsideRepo := app.IsInsideRepo (app.Git a);
          app.HasStagedChanges := app.HasStagedChanges (app.Git a);
          app.DetectState := detect;
          app.GetStagedDiff := app.GetStagedDiff (app.Git a) |};
     app.LoadRules := app.LoadRules a;
     app.AI := app.AI a |}.

(** The files [Init] may write below a repository root. *)
Definition rulesPathOf (p : appinit.Platform) (root : string) : string :=
  appinit.JoinAll p [root; ".git-commit-rules-for-ai"].

Definition hookPathOf (p : appinit.Platform) (root : string) : string :=
  let hookPath := appinit.JoinAll p [root; ".git"; "hooks"; "pre-commit"] in
  if String.eqb (appinit.GOOS p) "windows" then hookPath ++ ".bat"
  else hookPath.

(** The line of each hook that calls the executable. *)
Definition unixCallLine (exePath : string) : string :=
  "    COMMIT_MSG=$(" ++ dq ++ exePath ++ dq ++ ")" ++ nl.

Definition windowsCallLine (exePath : string) : string :=
  "for /f " ++ dq ++ "delims=" ++ dq ++ " %%i in ('" ++ dq ++ exePath
  ++ dq ++ " 2^>^&1') do set OUTPUT=%%i" ++ nl.

(** The text of a hook before and after its call line, read off the hook
    generated for the empty path. *)
Definition hookBefore (hook callLine : string) : string :=
  match index 0 callLine hook with
  | Some n => substring 0 n hook
  | None => hook
  end.

Definition hookAfter (hook callLine : string) : string :=
  match index 0 callLine hook with
  | Some n =>
      substring (n + String.length callLine)
        (String.length hook - n - String.length callLine) hook
  | None => EmptyString
  end.

Definition unixHookOfEmptyPath : string :=
  Sprintf_go appinit.unixHookFormat [EmptyString].

Definition windowsHookOfEmptyPath : string :=
  Sprintf_go appinit.windowsHookFormat [EmptyString].

(** * Properties *)

(** ** Strings *)

Lemma append_assoc (a b c : string) : (a ++ b) ++ c = a ++ (b ++ c).
Proof.
  induction a as [|x a IH]; simpl; [reflexivity | now rewrite IH].
Qed.

Lemma append_nil_r (a : string) : a ++ EmptyString = a.
Proof.
  induction a as [|x a IH]; simpl; [reflexivity | now rewrite IH].
Qed.

Lemma append_length (a b : string) :
  String.length (a ++ b) = (String.length a + String.length b)%nat.
Proof.
  induction a as [|x a IH]; simpl; [reflexivity | now rewrite IH].
Qed.

Lemma append_eq_nil (a b : string) :
  a ++ b = EmptyString -> a = EmptyString /\ b = EmptyString.
Proof.
  destruct a; simpl; [auto | discriminate].
Qed.

(** The loop that appends the kept elements computes a filter. *)
Lemma fold_append_filter {A : Type} (keep : A -> bool) (l acc : list A) :
  fold_left (fun acc x => if keep x then (acc ++ [x])%list else acc) l acc
  = (acc ++ filter keep l)%list.
Proof.
  revert acc.
  induction l as [|x l IH]; intros acc; simpl.
  - now rewrite app_nil_r.
  - rewrite IH. destruct (keep x); [|reflexivity].
    now rewrite <- app_assoc.
Qed.

(** *** [TrimSpace] leaves a leading [#] in place *)

Lemma stripToken_keeps_last (t x r : list ascii) :
  ~ In hash t ->
  strings.stripToken t (x ++ [hash])%list = Some r ->
  exists x', r = (x' ++ [hash])%list.
Proof.
  revert x r.
  induction t as [|a t IH]; intros x r Hnot H; simpl in H.
  - injection H as <-. now exists x.
  - destruct x as [|b x]; simpl in H.
    + destruct (Ascii.eqb a hash) eqn:E; [|discriminate].
      apply Ascii.eqb_eq in E. exfalso. apply Hnot. now left.
    + destruct (Ascii.eqb a b); [|discriminate].
      apply (IH x r); [|exact H].
      intros Hin. apply Hnot. now right.
Qed.

Lemma leadingSpace_keeps_last (tokens : list (list ascii))
  (x r : list ascii) :
  Forall (fun t => ~ In hash t) tokens ->
  strings.leadingSpace tokens (x ++ [hash])%list = Some r ->
  exists x', r = (x' ++ [hash])%list.
Proof.
  intros Hall. revert r.
  induction Hall as [|t ts Ht Hts IH]; intros r H; simpl in H.
  - discriminate.
  - destruct (strings.stripToken t (x ++ [hash])%list) as [r'|] eqn:E.
    + injection H as <-. exact (stripToken_keeps_last t x r' Ht E).
    + exact (IH r H).
Qed.

Lemma dropSpaces_keeps_last (tokens : list (list ascii)) (fuel : nat)
  (x : list ascii) :
  Forall (fun t => ~ In hash t) tokens ->
  exists x', strings.dropSpaces tokens fuel (x ++ [hash])%list
             = (x' ++ [hash])%list.
Proof.
  intros Hall. revert x.
  induction fuel as [|f IH]; intros x; simpl.
  - now exists x.
  - destruct (strings.leadingSpace tokens (x ++ [hash])%list) as [r|] eqn:E.
    + destruct (leadingSpace_keeps_last tokens x r Hall E) as [x' ->].
      apply IH.
    + now exists x.
Qed.

Lemma no_hash_in_tokens (tokens : list (list ascii)) :
  forallb (fun t => negb (existsb (Ascii.eqb hash) t)) tokens = true ->
  Forall (fun t => ~ In hash t) tokens.
Proof.
  intros H. apply Forall_forall. intros t Ht Hin.
  rewrite forallb_forall in H. specialize (H t Ht).
  apply negb_true_iff in H.
  assert (existsb (Ascii.eqb hash) t = true) as E.
  { apply existsb_exists. exists hash. split; [exact Hin|].
    apply Ascii.eqb_refl. }
  congruence.
Qed.

Lemma TrimSpace_hash (rest : string) :
  exists rest', strings.TrimSpace (String hash rest) = String hash rest'.
Proof.
  unfold strings.TrimSpace.
  cbv zeta.
  change (list_ascii_of_string (String hash rest))
    with (hash :: list_ascii_of_string rest).
  set (l := list_ascii_of_string rest).
  assert (strings.dropSpaces strings.spaceTokens (length (hash :: l))
            (hash :: l) = hash :: l) as ->.
  { reflexivity. }
  change (rev (hash :: l)) with (rev l ++ [hash])%list.
  destruct (dropSpaces_keeps_last (map (@rev ascii) strings.spaceTokens)
              (length (hash :: l)) (rev l)) as [x' ->].
  { apply no_hash_in_tokens. reflexivity. }
  rewrite rev_app_distr. simpl.
  now exists (string_of_list_ascii (rev x')).
Qed.

Lemma TrimSpace_empty : strings.TrimSpace EmptyString = EmptyString.
Proof. reflexivity. Qed.

(** ** Comment stripping (C6) *)

Lemma filterCommentLines_filter (message : string) :
  git.filterCommentLines message
  = strings.Join
      (filter (fun line => negb (blankOrComment line))
         (strings.Split message LF))
      nl.
Proof.
  unfold git.filterCommentLines. cbv zeta.
  rewrite (fold_append_filter
             (fun line =>
                negb (strings.HasPrefix (strings.TrimSpace line) "#")
                && negb (String.eqb (strings.TrimSpace line) EmptyString))).
  simpl app. f_equal.
  apply filter_ext. intros line. unfold blankOrComment. cbv zeta.
  rewrite negb_orb. apply andb_comm.
Qed.

(** C6, counterexample.  On a message with an indented comment and a line
    of spaces the code drops both lines, although neither is empty nor
    starts with [#]; the documented stripping keeps them. *)
Lemma C6_counterexample :
  let message := lit "a\n  # c\n   \nb" in
  git.filterCommentLines message = lit "a\nb"
  /\ filterCommentLines_documented message = message
  /\ git.filterCommentLines message <> filterCommentLines_documented message.
Proof.
  vm_compute. repeat split. discriminate.
Qed.

(** C6, amended.  [filterCommentLines] removes every line that, once its
    surrounding white space is trimmed, is empty or starts with [#], and
    joins the remaining lines, unchanged and in order, with line feeds.
    Every empty line and every line starting with [#] is among the removed
    ones, and the message [feat: x], [# comment], empty line, [body] yields
    [feat: x], [body]. *)
Theorem C6_filterCommentLines (message : string) :
  git.filterCommentLines message
  = strings.Join
      (filter (fun line => negb (blankOrComment line))
         (strings.Split message LF))
      nl
  /\ blankOrComment EmptyString = true
  /\ (forall rest, blankOrComment (String "#" rest) = true)
  /\ git.filterCommentLines (lit "feat: x\n# comment\n\nbody")
     = lit "feat: x\nbody".
Proof.
  split; [apply filterCommentLines_filter|].
  split; [reflexivity|].
  split; [|reflexivity].
  intros rest. unfold blankOrComment. cbv zeta.
  change (String "#" rest) with (String hash rest).
  destruct (TrimSpace_hash rest) as [rest' ->].
  unfold hash. simpl. now destruct rest'.
Qed.

(** ** Git state detection (C5, C7, C8) *)

Section Detection.

Variable sys : os.System.
Variable repoRoot : string.

(** With the metadata directory in place, the code computes the state of
    the detection order. *)
Lemma detect_cases :
  os.IsNotExist (os.Stat sys (gitDirOf sys repoRoot)) = false ->
  git.DetectGitState sys repoRoot = (Some (detected sys repoRoot), None).
Proof.
  unfold git.DetectGitState, detected, exists_, existsDir, messageFrom,
    gitDirOf.
  cbv zeta. intros ->.
  destruct (git.statOK (os.Stat sys _)).
  { now destruct (os.ReadFile sys _). }
  destruct (git.statOK (os.Stat sys _)).
  { now destruct (os.ReadFile sys _). }
  destruct (git.statDir (os.Stat sys _)).
  { now destruct (os.ReadFile sys _). }
  destruct (git.statDir (os.Stat sys _)).
  { now destruct (os.ReadFile sys _). }
  reflexivity.
Qed.

Lemma detect_absent :
  os.IsNotExist (os.Stat sys (gitDirOf sys repoRoot)) = true ->
  git.DetectGitState sys repoRoot
  = (None, Some ("not a git repository: " ++ repoRoot)).
Proof.
  unfold git.DetectGitState, gitDirOf. cbv zeta. now intros ->.
Qed.

(** C5.  When the metadata directory is there, [DetectGitState] decides
    on the first of MERGE_HEAD, CHERRY_PICK_HEAD, the rebase-merge
    directory and the rebase-apply directory that exists, in this order,
    and takes the original message from the files of that case alone; it
    reports the normal state when none exists.  In particular MERGE_HEAD
    together with a rebase-merge directory gives the merge state, not the
    rebase state. *)
Theorem C5_detection_order :
  os.IsNotExist (os.Stat sys (gitDirOf sys repoRoot)) = false ->
  git.DetectGitState sys repoRoot
  = (Some
       (if exists_ sys repoRoot "MERGE_HEAD" then
          conflictState git.StateMerge
            (messageFrom sys
               (os.Join sys (gitDirOf sys repoRoot) "MERGE_MSG")
               commitMessage)
        else if exists_ sys repoRoot "CHERRY_PICK_HEAD" then
          conflictState git.StateCherryPick
            (messageFrom sys
               (os.Join sys (gitDirOf sys repoRoot) "COMMIT_EDITMSG")
               commitMessage)
        else if existsDir sys repoRoot "rebase-merge" then
          conflictState git.StateRebase
            (messageFrom sys
               (os.Join sys
                  (os.Join sys (gitDirOf sys repoRoot) "rebase-merge")
                  "head-name")
               rebaseMessage)
        else if existsDir sys repoRoot "rebase-apply" then
          conflictState git.StateRebase
            (messageFrom sys
               (os.Join sys
                  (os.Join sys (gitDirOf sys repoRoot) "rebase-apply")
                  "head-name")
               rebaseMessage)
        else normalState),
     None)
  /\ (exists_ sys repoRoot "MERGE_HEAD" = true ->
      existsDir sys repoRoot "rebase-merge" = true ->
      exists st,
        git.DetectGitState sys repoRoot = (Some st, None)
        /\ git.Type_ st = git.StateMerge
        /\ git.Type_ st <> git.StateRebase).
Proof.
  intros Hgit. split; [exact (detect_cases Hgit)|].
  intros Hm _. eexists. split; [exact (detect_cases Hgit)|].
  unfold detected. rewrite Hm. split; [reflexivity | discriminate].
Qed.

(** C7.  Whenever [DetectGitState] returns a state, its conflict mode is
    set exactly when its type is not the normal one: set for the merge,
    rebase and cherry-pick states, clear for the normal state. *)
Theorem C7_conflict_mode_iff_not_normal (st : git.GitState) :
  git.DetectGitState sys repoRoot = (Some st, None) ->
  (git.ConflictMode st = true <-> git.Type_ st <> git.StateNormal)
  /\ (git.ConflictMode st = false <-> git.Type_ st = git.StateNormal)
  /\ (git.Type_ st = git.StateNormal \/ git.Type_ st = git.StateMerge
      \/ git.Type_ st = git.StateRebase
      \/ git.Type_ st = git.StateCherryPick).
Proof.
  intros H.
  destruct (os.IsNotExist (os.Stat sys (gitDirOf sys repoRoot))) eqn:Hgit.
  - rewrite (detect_absent Hgit) in H. discriminate.
  - rewrite (detect_cases Hgit) in H. injection H as <-.
    unfold detected.
    destruct (exists_ sys repoRoot "MERGE_HEAD"),
      (exists_ sys repoRoot "CHERRY_PICK_HEAD"),
      (existsDir sys repoRoot "rebase-merge"),
      (existsDir sys repoRoot "rebase-apply");
      simpl;
      (split; [split; intros; congruence || discriminate|]);
      (split; [split; intros; congruence || discriminate|]);
      auto.
Qed.

End Detection.

(** The two theorems on a concrete repository: a merge begun during a
    rebase. *)

Lemma C5_witness :
  git.DetectGitState (Fixtures.system Fixtures.mergeDuringRebase) "/repo"
  = (Some (conflictState git.StateMerge
             "Merge branch 'feature-x' into main"), None).
Proof.
  destruct (C5_detection_order
              (Fixtures.system Fixtures.mergeDuringRebase) "/repo" eq_refl)
    as [E _].
  exact E.
Defined.

Lemma C7_witness :
  git.ConflictMode
    (conflictState git.StateMerge "Merge branch 'feature-x' into main")
  = true
  <-> git.StateMerge <> git.StateNormal.
Proof.
  exact (proj1 (C7_conflict_mode_iff_not_normal
                  (Fixtures.system Fixtures.mergeDuringRebase) "/repo"
                  (conflictState git.StateMerge
                     "Merge branch 'feature-x' into main")
                  eq_refl)).
Defined.

(** C8, the code at a failing input.  The root [/repo/notes.txt] is a
    regular file, so no [.git] exists below it.  [os.Stat] fails on that
    path with [not a directory], which [os.IsNotExist] does not
    recognise: the check of [DetectGitState] lets it pass, none of the
    control files is found, and the normal state is returned without an
    error.  A root that is simply missing, [/repo/gone], gets the
    error. *)
Theorem C8_regular_file_root :
  let sys := Fixtures.system Fixtures.fileRoot in
  os.Stat sys "/repo/notes.txt" = inl {| os.IsDir := false |}
  /\ os.Stat sys (gitDirOf sys "/repo/notes.txt")
     = inr (os.ErrOther "not a directory")
  /\ git.DetectGitState sys "/repo/notes.txt" = (Some normalState, None)
  /\ git.DetectGitState sys "/repo/gone"
     = (None, Some "not a git repository: /repo/gone").
Proof.
  vm_compute. repeat split.
Qed.

(** ** Staged diff synthesis (C4, C9) *)

Lemma substring_prefix (n : nat) (s : string) :
  (n <= String.length s)%nat ->
  exists rest,
    s = substring 0 n s ++ rest /\ String.length (substring 0 n s) = n.
Proof.
  revert s.
  induction n as [|n IH]; intros s Hn.
  - exists s. now destruct s.
  - destruct s as [|c s]; simpl in Hn; [lia|].
    destruct (IH s ltac:(lia)) as [rest [E L]].
    exists rest. simpl. split; [now rewrite <- E | now rewrite L].
Qed.

Lemma writeLines_concat (sb prefix : string) (lines : list string) :
  git.writeLines sb prefix lines
  = sb ++ concatLines (map (fun line => prefix ++ line ++ nl) lines).
Proof.
  unfold git.writeLines, concatLines, WriteString. revert sb.
  induction lines as [|line lines IH]; intros sb; simpl.
  - now rewrite append_nil_r.
  - rewrite IH. apply append_assoc.
Qed.

Lemma Split_nonempty (s : string) (sep : ascii) : strings.Split s sep <> [].
Proof.
  destruct s as [|c s]; simpl; [discriminate|].
  destruct (Ascii.eqb c sep); [discriminate|].
  destruct (strings.Split s sep); discriminate.
Qed.

(** [Split] yields one piece more than the text has complete lines,
    unless the last line lacks its line feed. *)
Lemma Split_length (s : string) :
  length (strings.Split s LF)
  = (lineCount s + (if unterminated s then 0 else 1))%nat.
Proof.
  induction s as [|c s IH]; [reflexivity|].
  simpl. destruct (Ascii.eqb c LF) eqn:Ec.
  - simpl. rewrite IH. destruct s; simpl; lia.
  - destruct (strings.Split s LF) as [|h t] eqn:Es.
    + now apply Split_nonempty in Es.
    + simpl in *. rewrite IH. destruct s; simpl; lia.
Qed.

Section StagedDiff.

Variable sys : os.System.
Variable PlainOpenWithOptions : string -> gogit.Repository + string.

(** The block of an added file: the header, then one [+] line per piece
    of the content when the file can be read, nothing otherwise. *)
Lemma added_block (repo : gogit.Repository) (headTree : option gogit.Tree)
  (sb filePath : string) (fileStatus : gogit.FileStatus) :
  gogit.Staging fileStatus = gogit.Added ->
  git.writeFileDiff sys repo headTree sb (filePath, fileStatus)
  = sb ++ addedHeader filePath (gogit.Extra fileStatus)
    ++ match os.ReadFile sys (os.Join sys (fst (os.Getwd sys)) filePath) with
       | inl content => concatLines (bodyLines "+" content)
       | inr _ => EmptyString
       end.
Proof.
  intros Hadd. unfold git.writeFileDiff. rewrite Hadd.
  cbv beta iota zeta. simpl orb. cbv iota.
  destruct (os.Getwd sys) as [wd err]. simpl fst.
  unfold addedHeader, bodyLines, WriteString.
  destruct (os.ReadFile sys (os.Join sys wd filePath)) as [content|e].
  - rewrite writeLines_concat. now rewrite !append_assoc.
  - now rewrite !append_assoc, append_nil_r.
Qed.

(** The number of [+] body lines of an added file against the number of
    lines of its content: equal when the last line lacks its line feed,
    one more when the content ends with a line feed or is empty. *)
Lemma added_body_count (content : string) :
  length (bodyLines "+" content)
  = (lineCount content + (if unterminated content then 0 else 1))%nat
  /\ Forall (fun line => strings.HasPrefix line "+" = true)
       (bodyLines "+" content).
Proof.
  unfold bodyLines. rewrite length_map, Split_length. split; [reflexivity|].
  apply Forall_forall. intros line Hin.
  apply in_map_iff in Hin. destruct Hin as [l [<- _]].
  unfold strings.HasPrefix. simpl.
  now destruct (l ++ nl).
Qed.


End StagedDiff.


(** C9, the code at a failing input.  The staged new file [one.txt] holds
    the single line [a] with its line feed; the block written for it has
    two body lines, [+a] and a bare [+].  (A new file that cannot be read,
    [gone.txt], gets its header alone.) *)
Theorem C9_added_file_extra_line :
  lineCount (lit "a\n") = 1%nat
  /\ git.GetStagedDiff (Fixtures.system Fixtures.workTree)
       (Fixtures.plainOpen [("one.txt", Fixtures.added "7898192")])
     = (addedHeader "one.txt" "7898192" ++ lit "+a\n" ++ lit "+\n", None)
  /\ bodyLines "+" (lit "a\n") = [lit "+a\n"; lit "+\n"]
  /\ git.GetStagedDiff (Fixtures.system Fixtures.workTree)
       (Fixtures.plainOpen [("gone.txt", Fixtures.added "7898192")])
     = (addedHeader "gone.txt" "7898192", None).
Proof.
  vm_compute. repeat split.
Qed.

(** ** Prompt construction (C10) *)

Lemma Extends_refl (sb : string) : Extends sb sb.
Proof. exists EmptyString. now rewrite append_nil_r. Qed.

Lemma Extends_write (sb sb' s : string) :
  Extends sb sb' -> Extends sb (sb' <<< s).
Proof.
  intros [d ->]. exists (d ++ s). unfold WriteString. apply append_assoc.
Qed.

Ltac extends :=
  repeat match goal with
         | |- Extends ?a ?b =>
             first [ constr_eq a b; apply Extends_refl
                   | apply Extends_write ]
         end.

(** Writing the state context to a builder appends what it writes to the
    empty builder. *)
Lemma writeStateContext_append (sb : string) (gs : option git.GitState) :
  ai.writeStateContext sb gs = sb ++ ai.writeStateContext EmptyString gs.
Proof.
  unfold ai.writeStateContext, WriteString.
  destruct gs as [g|]; [|now rewrite append_nil_r].
  destruct (git.Type_ g =? git.StateNormal)%Z; simpl negb; cbv iota;
    [now rewrite append_nil_r|].
  cbv zeta.
  destruct (git.Type_ g =? git.StateMerge)%Z;
    [|destruct (git.Type_ g =? git.StateRebase)%Z;
      [|destruct (git.Type_ g =? git.StateCherryPick)%Z]];
    try (destruct (String.eqb (git.OriginalMessage g) EmptyString);
         simpl negb; cbv iota);
    rewrite !append_assoc; reflexivity.
Qed.

(** The context block of a special state opens with the banner and closes
    with the rule; no other state writes anything. *)
Lemma writeStateContext_shape (gs : option git.GitState) :
  exists body,
    ai.writeStateContext EmptyString gs
    = if special gs
      then lit "=== SPECIAL GIT STATE CONTEXT ===\n\n" ++ body
           ++ lit "=================================\n\n"
      else EmptyString.
Proof.
  unfold ai.writeStateContext, special.
  destruct gs as [g|]; [|now exists EmptyString].
  destruct (git.Type_ g =? git.StateNormal)%Z; simpl negb; cbv iota;
    [now exists EmptyString|].
  cbv zeta.
  match goal with
  | |- exists body, ?x <<< ?ftr = _ =>
      assert (Extends
                (EmptyString <<< lit "=== SPECIAL GIT STATE CONTEXT ===\n\n")
                x) as [d E]
  end.
  { destruct (git.Type_ g =? git.StateMerge)%Z;
      [|destruct (git.Type_ g =? git.StateRebase)%Z;
        [|destruct (git.Type_ g =? git.StateCherryPick)%Z]];
      try (destruct (String.eqb (git.OriginalMessage g) EmptyString);
           simpl negb; cbv iota);
      extends. }
  exists d. rewrite E. unfold WriteString.
  change (EmptyString ++ ?x) with x.
  apply append_assoc.
Qed.

Lemma writeStateContext_nil (sb : string) :
  ai.writeStateContext sb None = sb.
Proof. reflexivity. Qed.

Lemma writeStateContext_normal (sb message : string) (conflict : bool) :
  ai.writeStateContext sb
    (Some {| git.Type_ := git.StateNormal;
             git.OriginalMessage := message;
             git.ConflictMode := conflict |})
  = sb.
Proof.
  unfold ai.writeStateContext. cbv beta iota. simpl git.Type_.
  change (git.StateNormal =? git.StateNormal)%Z with true.
  reflexivity.
Qed.

(** C10.  [buildPrompt] is total on a [nil] state and gives it the prompt
    of any normal state.  The prompt is the preamble, the state context,
    the general instructions, the team rules block and the label [Diff:]
    followed by the diff as it is; the state context is written exactly
    for a state that is present and not normal, and the team rules block
    exactly for non-empty rules. *)
Theorem C10_buildPrompt (c : ai.OllamaClient) (diff rules : string)
  (gitState : option git.GitState) :
  (forall (message : string) (conflict : bool),
     ai.buildPrompt c diff rules None
     = ai.buildPrompt c diff rules
         (Some {| git.Type_ := git.StateNormal;
                  git.OriginalMessage := message;
                  git.ConflictMode := conflict |}))
  /\ ai.buildPrompt c diff rules gitState
     = preamble
       ++ ai.writeStateContext EmptyString gitState
       ++ generalInstructions
       ++ (if String.eqb rules EmptyString then EmptyString
           else lit "Team Rules:\n" ++ rules ++ lit "\n\n")
       ++ lit "Diff:\n" ++ diff
  /\ (exists body,
        ai.writeStateContext EmptyString gitState
        = if special gitState
          then lit "=== SPECIAL GIT STATE CONTEXT ===\n\n" ++ body
               ++ lit "=================================\n\n"
          else EmptyString)
  /\ (special gitState = false
      <-> ai.writeStateContext EmptyString gitState = EmptyString).
Proof.
  split.
  { intros message conflict. unfold ai.buildPrompt. cbv zeta.
    now rewrite writeStateContext_nil, writeStateContext_normal. }
  split.
  { unfold ai.buildPrompt. cbv zeta.
    rewrite writeStateContext_append.
    unfold WriteString, preamble, generalInstructions.
    change (EmptyString ++ ?x) with x.
    destruct (String.eqb rules EmptyString); simpl negb; cbv iota;
      rewrite !append_assoc; reflexivity. }
  split; [apply writeStateContext_shape|].
  destruct (writeStateContext_shape gitState) as [body E].
  rewrite E. destruct (special gitState).
  - split; [discriminate|]. intros H. apply append_eq_nil in H.
    destruct H as [H _]. vm_compute in H. discriminate.
  - split; reflexivity.
Qed.

(** ** The generation client (C1, C2, C3) *)

Lemma calls_app (tr tr' : list ai.event) :
  ai.calls (tr ++ tr') = (ai.calls tr + ai.calls tr')%nat.
Proof.
  unfold ai.calls. now rewrite filter_app, length_app.
Qed.

(** The first exchange that is not rate limited, among the first [m]. *)
Lemma first_unlimited (f : nat -> bool) (m : nat) :
  exists k, (k <= m)%nat
            /\ (forall j, (j < k)%nat -> f j = true)
            /\ (k = m \/ f k = false).
Proof.
  induction m as [|m IH].
  - exists 0%nat. split; [lia|]. split; [|now left].
    intros j Hj. lia.
  - destruct IH as [k [Hk [Hall Hend]]].
    destruct Hend as [-> | Hend].
    + destruct (f m) eqn:Hm.
      * exists (S m). split; [lia|]. split; [|now left].
        intros j Hj. destruct (Nat.eq_dec j m) as [-> | Hne];
          [exact Hm | apply Hall; lia].
      * exists m. split; [lia|]. split; [exact Hall | now right].
    + exists k. split; [lia|]. split; [exact Hall | now right].
Qed.

Lemma calls_after (req : http.Request) (tr : list ai.event) (a : Z) :
  ai.calls (after req tr a) = S (ai.calls tr).
Proof.
  unfold after, announce. rewrite !calls_app.
  destruct (0 <? a)%Z; unfold ai.calls; simpl; lia.
Qed.

Section RetryLoop.

Variable net : ai.Net.
Variable c : ai.OllamaClient.
Variable jsonBody : string.
Variable req0 : http.Request.

Hypothesis request_built :
  ai.http_NewRequest net "POST" (ai.baseURL c) jsonBody = inl req0.

(** One turn of the loop: it goes on after a 429 that is not the last
    attempt, and concludes on the response otherwise. *)
Lemma retryLoop_step (a : Z) (rest : list Z) (tr : list ai.event) :
  ai.retryLoop net c jsonBody (a :: rest) tr
  = let req := ai.setHeaders c req0 in
    if rateLimited net req (ai.calls tr) && negb (a =? ai.maxRetries)%Z
    then ai.retryLoop net c jsonBody rest (after req tr a)
    else (conclude net (ai.server net (ai.calls tr) req), after req tr a).
Proof.
  cbv zeta. set (req := ai.setHeaders c req0).
  assert (ai.calls (tr ++ announce a) = ai.calls tr) as Hcalls.
  { rewrite calls_app. unfold announce.
    destruct (0 <? a)%Z; unfold ai.calls; simpl; lia. }
  assert (forall X (k : list ai.event -> X),
             (let (_, tr') :=
                (if (0 <? a)%Z
                 then ai.bind
                        (ai.emit
                           (ai.RetryNotice
                              (time.mul ai.baseDelay
                                 (time.wrap64 (Z.shiftl 1 (a - 1))))))
                        (fun _ =>
                           ai.emit
                             (ai.Sleep
                                (time.mul ai.baseDelay
                                   (time.wrap64 (Z.shiftl 1 (a - 1))))))
                 else ai.ret tt) tr in k tr')
             = k (tr ++ announce a)%list) as Hpre.
  { intros X k. unfold announce, ai.bind, ai.emit, ai.ret.
    destruct (0 <? a)%Z; cbv zeta.
    - now rewrite <- app_assoc.
    - now rewrite app_nil_r. }
  cbn [ai.retryLoop]. unfold ai.bind at 1.
  rewrite Hpre. rewrite request_built.
  unfold ai.bind, ai.client_Do. fold req. rewrite Hcalls.
  unfold rateLimited, conclude, after.
  rewrite <- app_assoc.
  destruct (ai.server net (ai.calls tr) req) as [resp|err];
    [|reflexivity].
  destruct (http.StatusCode resp =? 429)%Z; simpl andb.
  - destruct (a =? ai.maxRetries)%Z; reflexivity.
  - unfold http.StatusOK.
    destruct (http.StatusCode resp =? 200)%Z; simpl negb; cbv iota;
      [|reflexivity].
    destruct (ai.json_Decode net (http.RespBody resp)) as [o|e];
      [|reflexivity].
    destruct (String.eqb (ai.Response o) EmptyString); reflexivity.
Qed.

End RetryLoop.

(** A call whose request can be built: after [k] rate-limited exchanges it
    concludes on exchange [k], the fourth at the latest, having followed
    the schedule of [k + 1] attempts. *)
Lemma generate_run (net : ai.Net) (c : ai.OllamaClient)
  (diff rules : string) (gitState : option git.GitState)
  (req : http.Request) (k : nat) :
  requestOf net c diff rules gitState = Some req ->
  (k <= 3)%nat ->
  (forall j, (j < k)%nat -> rateLimited net req j = true) ->
  k = 3%nat \/ rateLimited net req k = false ->
  ai.GenerateCommitMessage net c diff rules gitState []
  = (conclude net (ai.server net k req), schedule req (S k)).
Proof.
  unfold requestOf, ai.GenerateCommitMessage. cbv zeta.
  destruct (ai.json_Marshal net _) as [jsonBody|e]; [|discriminate].
  destruct (ai.http_NewRequest net "POST" (ai.baseURL c) jsonBody)
    as [req0|e] eqn:Hreq; [|discriminate].
  intros [= <-] Hk Hall Hend.
  change ai.attemptRange with [0; 1; 2; 3]%Z.
  repeat (rewrite (retryLoop_step net c jsonBody req0 Hreq); cbv zeta;
          rewrite ?calls_after; change (ai.calls []) with 0%nat).
  cbn [negb Z.eqb Pos.eqb ai.maxRetries]. rewrite andb_false_r.
  destruct k as [|[|[|[|k]]]]; [| | | |lia].
  all: repeat match goal with
              | |- context [rateLimited _ _ ?j] =>
                  rewrite (Hall j ltac:(lia)); cbn [andb]
              end.
  all: destruct Hend as [Hend|Hend];
    [ try discriminate | try rewrite Hend; cbn [andb] ].
  all: reflexivity.
Qed.

(** A call whose request cannot be built has no effect. *)
Lemma generate_unbuilt (net : ai.Net) (c : ai.OllamaClient)
  (diff rules : string) (gitState : option git.GitState) :
  requestOf net c diff rules gitState = None ->
  snd (ai.GenerateCommitMessage net c diff rules gitState []) = [].
Proof.
  unfold requestOf, ai.GenerateCommitMessage. cbv zeta.
  destruct (ai.json_Marshal net _) as [jsonBody|e]; [|reflexivity].
  destruct (ai.http_NewRequest net "POST" (ai.baseURL c) jsonBody)
    as [req0|e] eqn:Hreq; [discriminate|].
  intros _. change ai.attemptRange with [0; 1; 2; 3]%Z.
  cbn [ai.retryLoop]. unfold ai.bind, ai.ret. simpl.
  now rewrite Hreq.
Qed.

Lemma calls_schedule (req : http.Request) (n : nat) :
  (n <= 4)%nat -> ai.calls (schedule req n) = n.
Proof.
  intros Hn. destruct n as [|[|[|[|[|n]]]]]; try reflexivity. lia.
Qed.

Lemma rateLimited_status (net : ai.Net) (req : http.Request) (k : nat)
  (resp : http.Response) :
  ai.server net k req = inl resp ->
  rateLimited net req k = (http.StatusCode resp =? 429)%Z.
Proof.
  unfold rateLimited. now intros ->.
Qed.

(** C1, counterexample.  A 201 response with the generated text [ok] is
    not a success but an API error, and a 200 response whose generated
    text is one space is a success whose value is the empty string. *)
Lemma C1_counterexample :
  fst (Fixtures.run [Fixtures.created "ok"])
  = (EmptyString,
     Some (RemoteError "201 Created" (Fixtures.jsonResponse "ok")))
  /\ Fixtures.decode (Fixtures.jsonResponse " ")
     = inl {| ai.Response := " "; ai.Done := true |}
  /\ fst (Fixtures.run [Fixtures.ok " "]) = (EmptyString, None).
Proof.
  vm_compute. repeat split.
Qed.

(** C1, amended.  When the response that ends a call has status 200 and
    decodes to a generated text with a character that is not white space,
    the call returns that text without its leading and trailing white
    space, which is not empty, and no error; when the generated text is
    empty, the call returns the empty-response error. *)
Theorem C1_success_value (net : ai.Net) (c : ai.OllamaClient)
  (diff rules : string) (gitState : option git.GitState)
  (req : http.Request) (k : nat) (resp : http.Response)
  (o : ai.ollamaResponse) :
  requestOf net c diff rules gitState = Some req ->
  (k < 4)%nat ->
  (forall j, (j < k)%nat -> rateLimited net req j = true) ->
  ai.server net k req = inl resp ->
  http.StatusCode resp = 200%Z ->
  ai.json_Decode net (http.RespBody resp) = inl o ->
  let result := fst (ai.GenerateCommitMessage net c diff rules gitState []) in
  (ai.Response o = EmptyString ->
   result = (EmptyString, Some EmptyResponse))
  /\ (strings.TrimSpace (ai.Response o) <> EmptyString ->
      result = (strings.TrimSpace (ai.Response o), None)
      /\ fst result <> EmptyString).
Proof.
  intros Hreq Hk Hall Hresp Hcode Hdec result.
  assert (rateLimited net req k = false) as Hend.
  { rewrite (rateLimited_status _ _ _ _ Hresp), Hcode. reflexivity. }
  assert (result
          = if String.eqb (ai.Response o) EmptyString
            then (EmptyString, Some EmptyResponse)
            else (strings.TrimSpace (ai.Response o), None)) as E.
  { unfold result.
    rewrite (generate_run net c diff rules gitState req k Hreq
               ltac:(lia) Hall (or_intror Hend)).
    unfold conclude, fst. rewrite Hresp, Hcode, Hdec. reflexivity. }
  split.
  - intros Hempty. rewrite E, Hempty. reflexivity.
  - intros Htrim.
    destruct (String.eqb_spec (ai.Response o) EmptyString) as [Hempty|_].
    + rewrite Hempty in Htrim. now contradiction Htrim.
    + rewrite E. split; [reflexivity | exact Htrim].
Qed.

Lemma C1_witness :
  fst (Fixtures.run [Fixtures.ok "  feat: added login  "])
  = ("feat: added login", None).
Proof.
  refine (proj1
            (proj2
               (C1_success_value
                  (Fixtures.scripted [Fixtures.ok "  feat: added login  "])
                  Fixtures.client "diff" EmptyString None
                  _ 0%nat _ _ eq_refl ltac:(lia) _ eq_refl eq_refl eq_refl)
               _)).
  - intros j Hj. lia.
  - vm_compute. discriminate.
Defined.

(** C2.  A call makes at most four attempts; each attempt but the first
    follows a 429 answer to the attempt before it, a notice and a wait,
    the waits being 2, 4 and 8 seconds before the second, third and
    fourth attempt; and when all four attempts are answered with 429 the
    call returns the rate-limit error with the body of the fourth
    response. *)
Theorem C2_retry_policy (net : ai.Net) (c : ai.OllamaClient)
  (diff rules : string) (gitState : option git.GitState) :
  let run := ai.GenerateCommitMessage net c diff rules gitState [] in
  (exists n,
     (n <= 4)%nat
     /\ ai.calls (snd run) = n
     /\ match requestOf net c diff rules gitState with
        | Some req =>
            snd run = schedule req n
            /\ forall k, (S k < n)%nat -> rateLimited net req k = true
        | None => snd run = []
        end)
  /\ (forall req,
        schedule req 4
        = [ ai.Do req;
            ai.RetryNotice (2 * time.Second); ai.Sleep (2 * time.Second);
            ai.Do req;
            ai.RetryNotice (4 * time.Second); ai.Sleep (4 * time.Second);
            ai.Do req;
            ai.RetryNotice (8 * time.Second); ai.Sleep (8 * time.Second);
            ai.Do req ]%Z)
  /\ (forall req resp,
        requestOf net c diff rules gitState = Some req ->
        (forall k, (k < 4)%nat -> rateLimited net req k = true) ->
        ai.server net 3 req = inl resp ->
        run = ((EmptyString,
                Some (RateLimitExceeded (http.RespBody resp))),
               schedule req 4)).
Proof.
  intros run. split; [|split; [reflexivity|]].
  - destruct (requestOf net c diff rules gitState) as [req|] eqn:Hreq.
    + destruct (first_unlimited (rateLimited net req) 3)
        as [k [Hk [Hall Hend]]].
      exists (S k). unfold run.
      rewrite (generate_run net c diff rules gitState req k Hreq
                 Hk Hall Hend).
      cbn [snd]. split; [lia|]. split; [apply calls_schedule; lia|].
      split; [reflexivity|]. intros j Hj. apply Hall. lia.
    + exists 0%nat. unfold run.
      rewrite (generate_unbuilt net c diff rules gitState Hreq).
      split; [lia|]. split; reflexivity.
  - intros req resp Hreq Hall Hresp. unfold run.
    rewrite (generate_run net c diff rules gitState req 3 Hreq
               ltac:(lia) (fun j Hj => Hall j ltac:(lia)) (or_introl eq_refl)).
    f_equal. unfold conclude. rewrite Hresp.
    rewrite <- (rateLimited_status _ _ _ _ Hresp).
    now rewrite (Hall 3%nat ltac:(lia)).
Qed.

Lemma C2_witness :
  fst (Fixtures.run
         [Fixtures.tooMany "one"; Fixtures.tooMany "two";
          Fixtures.tooMany "three"; Fixtures.tooMany "four"])
  = (EmptyString, Some "API rate limit exceeded after 3 retries: four").
Proof.
  refine (f_equal fst
            (proj2
               (proj2
                  (C2_retry_policy
                     (Fixtures.scripted
                        [Fixtures.tooMany "one"; Fixtures.tooMany "two";
                         Fixtures.tooMany "three"; Fixtures.tooMany "four"])
                     Fixtures.client "diff" EmptyString None))
               _ (Fixtures.tooMany "four") eq_refl _ eq_refl)).
  intros k Hk.
  destruct k as [|[|[|[|k]]]]; [reflexivity .. | lia].
Defined.

(** C3.  When the answer to an attempt has a status that is neither 429
    nor in the range 200 to 299, the call returns at once the API error
    with the status text and the body of that response, having made no
    attempt after it. *)
Theorem C3_remote_error (net : ai.Net) (c : ai.OllamaClient)
  (diff rules : string) (gitState : option git.GitState)
  (req : http.Request) (k : nat) (resp : http.Response) :
  requestOf net c diff rules gitState = Some req ->
  (k < 4)%nat ->
  (forall j, (j < k)%nat -> rateLimited net req j = true) ->
  ai.server net k req = inl resp ->
  http.StatusCode resp <> 429%Z ->
  ~ (200 <= http.StatusCode resp < 300)%Z ->
  ai.GenerateCommitMessage net c diff rules gitState []
  = ((EmptyString,
      Some ("API returned error: " ++ http.Status resp
            ++ " (body: " ++ http.RespBody resp ++ ")")),
     schedule req (S k))
  /\ ai.calls (snd (ai.GenerateCommitMessage net c diff rules gitState []))
     = S k.
Proof.
  intros Hreq Hk Hall Hresp H429 H2xx.
  assert ((http.StatusCode resp =? 429)%Z = false) as E429
      by now apply Z.eqb_neq.
  assert ((http.StatusCode resp =? 200)%Z = false) as E200
      by (apply Z.eqb_neq; lia).
  assert (rateLimited net req k = false) as Hend.
  { now rewrite (rateLimited_status _ _ _ _ Hresp). }
  rewrite (generate_run net c diff rules gitState req k Hreq
             ltac:(lia) Hall (or_intror Hend)).
  split.
  - unfold conclude. rewrite Hresp, E429, E200. reflexivity.
  - cbn [snd]. apply calls_schedule. lia.
Qed.

Lemma C3_witness :
  fst (Fixtures.run [Fixtures.tooMany "slow down"; Fixtures.badRequest])
  = (EmptyString,
     Some "API returned error: 400 Bad Request (body: bad request)")
  /\ ai.calls
       (snd (Fixtures.run
               [Fixtures.tooMany "slow down"; Fixtures.badRequest]))
     = 2%nat.
Proof.
  destruct (C3_remote_error
              (Fixtures.scripted
                 [Fixtures.tooMany "slow down"; Fixtures.badRequest])
              Fixtures.client "diff" EmptyString None
              _ 1%nat Fixtures.badRequest eq_refl ltac:(lia))
    as [E L].
  - intros j Hj. destruct j as [|j]; [reflexivity | lia].
  - reflexivity.
  - discriminate.
  - simpl. lia.
  - unfold Fixtures.run. rewrite E. split; [reflexivity | exact L].
Defined.

(** * Further properties of the code *)

(** ** The substring test of the state tests *)

Lemma substring_app_exact (pre s post : string) :
  substring (String.length pre) (String.length s) (pre ++ s ++ post) = s.
Proof.
  induction pre as [|c pre IH]; simpl.
  - induction s as [|c s IH]; simpl.
    + now destruct post.
    + now rewrite IH.
  - exact IH.
Qed.

Lemma substring_split (i n : nat) (str : string) :
  (i + n <= String.length str)%nat ->
  exists pre post,
    str = pre ++ substring i n str ++ post /\ String.length pre = i.
Proof.
  revert str. induction i as [|i IH]; intros str Hlen.
  - destruct (substring_prefix n str Hlen) as [rest [E _]].
    exists EmptyString, rest. split; [exact E | reflexivity].
  - destruct str as [|c str]; simpl in Hlen; [lia|].
    destruct (IH str ltac:(lia)) as [pre [post [E L]]].
    exists (String c pre), post. simpl. split; [now rewrite <- E | now rewrite L].
Qed.

(** [findSubstring] finds exactly the occurrences of [substr]. *)
Lemma findSubstring_spec (str substr : string) :
  gittest.findSubstring str substr = true
  <-> exists pre post, str = pre ++ substr ++ post.
Proof.
  unfold gittest.findSubstring, gittest.slice, len. cbv zeta.
  rewrite existsb_exists. split.
  - intros [i [Hin Heq]]. apply in_seq in Hin.
    apply String.eqb_eq in Heq.
    destruct (substring_split i (String.length substr) str ltac:(lia))
      as [pre [post [E _]]].
    exists pre, post. now rewrite Heq in E.
  - intros [pre [post ->]].
    exists (String.length pre). split.
    + apply in_seq. rewrite !append_length. lia.
    + apply String.eqb_eq. apply substring_app_exact.
Qed.

(** X1.  [containsSubstring str substr] holds exactly when [substr]
    occurs in [str]: some text before it and some text after it make up
    [str].  The empty string occurs in every string. *)
Theorem containsSubstring_spec (str substr : string) :
  (gittest.containsSubstring str substr = true
   <-> exists pre post, str = pre ++ substr ++ post)
  /\ gittest.containsSubstring str EmptyString = true.
Proof.
  assert (gittest.containsSubstring str substr = true
          <-> exists pre post, str = pre ++ substr ++ post) as Hspec.
  { unfold gittest.containsSubstring. split.
    - intros H. apply andb_prop in H. destruct H as [_ H].
      apply orb_prop in H. destruct H as [H|H].
      + apply String.eqb_eq in H. subst str.
        exists EmptyString, EmptyString. simpl. now rewrite append_nil_r.
      + apply andb_prop in H. destruct H as [_ H].
        now apply findSubstring_spec.
    - intros [pre [post E]].
      assert (gittest.findSubstring str substr = true) as Hfind
          by (apply findSubstring_spec; now exists pre, post).
      assert (len substr <= len str)%Z as Hle.
      { unfold len. rewrite E, !append_length. lia. }
      apply andb_true_intro. split; [now apply Z.leb_le|].
      destruct (String.eqb str substr) eqn:Heq; [reflexivity|].
      simpl. rewrite Hfind, andb_true_r. apply Z.ltb_lt.
      apply String.eqb_neq in Heq.
      assert (len substr <> len str) as Hne; [|lia].
      intros Hlen. apply Heq. unfold len in Hlen. rewrite E in Hlen |- *.
      rewrite !append_length in Hlen.
      destruct pre; [|simpl in Hlen; lia].
      destruct post; [|simpl in Hlen; lia].
      simpl. apply append_nil_r. }
  split; [exact Hspec|].
  clear Hspec.
  unfold gittest.containsSubstring, gittest.findSubstring, gittest.slice, len.
  destruct str as [|c str]; [reflexivity|].
  cbv zeta. change (String.length EmptyString) with 0%nat.
  replace (Z.to_nat (Z.of_nat (String.length (String c str)) - Z.of_nat 0 + 1))
    with (S (S (String.length str))) by (simpl String.length; lia).
  reflexivity.
Qed.

(** ** Lines, and the stripping of comment lines *)

(** Joining the pieces of a split gives the text back. *)
Lemma Join_Split (s : string) :
  strings.Join (strings.Split s LF) nl = s.
Proof.
  induction s as [|c s IH]; [reflexivity|].
  simpl strings.Split. destruct (Ascii.eqb c LF) eqn:Ec.
  - apply Ascii.eqb_eq in Ec. subst c.
    destruct (strings.Split s LF) as [|h t] eqn:Es.
    + now apply Split_nonempty in Es.
    + change (strings.Join (EmptyString :: h :: t) nl)
        with (EmptyString ++ nl ++ strings.Join (h :: t) nl).
      now rewrite IH.
  - destruct (strings.Split s LF) as [|h t] eqn:Es.
    + now apply Split_nonempty in Es.
    + rewrite <- IH. destruct t; reflexivity.
Qed.

Lemma Split_line (a b : string) :
  noLF a = true ->
  strings.Split (a ++ nl ++ b) LF = a :: strings.Split b LF.
Proof.
  induction a as [|c a IH]; intros Ha; simpl.
  - reflexivity.
  - simpl in Ha. apply andb_prop in Ha. destruct Ha as [Hc Ha].
    apply negb_true_iff in Hc. rewrite Hc.
    simpl in IH. now rewrite (IH Ha).
Qed.

Lemma Split_single (a : string) :
  noLF a = true -> strings.Split a LF = [a].
Proof.
  induction a as [|c a IH]; intros Ha; simpl; [reflexivity|].
  simpl in Ha. apply andb_prop in Ha. destruct Ha as [Hc Ha].
  apply negb_true_iff in Hc. rewrite Hc. now rewrite (IH Ha).
Qed.

(** Splitting a join of line-feed-free pieces gives the pieces back. *)
Lemma Split_Join (lines : list string) :
  lines <> [] ->
  Forall (fun l => noLF l = true) lines ->
  strings.Split (strings.Join lines nl) LF = lines.
Proof.
  induction lines as [|a lines IH]; intros Hne Hall; [contradiction|].
  inversion Hall as [|? ? Ha Hrest]; subst.
  destruct lines as [|b lines].
  - simpl. now apply Split_single.
  - change (strings.Join (a :: b :: lines) nl)
      with (a ++ nl ++ strings.Join (b :: lines) nl).
    rewrite (Split_line _ _ Ha). f_equal.
    apply IH; [discriminate | exact Hrest].
Qed.

Lemma Split_noLF (s : string) :
  Forall (fun l => noLF l = true) (strings.Split s LF).
Proof.
  induction s as [|c s IH]; simpl.
  - repeat constructor.
  - destruct (Ascii.eqb c LF) eqn:Ec.
    + constructor; [reflexivity | exact IH].
    + destruct (strings.Split s LF) as [|h t].
      * constructor; [|constructor]. simpl. now rewrite Ec.
      * inversion IH as [|? ? Hh Ht]; subst.
        constructor; [|exact Ht]. simpl. now rewrite Ec.
Qed.

Lemma Forall_filter {A : Type} (P : A -> Prop) (f : A -> bool) (l : list A) :
  Forall P l -> Forall P (filter f l).
Proof.
  induction 1 as [|x l Hx Hl IH]; simpl; [constructor|].
  destruct (f x); [constructor; assumption | assumption].
Qed.

Lemma filter_idem {A : Type} (f : A -> bool) (l : list A) :
  filter f (filter f l) = filter f l.
Proof.
  induction l as [|x l IH]; simpl; [reflexivity|].
  destruct (f x) eqn:E; simpl; [rewrite E; now f_equal | exact IH].
Qed.

(** The lines of a stripped message are the lines the stripping kept. *)
Lemma filterCommentLines_lines (message : string) :
  let kept :=
    filter (fun line => negb (blankOrComment line))
      (strings.Split message LF) in
  git.filterCommentLines message = strings.Join kept nl
  /\ (kept = [] -> git.filterCommentLines message = EmptyString)
  /\ (kept <> [] -> linesOf (git.filterCommentLines message) = kept).
Proof.
  intros kept. rewrite filterCommentLines_filter. fold kept.
  split; [reflexivity|]. split.
  - now intros ->.
  - intros Hne. apply Split_Join; [exact Hne|].
    apply Forall_filter, Split_noLF.
Qed.

Lemma filterCommentLines_clean (message : string) :
  cleanMessage (git.filterCommentLines message).
Proof.
  pose proof (filterCommentLines_lines message) as H. cbv zeta in H.
  remember (filter (fun line => negb (blankOrComment line))
              (strings.Split message LF)) as kept eqn:Ek.
  destruct H as [_ [Hnil Hcons]].
  destruct kept as [|k kept'].
  - left. now apply Hnil.
  - right. rewrite Hcons by discriminate. rewrite Ek.
    apply Forall_forall. intros line Hin.
    apply filter_In in Hin. destruct Hin as [_ Hin].
    now apply negb_true_iff in Hin.
Qed.

(** X2.  Stripping is idempotent, and a stripped message is empty or all
    of its lines are lines the stripping keeps: none is empty, blank or a
    comment. *)
Theorem filterCommentLines_idempotent (message : string) :
  git.filterCommentLines (git.filterCommentLines message)
  = git.filterCommentLines message
  /\ (git.filterCommentLines message = EmptyString
      \/ Forall (fun line => blankOrComment line = false)
           (linesOf (git.filterCommentLines message))).
Proof.
  pose proof (filterCommentLines_lines message) as H. cbv zeta in H.
  remember (filter (fun line => negb (blankOrComment line))
              (strings.Split message LF)) as kept eqn:Ek.
  destruct H as [E [Hnil Hcons]].
  destruct kept as [|k kept'].
  - rewrite (Hnil eq_refl). split; [reflexivity | now left].
  - assert (linesOf (git.filterCommentLines message) = k :: kept') as Hl
        by (apply Hcons; discriminate).
    split.
    + rewrite (filterCommentLines_filter (git.filterCommentLines message)).
      fold (linesOf (git.filterCommentLines message)). rewrite Hl.
      rewrite Ek, filter_idem, <- Ek. symmetry. exact E.
    + right. rewrite Hl, Ek.
      apply Forall_forall. intros line Hin.
      apply filter_In in Hin. destruct Hin as [_ Hin].
      now apply negb_true_iff in Hin.
Qed.

(** ** More on the detected state *)

(** X3.  The original message of a detected state is clean of comments
    for a merge and a cherry-pick: it is empty or none of its lines is
    empty, blank or a comment.  For a rebase it is empty or begins with
    [Rebase branch: ].  The normal state carries no message. *)
Theorem detected_message_shape (sys : os.System) (repoRoot : string)
  (st : git.GitState) :
  git.DetectGitState sys repoRoot = (Some st, None) ->
  (git.Type_ st = git.StateMerge \/ git.Type_ st = git.StateCherryPick ->
   cleanMessage (git.OriginalMessage st))
  /\ (git.Type_ st = git.StateRebase ->
      git.OriginalMessage st = EmptyString
      \/ strings.HasPrefix (git.OriginalMessage st) "Rebase branch: " = true)
  /\ (git.Type_ st = git.StateNormal ->
      git.OriginalMessage st = EmptyString).
Proof.
  intros H.
  destruct (os.IsNotExist (os.Stat sys (gitDirOf sys repoRoot))) eqn:Hgit.
  - rewrite (detect_absent sys repoRoot Hgit) in H. discriminate.
  - rewrite (detect_cases sys repoRoot Hgit) in H. injection H as <-.
    unfold detected, messageFrom, commitMessage, rebaseMessage. cbv zeta.
    assert (forall content,
               strings.HasPrefix
                 ("Rebase branch: " ++ strings.TrimSpace content)
                 "Rebase branch: " = true) as Hpre.
    { intros content. unfold strings.HasPrefix. simpl.
      now destruct (strings.TrimSpace content). }
    destruct (exists_ sys repoRoot "MERGE_HEAD").
    { destruct (os.ReadFile sys _); simpl;
        (split; [intros _ | split; [discriminate | discriminate]]);
        [apply filterCommentLines_clean | now left]. }
    destruct (exists_ sys repoRoot "CHERRY_PICK_HEAD").
    { destruct (os.ReadFile sys _); simpl;
        (split; [intros _ | split; [discriminate | discriminate]]);
        [apply filterCommentLines_clean | now left]. }
    destruct (existsDir sys repoRoot "rebase-merge").
    { destruct (os.ReadFile sys _); simpl;
        (split; [intros [?|?]; discriminate
                | split; [intros _ | discriminate]]);
        [right; apply Hpre | now left]. }
    destruct (existsDir sys repoRoot "rebase-apply").
    { destruct (os.ReadFile sys _); simpl;
        (split; [intros [?|?]; discriminate
                | split; [intros _ | discriminate]]);
        [right; apply Hpre | now left]. }
    simpl. split; [intros [?|?]; discriminate|].
    split; [discriminate | reflexivity].
Qed.

Lemma detected_message_shape_witness :
  cleanMessage "Merge branch 'feature-x' into main".
Proof.
  exact (proj1
           (detected_message_shape
              (Fixtures.system Fixtures.mergeDuringRebase) "/repo"
              (conflictState git.StateMerge
                 "Merge branch 'feature-x' into main")
              eq_refl)
           (or_introl eq_refl)).
Defined.

(** X4.  [DetectGitState] returns a state or an error, never both and
    never neither; the error is returned exactly when [os.Stat] reports
    that the metadata directory does not exist. *)
Theorem detect_state_xor_error (sys : os.System) (repoRoot : string) :
  ((exists st, git.DetectGitState sys repoRoot = (Some st, None))
   \/ (exists e, git.DetectGitState sys repoRoot = (None, Some e)))
  /\ (snd (git.DetectGitState sys repoRoot) <> None
      <-> os.IsNotExist (os.Stat sys (gitDirOf sys repoRoot)) = true).
Proof.
  destruct (os.IsNotExist (os.Stat sys (gitDirOf sys repoRoot))) eqn:Hgit.
  - rewrite (detect_absent sys repoRoot Hgit). split.
    + right. now eexists.
    + split; [reflexivity | discriminate].
  - rewrite (detect_cases sys repoRoot Hgit). split.
    + left. now eexists.
    + split; [intros H; now contradiction H | discriminate].
Qed.

(** X5.  The [String] method names the four states differently and calls
    every other value [unknown]: two values with the same name that is
    not [unknown] are equal. *)
Theorem GitStateType_String_names (s t : git.GitStateType) :
  (git.GitStateType_String s = "unknown" <-> namedState s = false)
  /\ (git.GitStateType_String s = git.GitStateType_String t ->
      namedState s = true -> s = t).
Proof.
  unfold git.GitStateType_String, namedState.
  unfold git.StateNormal, git.StateMerge, git.StateRebase,
    git.StateCherryPick.
  split.
  - destruct (Z.eqb_spec s 0); [split; discriminate|].
    destruct (Z.eqb_spec s 1); [split; discriminate|].
    destruct (Z.eqb_spec s 2); [split; discriminate|].
    destruct (Z.eqb_spec s 3); [split; discriminate|].
    split; reflexivity.
  - destruct (Z.eqb_spec s 0), (Z.eqb_spec s 1), (Z.eqb_spec s 2),
      (Z.eqb_spec s 3), (Z.eqb_spec t 0), (Z.eqb_spec t 1),
      (Z.eqb_spec t 2), (Z.eqb_spec t 3);
      simpl; intros Hs Hn; try discriminate; congruence.
Qed.

Lemma GitStateType_String_names_witness :
  git.StateMerge = 1%Z.
Proof.
  exact (proj2 (GitStateType_String_names git.StateMerge 1%Z)
           eq_refl eq_refl).
Defined.

(** ** More on the staged diff *)

Section DiffBlocks.

Variable sys : os.System.
Variable repo : gogit.Repository.
Variable headTree : option gogit.Tree.

(** The block of each kind of entry. *)
Lemma writeFileDiff_cases (sb filePath : string)
  (fileStatus : gogit.FileStatus) :
  git.writeFileDiff sys repo headTree sb (filePath, fileStatus)
  = sb ++
    match gogit.Staging fileStatus with
    | gogit.Added =>
        addedHeader filePath (gogit.Extra fileStatus)
        ++ match workContent sys filePath with
           | Some content => concatLines (bodyLines "+" content)
           | None => EmptyString
           end
    | gogit.Deleted =>
        deletedHeader filePath (gogit.Extra fileStatus)
        ++ match git.headContent repo headTree filePath with
           | Some content => concatLines (bodyLines "-" content)
           | None => EmptyString
           end
    | gogit.Modified =>
        modifiedHeader filePath (gogit.Extra fileStatus)
        ++ concatLines
             (bodyLines "-"
                (orEmpty (git.headContent repo headTree filePath)))
        ++ concatLines (bodyLines "+" (orEmpty (workContent sys filePath)))
    | gogit.Renamed => renamedHeader filePath (gogit.Extra fileStatus)
    | _ => EmptyString
    end.
Proof.
  unfold git.writeFileDiff, workContent, orEmpty.
  destruct (gogit.Staging fileStatus); cbv beta iota zeta; simpl orb;
    cbv iota; try (now rewrite append_nil_r).
  - (* Modified *)
    destruct (os.Getwd sys) as [wd err]. simpl fst.
    unfold modifiedHeader, bodyLines, WriteString.
    rewrite !writeLines_concat.
    destruct (git.headContent repo headTree filePath);
      destruct (os.ReadFile sys (os.Join sys wd filePath));
      now rewrite !append_assoc.
  - (* Added *)
    destruct (os.Getwd sys) as [wd err]. simpl fst.
    unfold addedHeader, bodyLines, WriteString.
    destruct (os.ReadFile sys (os.Join sys wd filePath)).
    + rewrite writeLines_concat. now rewrite !append_assoc.
    + now rewrite !append_assoc, append_nil_r.
  - (* Deleted *)
    unfold deletedHeader, bodyLines, WriteString.
    destruct (git.headContent repo headTree filePath).
    + rewrite writeLines_concat. now rewrite !append_assoc.
    + now rewrite !append_assoc, append_nil_r.
  - (* Renamed *)
    unfold renamedHeader, WriteString. now rewrite !append_assoc.
Qed.

Lemma writeFileDiff_block (sb : string) (entry : string * gogit.FileStatus) :
  git.writeFileDiff sys repo headTree sb entry
  = sb ++ block sys repo headTree entry.
Proof.
  destruct entry as [filePath fileStatus]. unfold block.
  rewrite (writeFileDiff_cases EmptyString).
  now rewrite writeFileDiff_cases.
Qed.

Lemma synthesized_blocks (status : gogit.Status) (sb : string) :
  fold_left (git.writeFileDiff sys repo headTree) status sb
  = sb ++ concatLines (map (block sys repo headTree) status).
Proof.
  revert sb. induction status as [|entry status IH]; intros sb; simpl.
  - now rewrite append_nil_r.
  - rewrite IH, writeFileDiff_block. apply append_assoc.
Qed.

End DiffBlocks.

Lemma truncateDiff_bound (diff : string) :
  (len (fst (git.truncateDiff diff)) <= 10015)%Z
  /\ snd (git.truncateDiff diff) = None.
Proof.
  unfold git.truncateDiff.
  destruct (10000 <? len diff)%Z eqn:Hlen; cbn [fst snd];
    [|split; [|reflexivity]].
  - split; [|reflexivity]. apply Z.ltb_lt in Hlen.
    destruct (substring_prefix (Z.to_nat 10000) diff) as [rest [_ L]].
    { unfold len in Hlen. lia. }
    unfold len in *. rewrite append_length, L.
    change (String.length (lit "\n...[TRUNCATED]")) with 15%nat. lia.
  - apply Z.ltb_ge in Hlen. lia.
Qed.

(** X6.  Whatever the repository, [GetStagedDiff] returns at most 10,015
    bytes, and returns the empty string whenever it returns an error. *)
Theorem GetStagedDiff_bounded (sys : os.System)
  (PlainOpenWithOptions : string -> gogit.Repository + string) :
  (len (fst (git.GetStagedDiff sys PlainOpenWithOptions)) <= 10015)%Z
  /\ (snd (git.GetStagedDiff sys PlainOpenWithOptions) <> None ->
      fst (git.GetStagedDiff sys PlainOpenWithOptions) = EmptyString).
Proof.
  unfold git.GetStagedDiff.
  destruct (git.openRepo sys PlainOpenWithOptions) as [repo|e];
    [|split; [unfold len; simpl; lia | reflexivity]].
  destruct (gogit.GetWorktree repo) as [worktree|e];
    [|split; [unfold len; simpl; lia | reflexivity]].
  destruct (gogit.GetStatus worktree) as [status|e];
    [|split; [unfold len; simpl; lia | reflexivity]].
  destruct (git.headTreeOf repo) as [headTree|e];
    [|split; [unfold len; simpl; lia | reflexivity]].
  cbv zeta.
  destruct (truncateDiff_bound
              (fold_left (git.writeFileDiff sys repo headTree) status
                 EmptyString)) as [Hb Hn].
  split; [exact Hb|]. intros H. now contradiction H.
Qed.

Lemma GetStagedDiff_bounded_witness :
  fst (git.GetStagedDiff (Fixtures.system [])
         (fun _ => inr "repository does not exist"))
  = EmptyString.
Proof.
  apply (proj2 (GetStagedDiff_bounded (Fixtures.system [])
                  (fun _ => inr "repository does not exist"))).
  discriminate.
Defined.

(** X7.  The diff is made of one block per status entry, in the order of
    the scan, and then cut: entries are independent of each other, the
    blocks of two scans in a row are the blocks of the first followed by
    those of the second, and an entry has an empty block exactly when its
    staging code is none of added, deleted, modified and renamed. *)
Theorem GetStagedDiff_blocks (sys : os.System)
  (PlainOpenWithOptions : string -> gogit.Repository + string)
  (repo : gogit.Repository) (worktree : gogit.WorktreeHandle)
  (status : gogit.Status) (headTree : option gogit.Tree) :
  git.openRepo sys PlainOpenWithOptions = inl repo ->
  gogit.GetWorktree repo = inl worktree ->
  gogit.GetStatus worktree = inl status ->
  git.headTreeOf repo = inl headTree ->
  git.GetStagedDiff sys PlainOpenWithOptions
  = git.truncateDiff (concatLines (map (block sys repo headTree) status))
  /\ (forall first second,
        concatLines (map (block sys repo headTree) (first ++ second))
        = concatLines (map (block sys repo headTree) first)
          ++ concatLines (map (block sys repo headTree) second))
  /\ (forall filePath fileStatus,
        block sys repo headTree (filePath, fileStatus) = EmptyString
        <-> writesBlock (gogit.Staging fileStatus) = false).
Proof.
  intros Hrepo Hwt Hst Hhead. split; [|split].
  - unfold git.GetStagedDiff. rewrite Hrepo, Hwt, Hst, Hhead. cbv zeta.
    now rewrite synthesized_blocks.
  - intros first second. rewrite map_app. unfold concatLines.
    induction (map (block sys repo headTree) first) as [|b bs IH]; simpl.
    + reflexivity.
    + now rewrite IH, append_assoc.
  - intros filePath fileStatus. unfold block.
    rewrite writeFileDiff_cases.
    change (EmptyString ++ ?x) with x.
    destruct (gogit.Staging fileStatus); simpl writesBlock;
      try (split; [discriminate | reflexivity]);
      try (split; [intros _; reflexivity | intros _; reflexivity]);
      (split; [|discriminate]); intros H;
      unfold addedHeader, deletedHeader, modifiedHeader, renamedHeader in H;
      rewrite !append_assoc in H; simpl in H; discriminate.
Qed.

Lemma GetStagedDiff_blocks_witness :
  git.GetStagedDiff (Fixtures.system Fixtures.workTree)
    (Fixtures.plainOpen
       [("kept.txt", Fixtures.withStaging gogit.Untracked);
        ("one.txt", Fixtures.added "7898192")])
  = (addedHeader "one.txt" "7898192" ++ lit "+a\n+\n", None).
Proof.
  rewrite (proj1
             (GetStagedDiff_blocks (Fixtures.system Fixtures.workTree)
                (Fixtures.plainOpen
                   [("kept.txt", Fixtures.withStaging gogit.Untracked);
                    ("one.txt", Fixtures.added "7898192")])
                _ _ _ None eq_refl eq_refl eq_refl eq_refl)).
  vm_compute. reflexivity.
Defined.

(** X8.  The block of a deleted file is its header followed by one [-]
    line per piece of the content recorded in the HEAD tree.  It does not
    depend on the working directory, and it is the header alone when
    there is no HEAD tree or the content cannot be obtained from it. *)
Theorem deleted_block_from_head (sys sys' : os.System)
  (repo : gogit.Repository) (headTree : option gogit.Tree)
  (filePath : string) (fileStatus : gogit.FileStatus) :
  gogit.Staging fileStatus = gogit.Deleted ->
  block sys repo headTree (filePath, fileStatus)
  = deletedHeader filePath (gogit.Extra fileStatus)
    ++ match git.headContent repo headTree filePath with
       | Some content => concatLines (bodyLines "-" content)
       | None => EmptyString
       end
  /\ block sys repo headTree (filePath, fileStatus)
     = block sys' repo headTree (filePath, fileStatus)
  /\ block sys repo None (filePath, fileStatus)
     = deletedHeader filePath (gogit.Extra fileStatus).
Proof.
  intros Hdel. unfold block. rewrite !writeFileDiff_cases, Hdel.
  change (EmptyString ++ ?x) with x.
  split; [reflexivity|]. split; [reflexivity|].
  change (git.headContent repo None filePath) with (@None string).
  apply append_nil_r.
Qed.

Lemma deleted_block_from_head_witness :
  block (Fixtures.system Fixtures.workTree)
    (Fixtures.committed [("one.txt", "old")] [])
    (Fixtures.committedTree [("one.txt", "old")])
    ("one.txt", Fixtures.withStaging gogit.Deleted)
  = deletedHeader "one.txt" EmptyString ++ lit "-old\n".
Proof.
  rewrite (proj1
             (deleted_block_from_head (Fixtures.system Fixtures.workTree)
                (Fixtures.system [])
                (Fixtures.committed [("one.txt", "old")] [])
                (Fixtures.committedTree [("one.txt", "old")])
                "one.txt" (Fixtures.withStaging gogit.Deleted) eq_refl)).
  reflexivity.
Defined.

(** X9.  The block of a modified file is its header, one [-] line per
    piece of the HEAD content and then one [+] line per piece of the
    working-directory content, whether or not the two contents share
    lines.  A content that cannot be obtained counts as empty, so there
    is always at least one [-] line and one [+] line. *)
Theorem modified_block_naive (sys : os.System) (repo : gogit.Repository)
  (headTree : option gogit.Tree) (filePath : string)
  (fileStatus : gogit.FileStatus) :
  gogit.Staging fileStatus = gogit.Modified ->
  let old := orEmpty (git.headContent repo headTree filePath) in
  let new := orEmpty (workContent sys filePath) in
  block sys repo headTree (filePath, fileStatus)
  = modifiedHeader filePath (gogit.Extra fileStatus)
    ++ concatLines (bodyLines "-" old) ++ concatLines (bodyLines "+" new)
  /\ (1 <= length (bodyLines "-" old))%nat
  /\ (1 <= length (bodyLines "+" new))%nat
  /\ bodyLines "-" EmptyString = [lit "-\n"]
  /\ bodyLines "+" EmptyString = [lit "+\n"].
Proof.
  intros Hmod old new. unfold block. rewrite writeFileDiff_cases, Hmod.
  change (EmptyString ++ ?x) with x.
  split; [reflexivity|].
  assert (forall prefix content,
             (1 <= length (bodyLines prefix content))%nat) as Hone.
  { intros prefix content. unfold bodyLines. rewrite length_map.
    pose proof (Split_nonempty content LF) as Hne.
    destruct (strings.Split content LF); [contradiction | simpl; lia]. }
  split; [apply Hone|]. split; [apply Hone|].
  split; reflexivity.
Qed.

Lemma modified_block_naive_witness :
  block (Fixtures.system Fixtures.workTree)
    (Fixtures.committed [("one.txt", lit "a\n")] [])
    (Fixtures.committedTree [("one.txt", lit "a\n")])
    ("one.txt", Fixtures.withStaging gogit.Modified)
  = modifiedHeader "one.txt" EmptyString ++ lit "-a\n-\n+a\n+\n".
Proof.
  rewrite (proj1
             (modified_block_naive (Fixtures.system Fixtures.workTree)
                (Fixtures.committed [("one.txt", lit "a\n")] [])
                (Fixtures.committedTree [("one.txt", lit "a\n")])
                "one.txt" (Fixtures.withStaging gogit.Modified) eq_refl)).
  reflexivity.
Defined.

Lemma unstaged_blocks_empty (sys : os.System) (repo : gogit.Repository)
  (headTree : option gogit.Tree) (status : gogit.Status) :
  existsb (fun e : string * gogit.FileStatus => git.staged (snd e)) status
  = false ->
  concatLines (map (block sys repo headTree) status) = EmptyString.
Proof.
  induction status as [|[filePath fileStatus] status IH]; intros Hnone;
    [reflexivity|].
  cbn [existsb snd] in Hnone. apply orb_false_elim in Hnone.
  destruct Hnone as [Hentry Hrest].
  change (concatLines
            (map (block sys repo headTree) ((filePath, fileStatus) :: status)))
    with (block sys repo headTree (filePath, fileStatus)
          ++ concatLines (map (block sys repo headTree) status)).
  rewrite (IH Hrest), append_nil_r.
  unfold block. rewrite writeFileDiff_cases.
  unfold git.staged in Hentry.
  destruct (gogit.Staging fileStatus); simpl in Hentry;
    try discriminate; reflexivity.
Qed.

(** X10.  [HasStagedChanges] and [GetStagedDiff] agree on failures of the
    scan and on its emptiness: an error of the first is the error of the
    second, and when the first reports no staged change the second
    returns the empty diff.  The converse fails: a scan with only a
    copied entry has staged changes and an empty diff. *)
Theorem staged_changes_and_diff (sys : os.System)
  (PlainOpenWithOptions : string -> gogit.Repository + string) :
  (forall e,
     snd (git.HasStagedChanges sys PlainOpenWithOptions) = Some e ->
     git.GetStagedDiff sys PlainOpenWithOptions = (EmptyString, Some e))
  /\ (git.HasStagedChanges sys PlainOpenWithOptions = (false, None) ->
      fst (git.GetStagedDiff sys PlainOpenWithOptions) = EmptyString)
  /\ (let copied :=
        Fixtures.plainOpen [("b.txt", Fixtures.withStaging gogit.Copied)] in
      git.HasStagedChanges (Fixtures.system []) copied = (true, None)
      /\ git.GetStagedDiff (Fixtures.system []) copied
         = (EmptyString, None)).
Proof.
  unfold git.HasStagedChanges, git.GetStagedDiff.
  split; [|split].
  - intros e.
    destruct (git.openRepo sys PlainOpenWithOptions) as [repo|e1];
      [|now intros [= <-]].
    destruct (gogit.GetWorktree repo) as [worktree|e1];
      [|now intros [= <-]].
    destruct (gogit.GetStatus worktree) as [status|e1];
      [|now intros [= <-]].
    discriminate.
  - destruct (git.openRepo sys PlainOpenWithOptions) as [repo|e1];
      [|reflexivity].
    destruct (gogit.GetWorktree repo) as [worktree|e1]; [|reflexivity].
    destruct (gogit.GetStatus worktree) as [status|e1]; [|reflexivity].
    intros [= Hnone].
    destruct (git.headTreeOf repo) as [headTree|e1]; [|reflexivity].
    cbv zeta. rewrite synthesized_blocks.
    change (EmptyString ++ ?x) with x.
    now rewrite (unstaged_blocks_empty sys repo headTree status Hnone).
  - split; reflexivity.
Qed.

Lemma staged_changes_and_diff_witness :
  git.GetStagedDiff (Fixtures.system [])
    (fun _ => inr "repository does not exist")
  = (EmptyString,
     Some "failed to open repository: repository does not exist").
Proof.
  exact (proj1
           (staged_changes_and_diff (Fixtures.system [])
              (fun _ => inr "repository does not exist"))
           _ eq_refl).
Defined.

(** ** The client built on [os/exec] *)

(** X11.  The exec-based [HasStagedChanges] reports staged changes
    exactly when [git diff --staged --quiet] ends with exit status 1; it
    reports none, without error, exactly when the command succeeds; any
    other failure is returned as the error, with [false].
    [IsInsideRepo] never returns an error, whatever the command does. *)
Theorem exec_HasStagedChanges_exit_status (sh : gitexec.Shell) :
  let outcome :=
    gitexec.Run sh ["git"; "diff"; "--staged"; "--quiet"] in
  (gitexec.HasStagedChanges sh = (true, None)
   <-> exists text, outcome = Some (gitexec.ExitError 1 text))
  /\ (gitexec.HasStagedChanges sh = (false, None) <-> outcome = None)
  /\ (forall err,
        outcome = Some err ->
        (forall text, err <> gitexec.ExitError 1 text) ->
        gitexec.HasStagedChanges sh = (false, Some (gitexec.Error_ err)))
  /\ snd (gitexec.IsInsideRepo sh) = None.
Proof.
  unfold gitexec.HasStagedChanges, gitexec.IsInsideRepo. cbv zeta.
  destruct (gitexec.Run sh ["git"; "diff"; "--staged"; "--quiet"])
    as [[code text|text]|].
  - destruct (Z.eqb_spec code 1) as [->|Hne].
    + split; [split; [intros _; now exists text | reflexivity]|].
      split; [split; discriminate|].
      split; [intros err [= <-] H; now contradiction (H text)|].
      now destruct (gitexec.Run sh _).
    + split; [split; [discriminate | intros [t [= E _]]; contradiction]|].
      split; [split; discriminate|].
      split; [now intros err [= <-] _|].
      now destruct (gitexec.Run sh _).
  - split; [split; [discriminate | intros [t H]; discriminate]|].
    split; [split; discriminate|].
    split; [now intros err [= <-] _|].
    now destruct (gitexec.Run sh _).
  - split; [split; [discriminate | intros [t H]; discriminate]|].
    split; [split; reflexivity|].
    split; [discriminate|].
    now destruct (gitexec.Run sh _).
Qed.

Lemma exec_HasStagedChanges_exit_status_witness :
  gitexec.HasStagedChanges
    (Fixtures.shell EmptyString
       (Some (gitexec.ExitError 128 "exit status 128")))
  = (false, Some "exit status 128").
Proof.
  refine (proj1
            (proj2
               (proj2
                  (exec_HasStagedChanges_exit_status
                     (Fixtures.shell EmptyString
                        (Some (gitexec.ExitError 128 "exit status 128"))))))
            _ eq_refl _).
  intros text. discriminate.
Defined.

(** X12.  The exec-based [GetStagedDiff] cuts the output of
    [git diff --staged] as the go-git client cuts its synthesized text:
    on success it returns the output itself when it has at most 10,000
    bytes and is never longer than 10,015 bytes; on failure it returns
    the empty string and the wrapped error. *)
Theorem exec_GetStagedDiff_cut (sh : gitexec.Shell) :
  let result := gitexec.Output sh ["git"; "diff"; "--staged"] in
  (snd result = None ->
   gitexec.GetStagedDiff sh = git.truncateDiff (fst result)
   /\ ((len (fst result) <= 10000)%Z ->
       gitexec.GetStagedDiff sh = (fst result, None)))
  /\ (forall err,
        snd result = Some err ->
        gitexec.GetStagedDiff sh
        = (EmptyString,
           Some ("failed to get diff: " ++ gitexec.Error_ err)))
  /\ (len (fst (gitexec.GetStagedDiff sh)) <= 10015)%Z.
Proof.
  unfold gitexec.GetStagedDiff. cbv zeta.
  destruct (gitexec.Output sh ["git"; "diff"; "--staged"])
    as [out [err|]]; cbn [fst snd].
  - split; [discriminate|].
    split; [now intros e [= <-]|]. unfold len. simpl. lia.
  - split.
    + intros _. split; [reflexivity|]. intros Hlen.
      now apply Z.ltb_ge in Hlen as ->.
    + split; [discriminate|].
      exact (proj1 (truncateDiff_bound out)).
Qed.

Lemma exec_GetStagedDiff_cut_witness :
  gitexec.GetStagedDiff (Fixtures.shell "diff --git a/x b/x" None)
  = ("diff --git a/x b/x", None).
Proof.
  refine (proj2
            (proj1
               (exec_GetStagedDiff_cut
                  (Fixtures.shell "diff --git a/x b/x" None))
               eq_refl)
            _).
  vm_compute. discriminate.
Defined.

(** ** Trimming *)

Lemma stripToken_app (t l r : list ascii) :
  strings.stripToken t l = Some r -> l = (t ++ r)%list.
Proof.
  revert l. induction t as [|a t IH]; intros l H; simpl in H.
  - now injection H as ->.
  - destruct l as [|b l]; [discriminate|].
    destruct (Ascii.eqb_spec a b) as [->|]; [|discriminate].
    simpl. f_equal. now apply IH.
Qed.

Lemma stripToken_extend (t x r q : list ascii) :
  strings.stripToken t x = Some r ->
  strings.stripToken t (x ++ q)%list = Some (r ++ q)%list.
Proof.
  revert x. induction t as [|a t IH]; intros x H; simpl in H.
  - now injection H as ->.
  - destruct x as [|b x]; [discriminate|]. simpl.
    destruct (Ascii.eqb a b); [now apply IH | discriminate].
Qed.

Lemma leadingSpace_extend (tokens : list (list ascii)) (x q : list ascii) :
  strings.leadingSpace tokens (x ++ q)%list = None ->
  strings.leadingSpace tokens x = None.
Proof.
  induction tokens as [|t ts IH]; intros H; simpl in *; [reflexivity|].
  destruct (strings.stripToken t x) as [r|] eqn:E.
  - now rewrite (stripToken_extend t x r q E) in H.
  - destruct (strings.stripToken t (x ++ q)%list); [discriminate|].
    now apply IH.
Qed.

Lemma leadingSpace_shrinks (tokens : list (list ascii)) (l r : list ascii) :
  Forall (fun t => t <> []) tokens ->
  strings.leadingSpace tokens l = Some r ->
  (length r < length l)%nat.
Proof.
  induction 1 as [|t ts Ht Hts IH]; intros H; simpl in H; [discriminate|].
  destruct (strings.stripToken t l) as [r'|] eqn:E.
  - injection H as <-. apply stripToken_app in E. subst l.
    rewrite length_app. destruct t; [contradiction | simpl; lia].
  - now apply IH.
Qed.

Lemma leadingSpace_suffix (tokens : list (list ascii)) (l r : list ascii) :
  strings.leadingSpace tokens l = Some r -> exists p, l = (p ++ r)%list.
Proof.
  induction tokens as [|t ts IH]; intros H; simpl in H; [discriminate|].
  destruct (strings.stripToken t l) as [r'|] eqn:E.
  - injection H as <-. exists t. now apply stripToken_app.
  - now apply IH.
Qed.

Lemma leadingSpace_nil (tokens : list (list ascii)) :
  Forall (fun t => t <> []) tokens ->
  strings.leadingSpace tokens [] = None.
Proof.
  induction 1 as [|t ts Ht Hts IH]; simpl; [reflexivity|].
  destruct t; [contradiction | exact IH].
Qed.

Lemma dropSpaces_done (tokens : list (list ascii)) (fuel : nat)
  (l : list ascii) :
  Forall (fun t => t <> []) tokens ->
  (length l <= fuel)%nat ->
  strings.leadingSpace tokens (strings.dropSpaces tokens fuel l) = None.
Proof.
  intros Hne. revert l.
  induction fuel as [|fuel IH]; intros l Hlen; simpl.
  - destruct l; [now apply leadingSpace_nil | simpl in Hlen; lia].
  - destruct (strings.leadingSpace tokens l) as [r|] eqn:E; [|exact E].
    apply IH. pose proof (leadingSpace_shrinks tokens l r Hne E). lia.
Qed.

Lemma dropSpaces_suffix (tokens : list (list ascii)) (fuel : nat)
  (l : list ascii) :
  exists p, l = (p ++ strings.dropSpaces tokens fuel l)%list.
Proof.
  revert l. induction fuel as [|fuel IH]; intros l; simpl.
  - now exists [].
  - destruct (strings.leadingSpace tokens l) as [r|] eqn:E;
      [|now exists []].
    destruct (leadingSpace_suffix tokens l r E) as [p ->].
    destruct (IH r) as [p' Hp'].
    exists (p ++ p')%list. rewrite <- app_assoc. now rewrite <- Hp'.
Qed.

Lemma dropSpaces_fixed (tokens : list (list ascii)) (fuel : nat)
  (l : list ascii) :
  strings.leadingSpace tokens l = None ->
  strings.dropSpaces tokens fuel l = l.
Proof.
  intros H. destruct fuel; simpl; [reflexivity | now rewrite H].
Qed.

Lemma tokens_nonempty (tokens : list (list ascii)) :
  forallb (fun t => negb (Nat.eqb (length t) 0)) tokens = true ->
  Forall (fun t => t <> []) tokens.
Proof.
  intros H. apply Forall_forall. intros t Hin ->.
  rewrite forallb_forall in H. now specialize (H [] Hin).
Qed.

(** The result of [TrimSpace] is a slice of its argument that neither
    begins nor ends with a white space rune, and trimming it again
    changes nothing. *)
Lemma TrimSpace_trimmed (s : string) :
  startsWithSpace (strings.TrimSpace s) = false
  /\ endsWithSpace (strings.TrimSpace s) = false
  /\ strings.TrimSpace (strings.TrimSpace s) = strings.TrimSpace s
  /\ exists before behind, s = before ++ strings.TrimSpace s ++ behind.
Proof.
  assert (Forall (fun t => t <> []) strings.spaceTokens) as Hne
      by (apply tokens_nonempty; reflexivity).
  assert (Forall (fun t => t <> []) (map (@rev ascii) strings.spaceTokens))
    as Hne' by (apply tokens_nonempty; reflexivity).
  assert (forall x, list_ascii_of_string (string_of_list_ascii x) = x)
    as Hlist by apply list_ascii_of_string_of_list_ascii.
  unfold startsWithSpace, endsWithSpace, strings.TrimSpace. cbv zeta.
  set (l := list_ascii_of_string s).
  set (l1 := strings.dropSpaces strings.spaceTokens (length l) l).
  set (r1 := strings.dropSpaces (map (@rev ascii) strings.spaceTokens)
               (length l1) (rev l1)).
  assert (strings.leadingSpace strings.spaceTokens l1 = None) as Hl1
      by (apply dropSpaces_done; [exact Hne | lia]).
  assert (strings.leadingSpace (map (@rev ascii) strings.spaceTokens) r1
          = None) as Hr1
      by (apply dropSpaces_done; [exact Hne' | rewrite length_rev; lia]).
  destruct (dropSpaces_suffix (map (@rev ascii) strings.spaceTokens)
              (length l1) (rev l1)) as [p Hp].
  fold r1 in Hp.
  assert (l1 = (rev r1 ++ rev p)%list) as El1.
  { rewrite <- rev_app_distr, <- Hp. now rewrite rev_involutive. }
  assert (strings.leadingSpace strings.spaceTokens (rev r1) = None) as Hhead.
  { apply (leadingSpace_extend _ _ (rev p)). now rewrite <- El1. }
  rewrite !Hlist, rev_involutive, Hhead, Hr1.
  split; [reflexivity|]. split; [reflexivity|]. split.
  - rewrite (dropSpaces_fixed _ _ _ Hhead), rev_involutive.
    now rewrite (dropSpaces_fixed _ _ _ Hr1).
  - destruct (dropSpaces_suffix strings.spaceTokens (length l) l)
      as [q Hq].
    fold l1 in Hq.
    exists (string_of_list_ascii q), (string_of_list_ascii (rev p)).
    rewrite <- (string_of_list_ascii_of_string s). fold l.
    rewrite Hq, El1.
    clear. generalize (rev r1) (rev p). intros a b.
    induction q as [|c q IH]; simpl.
    + induction a as [|c a IH]; simpl; [reflexivity | now rewrite IH].
    + now rewrite IH.
Qed.

(** X13.  The exec-based [GetRepoRoot] returns the output of
    [git rev-parse --show-toplevel] without the white space around it
    (the line feed git prints after the path): the path neither begins
    nor ends with a white space rune.  When the command fails it returns
    the empty string and the wrapped error. *)
Theorem exec_GetRepoRoot_trimmed (sh : gitexec.Shell) :
  let result := gitexec.Output sh ["git"; "rev-parse"; "--show-toplevel"] in
  (snd result = None ->
   gitexec.GetRepoRoot sh = (strings.TrimSpace (fst result), None)
   /\ startsWithSpace (fst (gitexec.GetRepoRoot sh)) = false
   /\ endsWithSpace (fst (gitexec.GetRepoRoot sh)) = false)
  /\ (forall err,
        snd result = Some err ->
        gitexec.GetRepoRoot sh
        = (EmptyString,
           Some ("failed to get repo root: " ++ gitexec.Error_ err))).
Proof.
  unfold gitexec.GetRepoRoot. cbv zeta.
  destruct (gitexec.Output sh ["git"; "rev-parse"; "--show-toplevel"])
    as [out [err|]]; cbn [fst snd].
  - split; [discriminate | now intros e [= <-]].
  - split; [|discriminate]. intros _.
    destruct (TrimSpace_trimmed out) as [Hs [He _]]. now repeat split.
Qed.

Lemma exec_GetRepoRoot_trimmed_witness :
  let sh := Fixtures.shell (lit "/home/me/repo\n") None in
  gitexec.GetRepoRoot sh = ("/home/me/repo", None)
  /\ endsWithSpace (fst (gitexec.GetRepoRoot sh)) = false.
Proof.
  intros sh.
  destruct (proj1 (exec_GetRepoRoot_trimmed sh) eq_refl) as [Hroot [_ Hend]].
  split; [|exact Hend].
  rewrite Hroot. vm_compute. reflexivity.
Defined.

(** ** More on the generation client *)

(** X14.  The client [NewClient] returns has a base URL, a model and a
    timeout that are not the zero values, keeps the API key it is given,
    and is what [NewClient] returns again on its own fields. *)
Theorem NewClient_defaults (apiKey baseURL model : string)
  (timeout : time.Duration) :
  let c := ai.NewClient apiKey baseURL model timeout in
  ai.baseURL c <> EmptyString
  /\ ai.model c <> EmptyString
  /\ ai.timeout c <> 0%Z
  /\ ai.apiKey c = apiKey
  /\ ai.NewClient (ai.apiKey c) (ai.baseURL c) (ai.model c) (ai.timeout c)
     = c.
Proof.
  unfold ai.NewClient. cbv zeta. simpl ai.baseURL. simpl ai.model.
  simpl ai.timeout. simpl ai.apiKey.
  destruct (String.eqb_spec baseURL EmptyString) as [->|Hb];
    destruct (String.eqb_spec model EmptyString) as [->|Hm];
    destruct (Z.eqb_spec timeout 0) as [->|Ht];
    repeat match goal with
           | |- _ /\ _ => split
           | |- _ <> _ => first [assumption | discriminate]
           end;
    try reflexivity;
    rewrite ?(proj2 (String.eqb_neq _ _) Hb),
      ?(proj2 (String.eqb_neq _ _) Hm), ?(proj2 (Z.eqb_neq _ _) Ht);
    reflexivity.
Qed.

(** A call whose request cannot be built returns an error. *)
Lemma generate_unbuilt_result (net : ai.Net) (c : ai.OllamaClient)
  (diff rules : string) (gitState : option git.GitState) :
  requestOf net c diff rules gitState = None ->
  exists e,
    ai.GenerateCommitMessage net c diff rules gitState []
    = ((EmptyString, Some e), []).
Proof.
  unfold requestOf, ai.GenerateCommitMessage. cbv zeta.
  destruct (ai.json_Marshal net _) as [jsonBody|e]; [|now eexists].
  destruct (ai.http_NewRequest net "POST" (ai.baseURL c) jsonBody)
    as [req0|e] eqn:Hreq; [discriminate|].
  intros _. change ai.attemptRange with [0; 1; 2; 3]%Z.
  cbn [ai.retryLoop]. unfold ai.bind, ai.ret. simpl.
  rewrite Hreq. now eexists.
Qed.

(** Every call follows a schedule of at most four attempts and concludes
    on the answer to the last of them. *)
Lemma generate_shape (net : ai.Net) (c : ai.OllamaClient)
  (diff rules : string) (gitState : option git.GitState) :
  (exists e,
     requestOf net c diff rules gitState = None
     /\ ai.GenerateCommitMessage net c diff rules gitState []
        = ((EmptyString, Some e), []))
  \/ (exists req k,
        requestOf net c diff rules gitState = Some req
        /\ (k <= 3)%nat
        /\ ai.GenerateCommitMessage net c diff rules gitState []
           = (conclude net (ai.server net k req), schedule req (S k))).
Proof.
  destruct (requestOf net c diff rules gitState) as [req|] eqn:Hreq.
  - right.
    destruct (first_unlimited (rateLimited net req) 3)
      as [k [Hk [Hall Hend]]].
    exists req, k. split; [reflexivity|]. split; [exact Hk|].
    exact (generate_run net c diff rules gitState req k Hreq Hk Hall Hend).
  - left. destruct (generate_unbuilt_result net c diff rules gitState Hreq)
      as [e E].
    exists e. now split.
Qed.

(** What [conclude] returns: an error with the empty string, or the
    trimmed text decoded from a response of status 200 that was not
    empty. *)
Lemma conclude_cases (net : ai.Net) (r : http.Response + string) :
  (exists e, conclude net r = (EmptyString, Some e))
  \/ (exists resp o,
        r = inl resp
        /\ http.StatusCode resp = 200%Z
        /\ ai.json_Decode net (http.RespBody resp) = inl o
        /\ ai.Response o <> EmptyString
        /\ conclude net r = (strings.TrimSpace (ai.Response o), None)).
Proof.
  unfold conclude.
  destruct r as [resp|err]; [|left; now eexists].
  destruct (http.StatusCode resp =? 429)%Z; [left; now eexists|].
  destruct (Z.eqb_spec (http.StatusCode resp) 200) as [Hok|Hok];
    cbn [negb]; [|left; now eexists].
  destruct (ai.json_Decode net (http.RespBody resp)) as [o|e] eqn:Hdec;
    [|left; now eexists].
  destruct (String.eqb_spec (ai.Response o) EmptyString) as [E|E];
    [left; now eexists|].
  right. exists resp, o.
  split; [reflexivity|]. split; [exact Hok|]. split; [exact Hdec|].
  split; [exact E | reflexivity].
Qed.

(** X15.  A call returns either an error together with the empty string,
    or no error together with a message.  The message is then the
    trimmed generated text of the answer to the last exchange of the
    call, an answer of status 200 whose decoded text is not empty; it
    neither begins nor ends with a white space rune. *)
Theorem generate_result_shape (net : ai.Net) (c : ai.OllamaClient)
  (diff rules : string) (gitState : option git.GitState) :
  let call := ai.GenerateCommitMessage net c diff rules gitState [] in
  let result := fst call in
  (snd result <> None -> fst result = EmptyString)
  /\ (snd result = None ->
      startsWithSpace (fst result) = false
      /\ endsWithSpace (fst result) = false
      /\ exists req k resp o,
           requestOf net c diff rules gitState = Some req
           /\ (k <= 3)%nat
           /\ snd call = schedule req (S k)
           /\ ai.server net k req = inl resp
           /\ http.StatusCode resp = 200%Z
           /\ ai.json_Decode net (http.RespBody resp) = inl o
           /\ ai.Response o <> EmptyString
           /\ fst result = strings.TrimSpace (ai.Response o)).
Proof.
  cbv zeta.
  destruct (generate_shape net c diff rules gitState)
    as [[e [_ E]]|[req [k [Hreq [Hk E]]]]]; rewrite E; cbn [fst snd].
  - split; [reflexivity | discriminate].
  - destruct (conclude_cases net (ai.server net k req))
      as [[e Ec]|[resp [o [Hresp [Hok [Hdec [Htext Ec]]]]]]];
      rewrite Ec; cbn [fst snd].
    + split; [reflexivity | discriminate].
    + split; [intros H; now contradiction H|].
      intros _.
      destruct (TrimSpace_trimmed (ai.Response o)) as [Hs [He _]].
      split; [exact Hs|]. split; [exact He|].
      exists req, k, resp, o.
      split; [exact Hreq|]. split; [exact Hk|]. split; [reflexivity|].
      split; [exact Hresp|]. split; [exact Hok|]. split; [exact Hdec|].
      split; [exact Htext | reflexivity].
Qed.

Lemma generate_result_shape_witness :
  startsWithSpace (fst (fst (Fixtures.run [Fixtures.ok "  feat: x  "])))
  = false.
Proof.
  exact (proj1
           (proj2
              (generate_result_shape
                 (Fixtures.scripted [Fixtures.ok "  feat: x  "])
                 Fixtures.client "diff" EmptyString None)
              eq_refl)).
Defined.

(** X16.  Only a 429 answer is retried.  After any number of rate-limited
    attempts, a transport failure ends the call with the API-call error,
    and a 200 response that does not decode ends it with the decode
    error; in both cases no further attempt is made. *)
Theorem generate_no_retry_on_failure (net : ai.Net) (c : ai.OllamaClient)
  (diff rules : string) (gitState : option git.GitState)
  (req : http.Request) (k : nat) :
  requestOf net c diff rules gitState = Some req ->
  (k < 4)%nat ->
  (forall j, (j < k)%nat -> rateLimited net req j = true) ->
  (forall err,
     ai.server net k req = inr err ->
     ai.GenerateCommitMessage net c diff rules gitState []
     = ((EmptyString, Some ("API call failed: " ++ err)),
        schedule req (S k)))
  /\ (forall resp err,
        ai.server net k req = inl resp ->
        http.StatusCode resp = 200%Z ->
        ai.json_Decode net (http.RespBody resp) = inr err ->
        ai.GenerateCommitMessage net c diff rules gitState []
        = ((EmptyString, Some ("failed to decode response: " ++ err)),
           schedule req (S k)))
  /\ ai.calls (schedule req (S k)) = S k.
Proof.
  intros Hreq Hk Hall. split; [|split].
  - intros err Hresp.
    assert (rateLimited net req k = false) as Hend
        by (unfold rateLimited; now rewrite Hresp).
    rewrite (generate_run net c diff rules gitState req k Hreq
               ltac:(lia) Hall (or_intror Hend)).
    unfold conclude. now rewrite Hresp.
  - intros resp err Hresp Hcode Hdec.
    assert (rateLimited net req k = false) as Hend
        by (rewrite (rateLimited_status _ _ _ _ Hresp), Hcode;
            reflexivity).
    rewrite (generate_run net c diff rules gitState req k Hreq
               ltac:(lia) Hall (or_intror Hend)).
    unfold conclude. now rewrite Hresp, Hcode, Hdec.
  - apply calls_schedule. lia.
Qed.

Lemma generate_no_retry_on_failure_witness :
  Fixtures.run [Fixtures.tooMany "wait"]
  = ((EmptyString, Some "API call failed: connection refused"),
     schedule
       (ai.setHeaders Fixtures.client
          {| http.Method := "POST";
             http.URL := "http://localhost:11434/api/generate";
             http.Body :=
               "{" ++ dq ++ "model" ++ dq ++ ":" ++ dq ++ "gpt-oss:120b"
               ++ dq ++ "}";
             http.Header := [] |})
       2).
Proof.
  refine (proj1
            (generate_no_retry_on_failure
               (Fixtures.scripted [Fixtures.tooMany "wait"])
               Fixtures.client "diff" EmptyString None _ 1%nat
               eq_refl ltac:(lia) _)
            "connection refused" eq_refl).
  intros j Hj. destruct j as [|j]; [reflexivity | lia].
Defined.

Lemma lookupHeader_set (h : list (string * string)) (key value : string) :
  lookupHeader
    (filter (fun kv => negb (String.eqb (fst kv) key)) h ++ [(key, value)])
    key
  = value.
Proof.
  induction h as [|[k v] h IH]; simpl.
  - now rewrite String.eqb_refl.
  - destruct (String.eqb k key) eqn:E; simpl; [exact IH|].
    now rewrite E.
Qed.

Lemma lookupHeader_other (h : list (string * string))
  (key value other : string) :
  String.eqb key other = false ->
  lookupHeader
    (filter (fun kv => negb (String.eqb (fst kv) key)) h ++ [(key, value)])
    other
  = lookupHeader h other.
Proof.
  intros Hne. induction h as [|[k v] h IH]; simpl.
  - now rewrite Hne.
  - destruct (String.eqb k key) eqn:E; simpl.
    + apply String.eqb_eq in E. subst k. now rewrite Hne.
    + destruct (String.eqb k other); [reflexivity | exact IH].
Qed.

(** X17.  Every exchange of a call sends one and the same request, and
    that request carries the bearer token of the client in its
    [Authorization] header and [application/json] as its content type,
    whatever headers the request was built with. *)
Theorem generate_requests (net : ai.Net) (c : ai.OllamaClient)
  (diff rules : string) (gitState : option git.GitState)
  (req : http.Request) :
  requestOf net c diff rules gitState = Some req ->
  HeaderGet req "Authorization" = "Bearer " ++ ai.apiKey c
  /\ HeaderGet req "Content-Type" = "application/json"
  /\ forall sent,
       In (ai.Do sent)
         (snd (ai.GenerateCommitMessage net c diff rules gitState [])) ->
       sent = req.
Proof.
  intros Hreq. split; [|split].
  - unfold requestOf in Hreq.
    destruct (ai.json_Marshal net _) as [jsonBody|e]; [|discriminate].
    destruct (ai.http_NewRequest net _ _ _) as [req0|e]; [|discriminate].
    injection Hreq as <-.
    unfold HeaderGet, ai.setHeaders, http.HeaderSet. cbn [http.Header].
    apply lookupHeader_set.
  - unfold requestOf in Hreq.
    destruct (ai.json_Marshal net _) as [jsonBody|e]; [|discriminate].
    destruct (ai.http_NewRequest net _ _ _) as [req0|e]; [|discriminate].
    injection Hreq as <-.
    unfold HeaderGet, ai.setHeaders, http.HeaderSet. cbn [http.Header].
    rewrite lookupHeader_other by reflexivity.
    apply lookupHeader_set.
  - intros sent Hin.
    destruct (generate_shape net c diff rules gitState)
      as [[e [Hnone _]]|[req' [k [Hreq' [Hk E]]]]]; [congruence|].
    rewrite Hreq in Hreq'. injection Hreq' as <-.
    rewrite E in Hin. cbn [snd] in Hin.
    destruct k as [|[|[|[|k]]]]; [| | | |lia]; simpl in Hin;
      repeat match goal with
             | H : _ \/ _ |- _ => destruct H as [H|H]
             | H : ai.Do _ = ai.Do _ |- _ => now injection H
             | H : ai.RetryNotice _ = ai.Do _ |- _ => discriminate H
             | H : ai.Sleep _ = ai.Do _ |- _ => discriminate H
             | H : False |- _ => contradiction
             end.
Qed.

Lemma generate_requests_witness :
  HeaderGet
    (ai.setHeaders Fixtures.client
       {| http.Method := "POST";
          http.URL := "http://localhost:11434/api/generate";
          http.Body :=
            "{" ++ dq ++ "model" ++ dq ++ ":" ++ dq ++ "gpt-oss:120b"
            ++ dq ++ "}";
          http.Header := [] |})
    "Authorization"
  = "Bearer test-api-key".
Proof.
  exact (proj1
           (generate_requests (Fixtures.scripted [Fixtures.ok "x"])
              Fixtures.client "diff" EmptyString None _ eq_refl)).
Defined.

(** X18.  A call sleeps before each attempt but the first and for 14
    seconds at most: nothing when it makes one attempt or none, 2 seconds
    for two attempts, 6 for three and 14 for four. *)
Theorem generate_sleep_total (net : ai.Net) (c : ai.OllamaClient)
  (diff rules : string) (gitState : option git.GitState) :
  let trace :=
    snd (ai.GenerateCommitMessage net c diff rules gitState []) in
  (0 <= sleptTotal trace <= 14 * time.Second)%Z
  /\ sleptTotal trace
     = match ai.calls trace with
       | 0%nat | 1%nat => 0
       | 2%nat => 2 * time.Second
       | 3%nat => 6 * time.Second
       | _ => 14 * time.Second
       end%Z
  /\ (ai.calls trace <= 4)%nat.
Proof.
  cbv zeta.
  destruct (generate_shape net c diff rules gitState)
    as [[e [_ E]]|[req [k [_ [Hk E]]]]]; rewrite E; cbn [snd].
  - split; [vm_compute; split; discriminate|]. split; [reflexivity|].
    unfold ai.calls. simpl. lia.
  - destruct k as [|[|[|[|k]]]]; [| | | |lia];
      (split; [vm_compute; split; discriminate|]);
      (split; [reflexivity | unfold ai.calls; simpl; lia]).
Qed.

(** ** More on the prompt *)

(** X19.  The prompt depends on the diff, the rules and the type and
    original message of the state only: neither the client (and so not
    its API key) nor the conflict flag of the state changes it.  A state
    whose type is none of the four named values gets the banner and the
    rule of the state context with nothing between them. *)
Theorem buildPrompt_dependencies (c c' : ai.OllamaClient)
  (diff rules : string) (t : git.GitStateType) (message : string)
  (conflict conflict' : bool) :
  ai.buildPrompt c diff rules (stateOf t message conflict)
  = ai.buildPrompt c' diff rules (stateOf t message conflict')
  /\ ai.buildPrompt c diff rules None = ai.buildPrompt c' diff rules None
  /\ (namedState t = false ->
      ai.writeStateContext EmptyString (stateOf t message conflict)
      = contextBanner ++ contextRule).
Proof.
  split; [reflexivity|]. split; [reflexivity|].
  unfold namedState, ai.writeStateContext, stateOf. cbn [git.Type_].
  intros H.
  apply orb_false_elim in H. destruct H as [H Hc].
  apply orb_false_elim in H. destruct H as [H Hr].
  apply orb_false_elim in H. destruct H as [Hn Hm].
  rewrite Hn, Hm, Hr, Hc. vm_compute. reflexivity.
Qed.

Lemma buildPrompt_dependencies_witness :
  ai.writeStateContext EmptyString (stateOf 999%Z "note" true)
  = contextBanner ++ contextRule.
Proof.
  exact (proj2
           (proj2
              (buildPrompt_dependencies Fixtures.client Fixtures.client
                 "diff" EmptyString 999%Z "note" true true))
           eq_refl).
Defined.


(** ** The rules file *)

Section RepoRoot.

Variable sys : os.System.
Variable Dir : string -> string.


Lemma findRepoRootFrom_returns (n fuel : nat) (dir : string) :
  Dir (ancestor Dir n dir) = ancestor Dir n dir ->
  (n < fuel)%nat ->
  exists r,
    config.findRepoRootFrom sys Dir fuel dir = Some r
    /\ config.findRepoRootFrom sys Dir (S n) dir = Some r.
Proof.
  revert fuel dir. induction n as [|n IH]; intros fuel dir Hfix Hfuel.
  - destruct fuel as [|fuel]; [lia|]. simpl in *.
    destruct (git.statOK _); [now eexists|].
    rewrite Hfix, String.eqb_refl. now eexists.
  - destruct fuel as [|fuel]; [lia|].
    cbn [config.findRepoRootFrom].
    destruct (git.statOK _); [now eexists|].
    destruct (String.eqb (Dir dir) dir); [now eexists|].
    apply IH; [exact Hfix | lia].
Qed.


(** X22.  Once some ancestor of the working directory is its own parent,
    [LoadRules] returns, and the same whatever the number of turns
    allowed beyond that ancestor.  It treats every absence as empty
    rules: a working directory that cannot be determined, a search that
    finds no repository and a rules file that does not exist all give the
    empty string and no error.  An error is returned only when the rules
    file of the repository found cannot be read for another reason, and
    then with the empty string; otherwise the rules are the content of
    that file. *)
Theorem LoadRules_absences (fuel n : nat) :
  Dir (ancestor Dir n (fst (os.Getwd sys)))
  = ancestor Dir n (fst (os.Getwd sys)) ->
  (n < fuel)%nat ->
  let rulesFile root :=
    os.ReadFile sys (os.Join sys root ".git-commit-rules-for-ai") in
  exists r out,
    config.findRepoRoot sys Dir fuel = Some r
    /\ config.LoadRules sys Dir fuel = Some out
    /\ config.LoadRules sys Dir (S n) = Some out
    /\ (snd r <> None -> out = (EmptyString, None))
    /\ (snd r = None ->
        rulesFile (fst r) = inr os.ErrNotExist ->
        out = (EmptyString, None))
    /\ (forall content,
          snd r = None ->
          rulesFile (fst r) = inl content ->
          out = (content, None))
    /\ (forall e,
          snd out = Some e ->
          fst out = EmptyString
          /\ snd r = None
          /\ rulesFile (fst r) = inr (os.ErrOther e)).
Proof.
  intros Hfix Hfuel. cbv zeta.
  assert (exists r,
            config.findRepoRoot sys Dir fuel = Some r
            /\ config.findRepoRoot sys Dir (S n) = Some r)
    as [r [Hroot Hroot']].
  { unfold config.findRepoRoot in *.
    destruct (os.Getwd sys) as [wd [err|]]; cbn [fst] in Hfix.
    - now eexists.
    - now apply findRepoRootFrom_returns. }
  exists r. unfold config.LoadRules. rewrite Hroot, Hroot'.
  destruct r as [root [err|]]; cbn [fst snd].
  - exists (EmptyString, None).
    repeat split; try reflexivity; discriminate.
  - destruct (os.ReadFile sys _) as [content|[|msg]].
    + exists (content, None).
      repeat split; try reflexivity; try discriminate.
      * intros H. now contradiction H.
      * now intros c' _ [= ->].
    + exists (EmptyString, None).
      repeat split; try reflexivity; discriminate.
    + exists (EmptyString, Some msg).
      split; [reflexivity|]. split; [reflexivity|]. split; [reflexivity|].
      split; [intros H; now contradiction H|].
      split; [discriminate|]. split; [discriminate|].
      cbn [fst snd]. now intros e [= <-].
Qed.

End RepoRoot.


Lemma LoadRules_absences_witness :
  config.LoadRules Fixtures.nestedSystem Fixtures.parentDir 10
  = Some (lit "Use Jira ids\n", None).
Proof.
  destruct (LoadRules_absences Fixtures.nestedSystem Fixtures.parentDir
              10 3 eq_refl ltac:(lia))
    as [r [out [Hroot [Hout [_ [_ [_ [Hcontent _]]]]]]]].
  rewrite Hout. vm_compute in Hroot. injection Hroot as <-.
  now rewrite (Hcontent (lit "Use Jira ids\n") eq_refl eq_refl).
Defined.

(** ** The run of the tool *)

Section RunProperties.

Variable ToLower : string -> string.

(** X23.  When the directory is not inside a repository or nothing is
    staged, or either check fails, [Run] returns an error and writes
    nothing, and the rules, the state, the diff and the AI client play no
    part: two applications with the same outcomes of the two checks run
    alike. *)
Theorem Run_preflight (a a' : app.App) :
  preflight a = false ->
  app.IsInsideRepo (app.Git a') = app.IsInsideRepo (app.Git a) ->
  app.HasStagedChanges (app.Git a') = app.HasStagedChanges (app.Git a) ->
  (exists e, app.Run ToLower a = (app.Return (Some e), []))
  /\ app.Run ToLower a' = app.Run ToLower a.
Proof.
  unfold preflight, app.Run. intros Hpre -> ->.
  destruct (app.IsInsideRepo (app.Git a)) as [[|] [e|]];
    try (split; [now eexists | reflexivity]).
  destruct (app.HasStagedChanges (app.Git a)) as [[|] [e|]];
    try (split; [now eexists | reflexivity]).
  discriminate.
Qed.

(** X24.  A failed state detection is not fatal: [Run] ends as it does
    with a detected normal state.  [Run] panics exactly when the checks
    pass and the detection returns neither a state nor an error. *)
Theorem Run_detection_fallback (a : app.App) :
  (forall st err,
     app.DetectState (app.Git a) = (st, Some err) ->
     fst (app.Run ToLower a)
     = fst (app.Run ToLower
              (withDetectState a (Some normalState, None))))
  /\ (fst (app.Run ToLower a) = app.Panic
      <-> preflight a = true
          /\ app.DetectState (app.Git a) = (None, None)).
Proof.
  unfold preflight, app.Run, withDetectState.
  cbn [app.Git app.IsInsideRepo app.HasStagedChanges app.DetectState
         app.GetStagedDiff app.LoadRules app.AI].
  destruct (app.IsInsideRepo (app.Git a)) as [[|] [e|]];
    try (split; [reflexivity | split; [discriminate | intros [? _]; discriminate]]).
  destruct (app.HasStagedChanges (app.Git a)) as [[|] [e|]];
    try (split; [reflexivity | split; [discriminate | intros [? _]; discriminate]]).
  destruct (app.LoadRules a) as [rules lerr].
  split.
  - intros st err ->. cbv beta iota zeta.
    change (normalState) with
      {| git.Type_ := git.StateNormal; git.OriginalMessage := EmptyString;
         git.ConflictMode := false |}.
    change (negb (git.StateNormal =? git.StateNormal)%Z) with false.
    cbv iota.
    destruct (app.GetStagedDiff (app.Git a)) as [diff [e|]];
      [reflexivity|].
    destruct (app.AI a diff rules _) as [message [e|]]; reflexivity.
  - destruct (app.DetectState (app.Git a)) as [[st|] [err|]];
      cbv beta iota zeta.
    + change (negb (git.StateNormal =? git.StateNormal)%Z) with false.
      cbv iota.
      destruct (app.GetStagedDiff (app.Git a)) as [diff [e|]];
        [split; [discriminate | intros [_ ?]; discriminate]|].
      destruct (app.AI a diff rules _) as [message [e|]];
        split; try discriminate; intros [_ ?]; discriminate.
    + destruct (app.GetStagedDiff (app.Git a)) as [diff [e|]];
        [split; [discriminate | intros [_ ?]; discriminate]|].
      destruct (app.AI a diff rules _) as [message [e|]];
        split; try discriminate; intros [_ ?]; discriminate.
    + change (negb (git.StateNormal =? git.StateNormal)%Z) with false.
      cbv iota.
      destruct (app.GetStagedDiff (app.Git a)) as [diff [e|]];
        [split; [discriminate | intros [_ ?]; discriminate]|].
      destruct (app.AI a diff rules _) as [message [e|]];
        split; try discriminate; intros [_ ?]; discriminate.
    + split; [now split | reflexivity].
Qed.

(** X25.  When [Run] returns no error, both checks passed, the diff
    was obtained, and the AI client answered without error for that
    diff, the rules text as the loader returned it (even beside an
    error) and the state detected, or the normal state when the
    detection failed.  The message is then the last thing written, on
    standard output and in full. *)
Theorem Run_success (a : app.App) :
  fst (app.Run ToLower a) = app.Return None ->
  exists st diff message before pre post,
    preflight a = true
    /\ app.GetStagedDiff (app.Git a) = (diff, None)
    /\ (app.DetectState (app.Git a) = (Some st, None)
        \/ (snd (app.DetectState (app.Git a)) <> None
            /\ st = normalState))
    /\ app.AI a diff (fst (app.LoadRules a)) (Some st) = (message, None)
    /\ snd (app.Run ToLower a)
       = (before ++ [app.Stdout (pre ++ message ++ post)])%list.
Proof.
  unfold preflight, app.Run.
  destruct (app.IsInsideRepo (app.Git a)) as [[|] [e|]]; try discriminate.
  destruct (app.HasStagedChanges (app.Git a)) as [[|] [e|]];
    try discriminate.
  destruct (app.LoadRules a) as [rules lerr]. cbn [fst].
  assert (forall out message,
             exists before pre post,
               (out ++ app.printMessage ToLower message)%list
               = (before ++ [app.Stdout (pre ++ message ++ post)])%list)
    as Hprint.
  { intros out message. unfold app.printMessage. cbv zeta.
    destruct (_ || _ || _ || _).
    - exists (out ++ [app.Stdout
                        (nl ++ ESC ++ "[33mAI Suggestion (Split Changes):"
                         ++ ESC ++ "[0m" ++ nl)])%list,
        EmptyString, nl.
      now rewrite <- app_assoc.
    - exists out, (nl ++ ESC ++ "[36m"), (ESC ++ "[0m" ++ nl).
      now rewrite !append_assoc. }
  destruct (app.DetectState (app.Git a)) as [[st|] [err|]];
    cbv beta iota zeta; try discriminate.
  - change (negb (git.StateNormal =? git.StateNormal)%Z) with false.
    cbv iota.
    destruct (app.GetStagedDiff (app.Git a)) as [diff [e|]];
      [discriminate|].
    destruct (app.AI a diff rules _) as [message [e|]] eqn:Hai;
      [discriminate|].
    intros _. cbn [snd].
    destruct (Hprint
                ((match lerr with
                  | Some err0 =>
                      [app.Stdout
                         ("Warning: failed to load rules: " ++ err0
                          ++ ". Proceeding without rules." ++ nl)]
                  | None => []
                  end
                  ++ [app.Stdout
                        ("Warning: failed to detect git state: " ++ err
                         ++ ". Proceeding with normal state." ++ nl)])
                 ++ [app.Stdout ("Generating commit message..." ++ nl)])%list
                message) as [before [pre [post E]]].
    exists normalState, diff, message, before, pre, post.
    split; [reflexivity|]. split; [reflexivity|].
    split; [right; split; [discriminate | reflexivity]|].
    split; [exact Hai | exact E].
  - destruct (app.GetStagedDiff (app.Git a)) as [diff [e|]];
      [discriminate|].
    destruct (app.AI a diff rules _) as [message [e|]] eqn:Hai;
      [discriminate|].
    intros _. cbn [snd].
    match goal with
    | |- context [(?out ++ app.printMessage ToLower message)%list] =>
        destruct (Hprint out message) as [before [pre [post E]]]
    end.
    exists st, diff, message, before, pre, post.
    split; [reflexivity|]. split; [reflexivity|].
    split; [now left|]. split; [exact Hai | exact E].
  - change (negb (git.StateNormal =? git.StateNormal)%Z) with false.
    cbv iota.
    destruct (app.GetStagedDiff (app.Git a)) as [diff [e|]];
      [discriminate|].
    destruct (app.AI a diff rules _) as [message [e|]] eqn:Hai;
      [discriminate|].
    intros _. cbn [snd].
    match goal with
    | |- context [(?out ++ app.printMessage ToLower message)%list] =>
        destruct (Hprint out message) as [before [pre [post E]]]
    end.
    exists normalState, diff, message, before, pre, post.
    split; [reflexivity|]. split; [reflexivity|].
    split; [right; split; [discriminate | reflexivity]|].
    split; [exact Hai | exact E].
Qed.

(** X26.  [Run] never panics when its state detection is
    [DetectGitState], at whatever root: that function never returns a
    [nil] state without an error. *)
Theorem Run_with_DetectGitState (a : app.App) (sys : os.System)
  (repoRoot : string) :
  app.DetectState (app.Git a) = git.DetectGitState sys repoRoot ->
  fst (app.Run ToLower a) <> app.Panic.
Proof.
  intros Hdetect Hpanic.
  assert (app.DetectState (app.Git a) = (None, None)) as Hnil.
  { revert Hpanic. unfold app.Run.
    destruct (app.IsInsideRepo (app.Git a)) as [[|] [e|]];
      try discriminate.
    destruct (app.HasStagedChanges (app.Git a)) as [[|] [e|]];
      try discriminate.
    destruct (app.LoadRules a) as [rules lerr].
    destruct (app.DetectState (app.Git a)) as [[st|] [err|]];
      cbv beta iota zeta; [| | |reflexivity];
      try (change (negb (git.StateNormal =? git.StateNormal)%Z)
            with false; cbv iota);
      (destruct (app.GetStagedDiff (app.Git a)) as [diff [e|]];
       [discriminate|]);
      destruct (app.AI a diff rules _) as [message [e|]]; discriminate. }
  rewrite Hdetect in Hnil.
  destruct (os.IsNotExist (os.Stat sys (gitDirOf sys repoRoot))) eqn:Hgit.
  - rewrite (detect_absent sys repoRoot Hgit) in Hnil. discriminate.
  - rewrite (detect_cases sys repoRoot Hgit) in Hnil. discriminate.
Qed.

End RunProperties.

Lemma Run_preflight_witness :
  app.Run Fixtures.toLower
    (withDetectState Fixtures.outsideRepo (Some normalState, None))
  = (app.Return (Some "not a git repository"), []).
Proof.
  rewrite (proj2
             (Run_preflight Fixtures.toLower Fixtures.outsideRepo
                (withDetectState Fixtures.outsideRepo
                   (Some normalState, None))
                eq_refl eq_refl eq_refl)).
  reflexivity.
Defined.

Lemma Run_detection_fallback_witness :
  fst (app.Run Fixtures.toLower
         (Fixtures.application (None, Some "permission denied")))
  = app.Return None.
Proof.
  rewrite (proj1
             (Run_detection_fallback Fixtures.toLower
                (Fixtures.application (None, Some "permission denied")))
             None "permission denied" eq_refl).
  reflexivity.
Defined.

Lemma Run_success_witness :
  exists message before pre post,
    app.AI (Fixtures.application (Some normalState, None)) "diff"
      EmptyString (Some normalState)
    = (message, None)
    /\ snd (app.Run Fixtures.toLower
              (Fixtures.application (Some normalState, None)))
       = (before ++ [app.Stdout (pre ++ message ++ post)])%list.
Proof.
  destruct (Run_success Fixtures.toLower
              (Fixtures.application (Some normalState, None)) eq_refl)
    as [st [diff [message [before [pre [post [_ [Hd [Hs [Hai E]]]]]]]]]].
  exists message, before, pre, post.
  cbn in Hd. injection Hd as <-.
  destruct Hs as [Hs|[Hs _]].
  - cbn in Hs. injection Hs as <-. now split.
  - now contradiction Hs.
Defined.

Lemma Run_with_DetectGitState_witness :
  fst (app.Run Fixtures.toLower
         (Fixtures.application
            (git.DetectGitState (Fixtures.system []) "/tmp/x")))
  <> app.Panic.
Proof.
  exact (Run_with_DetectGitState Fixtures.toLower
           (Fixtures.application
              (git.DetectGitState (Fixtures.system []) "/tmp/x"))
           (Fixtures.system []) "/tmp/x" eq_refl).
Defined.

(** ** Initialization and the pre-commit hooks *)

(** X27.  Each hook is a fixed script around one line that calls the
    executable, whose path is put between double quotes as it is.  The
    path is the absolute path of the running executable when it can be
    made absolute, the path as reported otherwise, and [generate-commit]
    when the executable is not known.  The script is the batch one on
    [windows] and the bash one on every other system. *)
Theorem hooks_call_executable (p : appinit.Platform) :
  appinit.generateUnixHook p
  = hookBefore unixHookOfEmptyPath (unixCallLine EmptyString)
    ++ unixCallLine (appinit.hookExePath p)
    ++ hookAfter unixHookOfEmptyPath (unixCallLine EmptyString)
  /\ appinit.generateWindowsHook p
     = hookBefore windowsHookOfEmptyPath (windowsCallLine EmptyString)
       ++ windowsCallLine (appinit.hookExePath p)
       ++ hookAfter windowsHookOfEmptyPath (windowsCallLine EmptyString)
  /\ strings.HasPrefix
       (hookBefore unixHookOfEmptyPath (unixCallLine EmptyString))
       (lit "#!/bin/bash\n") = true
  /\ strings.HasPrefix
       (hookBefore windowsHookOfEmptyPath (windowsCallLine EmptyString))
       (lit "@echo off\n") = true
  /\ appinit.generatePreCommitHook p
     = (if String.eqb (appinit.GOOS p) "windows"
        then appinit.generateWindowsHook p
        else appinit.generateUnixHook p,
        None)
  /\ appinit.hookExePath p
     = match appinit.Executable p with
       | (_, Some _) => "generate-commit"
       | (exePath, None) =>
           match appinit.Abs p exePath with
           | (absPath, None) => absPath
           | (_, Some _) => exePath
           end
       end.
Proof.
  split; [|split; [|split; [|split; [|split]]]].
  - unfold appinit.generateUnixHook. cbv zeta.
    generalize (appinit.hookExePath p). intros exePath.
    unfold unixCallLine. rewrite !append_assoc.
    vm_compute. reflexivity.
  - unfold appinit.generateWindowsHook. cbv zeta.
    generalize (appinit.hookExePath p). intros exePath.
    unfold windowsCallLine. rewrite !append_assoc.
    vm_compute. reflexivity.
  - vm_compute. reflexivity.
  - vm_compute. reflexivity.
  - unfold appinit.generatePreCommitHook.
    destruct (String.eqb (appinit.GOOS p) "windows"); reflexivity.
  - reflexivity.
Qed.

(** Generating the hook never fails. *)
Lemma generatePreCommitHook_ok (p : appinit.Platform) :
  exists hook, appinit.generatePreCommitHook p = (hook, None).
Proof.
  unfold appinit.generatePreCommitHook.
  destruct (String.eqb (appinit.GOOS p) "windows"); eexists; reflexivity.
Qed.

(** The effects of a successful run, once the lists are flattened, are
    the two events with the events of [before] and [between] around
    them. *)
Tactic Notation "ordered_effects" open_constr(before) open_constr(between) :=
  intros _; right; eexists _, before, between, _;
  split; [reflexivity|]; split; [auto|]; split; [|eassumption];
  cbn [snd app]; rewrite <- ?app_assoc; cbn [app]; reflexivity.

(** The write events among the effects listed in [Hin]. *)
Ltac written Hin :=
  cbn in Hin;
  repeat match goal with
         | H : _ \/ _ |- _ => destruct H as [H|H]
         | H : appinit.Print _ = appinit.Write _ _ _ |- _ => discriminate H
         | H : appinit.SaveConfig _ = appinit.Write _ _ _ |- _ =>
             discriminate H
         | H : appinit.Write _ _ _ = appinit.Write _ _ _ |- _ =>
             injection H as <- <- <-
         | H : False |- _ => contradiction
         end;
  repeat split; auto.

(** X28.  [Init] writes no file but the rules file and the hook, and
    only after the repository root is known, the repository is not yet
    initialized or [force] is set, and the default config was saved: the
    rules file, with its default content and mode 0644, only when
    [os.Stat] reports that it does not exist; and the hook of the
    platform, with mode 0755, at the hook path (with [.bat] appended on
    [windows]). *)
Theorem Init_writes (p : appinit.Platform) (force : bool)
  (path content : string) (perm : Z) :
  In (appinit.Write path content perm) (snd (appinit.Init p force)) ->
  exists root,
    appinit.IsInsideRepo p = (true, None)
    /\ appinit.GetRepoRoot p = (root, None)
    /\ (force = true \/ appinit.ConfigExists p = (false, None))
    /\ appinit.SaveDefaultConfig p root = None
    /\ ((path = rulesPathOf p root
         /\ content = appinit.rulesContent
         /\ perm = appinit.perm0644
         /\ os.IsNotExist (appinit.Stat p (rulesPathOf p root)) = true)
        \/ (path = hookPathOf p root
            /\ content = fst (appinit.generatePreCommitHook p)
            /\ perm = appinit.perm0755)).
Proof.
  unfold appinit.Init, rulesPathOf, hookPathOf.
  destruct (appinit.IsInsideRepo p) as [[|] [e|]]; try contradiction.
  destruct (appinit.GetRepoRoot p) as [root [e|]]; try contradiction.
  destruct (generatePreCommitHook_ok p) as [hook Hhook].
  rewrite Hhook. cbn [fst]. cbv zeta.
  set (hookPath :=
         if String.eqb (appinit.GOOS p) "windows"
         then appinit.JoinAll p [root; ".git"; "hooks"; "pre-commit"] ++ ".bat"
         else appinit.JoinAll p [root; ".git"; "hooks"; "pre-commit"]).
  intros Hin. exists root.
  destruct force; cbn [negb] in Hin |- *.
  - destruct (appinit.SaveDefaultConfig p root) as [e|];
      [cbn in Hin; intuition discriminate|].
    destruct (os.IsNotExist (appinit.Stat p _)) eqn:Hstat.
    + destruct (appinit.WriteFile p _ appinit.rulesContent _) as [e|];
        [|destruct (appinit.WriteFile p hookPath _ _)];
        written Hin.
    + destruct (appinit.WriteFile p hookPath _ _);
        written Hin.
  - destruct (appinit.ConfigExists p) as [[|] [e|]];
      try (cbn in Hin; intuition discriminate).
    destruct (appinit.SaveDefaultConfig p root) as [e|];
      [cbn in Hin; intuition discriminate|].
    destruct (os.IsNotExist (appinit.Stat p _)) eqn:Hstat.
    + destruct (appinit.WriteFile p _ appinit.rulesContent _) as [e|];
        [|destruct (appinit.WriteFile p hookPath _ _)];
        written Hin.
    + destruct (appinit.WriteFile p hookPath _ _);
        written Hin.
Qed.

Lemma Init_writes_witness :
  hookPathOf (Fixtures.platform false []) "/repo"
  = "/repo/.git/hooks/pre-commit"
  /\ os.IsNotExist
       (appinit.Stat (Fixtures.platform false [])
          "/repo/.git-commit-rules-for-ai")
     = true.
Proof.
  split; [reflexivity|].
  destruct (Init_writes (Fixtures.platform false []) false
              "/repo/.git-commit-rules-for-ai" appinit.rulesContent
              appinit.perm0644)
    as [root [_ [Hroot [_ [_ [[_ [_ [_ H]]]|[H _]]]]]]].
  - vm_compute. tauto.
  - cbn in Hroot. injection Hroot as <-. exact H.
  - cbn in Hroot. injection Hroot as <-. vm_compute in H. discriminate.
Defined.

(** X29.  Without [force], [Init] leaves an initialized repository
    alone: when the config exists it returns no error and does nothing
    but print one line.  When it returns no error otherwise, it has saved
    the default config and written the hook, in this order, and the write
    of the hook succeeded. *)
Theorem Init_success (p : appinit.Platform) (force : bool) :
  fst (appinit.Init p force) = None ->
  (force = false
   /\ appinit.ConfigExists p = (true, None)
   /\ exists line, snd (appinit.Init p force) = [appinit.Print line])
  \/ (exists root before between behind,
        appinit.GetRepoRoot p = (root, None)
        /\ (force = true \/ appinit.ConfigExists p = (false, None))
        /\ snd (appinit.Init p force)
           = (before ++ appinit.SaveConfig root :: between
              ++ appinit.Write (hookPathOf p root)
                   (fst (appinit.generatePreCommitHook p))
                   appinit.perm0755 :: behind)%list
        /\ appinit.WriteFile p (hookPathOf p root)
             (fst (appinit.generatePreCommitHook p)) appinit.perm0755
           = None).
Proof.
  unfold appinit.Init, hookPathOf.
  destruct (appinit.IsInsideRepo p) as [[|] [e|]]; try discriminate.
  destruct (appinit.GetRepoRoot p) as [root [e|]]; try discriminate.
  destruct (generatePreCommitHook_ok p) as [hook Hhook].
  rewrite Hhook. cbn [fst]. cbv zeta.
  set (hookPath :=
         if String.eqb (appinit.GOOS p) "windows"
         then appinit.JoinAll p [root; ".git"; "hooks"; "pre-commit"] ++ ".bat"
         else appinit.JoinAll p [root; ".git"; "hooks"; "pre-commit"]).
  destruct force; cbn [negb].
  - destruct (appinit.SaveDefaultConfig p root) as [e|]; [discriminate|].
    destruct (os.IsNotExist (appinit.Stat p _)).
    + destruct (appinit.WriteFile p _ appinit.rulesContent _) as [e|];
        [discriminate|].
      destruct (appinit.WriteFile p hookPath hook _) as [e|] eqn:Hw;
        [discriminate|].
      ordered_effects [appinit.Print _; appinit.Print _]
                      [appinit.Print _; appinit.Write _ _ _; appinit.Print _].
    + destruct (appinit.WriteFile p hookPath hook _) as [e|] eqn:Hw;
        [discriminate|].
      ordered_effects [appinit.Print _; appinit.Print _]
                      [appinit.Print _; appinit.Print _].
  - destruct (appinit.ConfigExists p) as [[|] [e|]]; try discriminate.
    + intros _. left. split; [reflexivity|]. split; [reflexivity|].
      eexists. reflexivity.
    + destruct (appinit.SaveDefaultConfig p root) as [e|]; [discriminate|].
      destruct (os.IsNotExist (appinit.Stat p _)).
      * destruct (appinit.WriteFile p _ appinit.rulesContent _) as [e|];
          [discriminate|].
        destruct (appinit.WriteFile p hookPath hook _) as [e|] eqn:Hw;
          [discriminate|].
        ordered_effects [appinit.Print _]
                        [appinit.Print _; appinit.Write _ _ _;
                         appinit.Print _].
      * destruct (appinit.WriteFile p hookPath hook _) as [e|] eqn:Hw;
          [discriminate|].
        ordered_effects [appinit.Print _]
                        [appinit.Print _; appinit.Print _].
Qed.

Lemma Init_success_witness :
  exists line,
    snd (appinit.Init (Fixtures.platform true []) false)
    = [appinit.Print line].
Proof.
  destruct (Init_success (Fixtures.platform true []) false eq_refl)
    as [[_ [_ H]]|[root [before [between [behind [_ [[H|H] _]]]]]]].
  - exact H.
  - discriminate H.
  - vm_compute in H. discriminate H.
Defined.
